(** * Trading-signal pipeline: signal parser, signal worker, order lifecycle

    A shallow embedding of
    - [apps/broker/functions/signal_parser.py]   (parse_signal),
    - [apps/broker/tasks/paser_signal_task.py]   (process_signal_task),
    - [apps/order/tasks/order_life_cycle_task.py] (simulate_order_lifecycle),
    together with the Django models they read and write, and the theorems
    that relate the code to the statements of the specification. *)

From Stdlib Require Import ZArith NArith List Bool Lia Ascii String SpecFloat
  DecimalString.
From stdpp Require Import gmap strings list.

Import ListNotations.
Local Open Scope Z_scope.

(* ===================================================================== *)
(** * Python text *)
(* ===================================================================== *)

(** A Python [str] is a sequence of code points.  The model works on
    [list ascii], a character standing for the code point with the same
    number (0..255); literals are written as Rocq strings and converted. *)
Module PyStr.

Abbreviation text := (list ascii).

Definition of_string (s : string) : text := list_ascii_of_string s.
Definition to_string (t : text) : string := string_of_list_ascii t.

Definition code (c : ascii) : N := N_of_ascii c.

Definition between (lo hi : N) (c : ascii) : bool :=
  ((lo <=? code c) && (code c <=? hi))%N.

(** [str.isspace] on one character, which is also what [str.strip],
    [str.split] without argument and the regular expression class [\s]
    use: TAB..CR, FS..US, space, NEL and NBSP. *)
Definition isspace (c : ascii) : bool :=
  between 9 13 c || between 28 32 c || (code c =? 133)%N || (code c =? 160)%N.

(** The decimal digits below code point 256 are the ASCII ones. *)
Definition isdecimal (c : ascii) : bool := between 48 57 c.

Definition digit_value (c : ascii) : Z := Z.of_N (code c) - 48.

Definition is_AZ (c : ascii) : bool := between 65 90 c.
Definition is_az (c : ascii) : bool := between 97 122 c.

(** [str.upper] and [str.lower] on the ASCII letters.  On the other code
    points [str.upper] yields a character that is none of S, L, T and P,
    or "SS" for U+00DF, which completes neither "SL" nor "TP": the two
    prefix tests of the parser, the only use of [upper], agree with this
    definition. *)
Definition upper_char (c : ascii) : ascii :=
  if is_az c then ascii_of_N (code c - 32) else c.
Definition lower_char (c : ascii) : ascii :=
  if is_AZ c then ascii_of_N (code c + 32) else c.
Definition upper (t : text) : text := map upper_char t.
Definition lower (t : text) : text := map lower_char t.

Fixpoint startswith (p t : text) : bool :=
  match p, t with
  | [], _ => true
  | _ :: _, [] => false
  | a :: p', b :: t' => Ascii.eqb a b && startswith p' t'
  end.

Definition endswith (p t : text) : bool := startswith (rev p) (rev t).

Fixpoint text_eqb (a b : text) : bool :=
  match a, b with
  | [], [] => true
  | x :: a', y :: b' => Ascii.eqb x y && text_eqb a' b'
  | _, _ => false
  end.

Fixpoint drop_while (p : ascii -> bool) (t : text) : text :=
  match t with
  | c :: r => if p c then drop_while p r else t
  | [] => []
  end.

Fixpoint take_while (p : ascii -> bool) (t : text) : text :=
  match t with
  | c :: r => if p c then c :: take_while p r else []
  | [] => []
  end.

Definition lstrip (t : text) : text := drop_while isspace t.
Definition rstrip (t : text) : text := rev (drop_while isspace (rev t)).
Definition strip (t : text) : text := rstrip (lstrip t).

(** [t[1:-1]] *)
Definition slice_1_m1 (t : text) : text := removelast (tl t).

(** [t.split(sep)] for a one-character separator: never the empty list. *)
Fixpoint split_on (sep : ascii) (t : text) : list text :=
  match t with
  | [] => [[]]
  | c :: r =>
      if Ascii.eqb c sep then [] :: split_on sep r
      else match split_on sep r with
           | cur :: rest => (c :: cur) :: rest
           | [] => [[c]]
           end
  end.

(** [t.split()]: the maximal runs of characters that are not spaces. *)
Fixpoint split_ws_go (cur : option text) (t : text) : list text :=
  let flush := match cur with Some w => [rev w] | None => [] end in
  match t with
  | [] => flush
  | c :: r =>
      if isspace c then flush ++ split_ws_go None r
      else split_ws_go (Some (c :: default [] cur)) r
  end.
Definition split_ws (t : text) : list text := split_ws_go None t.

Definition nl : ascii := ascii_of_N 10.
Definition dquote : ascii := ascii_of_N 34.
Definition squote : ascii := ascii_of_N 39.

(** The text whose lines are [ls], joined by newlines. *)
Fixpoint nl_join (ls : list string) : string :=
  match ls with
  | [] => EmptyString
  | [l] => l
  | l :: rest => String.append l (String nl (nl_join rest))
  end.

End PyStr.

(* ===================================================================== *)
(** * Python floats *)
(* ===================================================================== *)

(** A Python [float] is an IEEE 754 binary64 number: [spec_float] with
    [prec = 53] and [emax = 1024]; comparisons are [SFltb] and [SFleb], for
    which every comparison with a NaN is false. *)
Module PyFloat.
Import PyStr.

Abbreviation float := spec_float.

Definition prec : Z := 53.
Definition emax : Z := 1024.

Definition nan : float := S754_nan.
Definition inf (neg : bool) : float := S754_infinity neg.

(** [a < b], [a <= b], [a >= b] *)
Definition lt (a b : float) : bool := SFltb a b.
Definition le (a b : float) : bool := SFleb a b.
Definition ge (a b : float) : bool := SFleb b a.
Definition gt (a b : float) : bool := SFltb b a.

Definition is_nan (a : float) : bool :=
  match a with S754_nan => true | _ => false end.

(** The binary64 number nearest to [(-1)^neg * d * 10^x] (ties to even),
    for a natural number [d]. *)
Definition of_decimal (neg : bool) (d x : Z) : float :=
  match d with
  | Zpos p =>
      if 0 <=? x
      then binary_normalize prec emax (cond_Zopp neg (d * 10 ^ x)) 0 neg
      else SFdiv prec emax (S754_finite neg p 0)
                           (S754_finite false (Z.to_pos (10 ^ (- x))) 0)
  | _ => S754_zero neg
  end.

Definition digits_value (t : text) : Z :=
  fold_left (fun acc c => 10 * acc + digit_value c) t 0.

Definition is_char (n : N) (c : ascii) : bool := (code c =? n)%N.
Definition underscore : N := 95.

(** Underscores are allowed between two digits only; they are dropped.
    [prev] is the character before [t], if any. *)
Fixpoint strip_underscores (prev : option ascii) (t : text) : option text :=
  match t with
  | [] =>
      match prev with
      | Some p => if is_char underscore p then None else Some []
      | None => Some []
      end
  | c :: r =>
      if is_char underscore c then
        match prev with
        | Some p => if isdecimal p then strip_underscores (Some c) r else None
        | None => None
        end
      else
        match prev with
        | Some p =>
            if is_char underscore p && negb (isdecimal c) then None
            else option_map (cons c) (strip_underscores (Some c) r)
        | None => option_map (cons c) (strip_underscores (Some c) r)
        end
  end.

(** The white space [float] strips around its argument. *)
Definition float_space (c : ascii) : bool :=
  between 9 13 c || is_char 32 c || is_char 133 c || is_char 160 c.

Definition float_strip (t : text) : text :=
  rev (drop_while float_space (rev (drop_while float_space t))).

(** An optional sign: whether it is a minus, and the rest. *)
Definition take_sign (t : text) : bool * text :=
  match t with
  | c :: r =>
      if is_char 45 c then (true, r)
      else if is_char 43 c then (false, r)
      else (false, t)
  | [] => (false, t)
  end.

(** "inf", "infinity" and "nan", in any case. *)
Definition parse_inf_or_nan (neg : bool) (t : text) : option float :=
  let l := lower t in
  if text_eqb l (of_string "inf") || text_eqb l (of_string "infinity")
  then Some (inf neg)
  else if text_eqb l (of_string "nan") then Some nan
  else None.

(** The exponent part: empty, or [e] or [E], an optional sign and at least
    one digit, up to the end of the text. *)
Definition parse_exponent (t : text) : option Z :=
  match t with
  | [] => Some 0
  | c :: r =>
      if is_char 101 c || is_char 69 c then
        let '(eneg, ds) := take_sign r in
        match ds with
        | [] => None
        | _ :: _ =>
            if forallb isdecimal ds then Some (cond_Zopp eneg (digits_value ds))
            else None
        end
      else None
  end.

(** A decimal number: digits, an optional point and digits, at least one
    digit in all, and an optional exponent. *)
Definition parse_number (neg : bool) (t : text) : option float :=
  let ip := take_while isdecimal t in
  let r1 := drop_while isdecimal t in
  let '(fp, r2) :=
    match r1 with
    | c :: r =>
        if is_char 46 c then (take_while isdecimal r, drop_while isdecimal r)
        else ([], r1)
    | [] => ([], r1)
    end in
  match ip ++ fp with
  | [] => None
  | _ :: _ =>
      match parse_exponent r2 with
      | Some ex =>
          Some (of_decimal neg (digits_value (ip ++ fp))
                           (ex - Z.of_nat (length fp)))
      | None => None
      end
  end.

(** [float(t)] for a text [t]: [None] when Python raises [ValueError]. *)
Definition py_float (t : text) : option float :=
  match strip_underscores None t with
  | None => None
  | Some u =>
      let '(neg, body) := take_sign (float_strip u) in
      match parse_inf_or_nan neg body with
      | Some f => Some f
      | None => parse_number neg body
      end
  end.

End PyFloat.

(* ===================================================================== *)
(** * Regular expressions, as [re.match] runs them *)
(* ===================================================================== *)

(** A backtracking matcher with capture groups: alternatives are tried
    left to right, [Star] is greedy, and a group records the text matched by
    its last successful pass. *)
Module Regex.
Import PyStr.

Inductive regex :=
| Eps
| Class (p : ascii -> bool)
| Seq (r1 r2 : regex)
| Alt (r1 r2 : regex)
| Star (r : regex)
| Group (n : nat) (r : regex)
| Bol
| Eol.

(** The groups that took part in the match, the latest first. *)
Definition captures := list (nat * text).

Fixpoint group (n : nat) (c : captures) : option text :=
  match c with
  | [] => None
  | (m, t) :: c' => if Nat.eqb n m then Some t else group n c'
  end.

Definition cont := text -> captures -> option captures.

(** A matcher that leaves the group [n] as it found it. *)
Definition keeps (n : nat) (step : text -> captures -> cont -> option captures)
    : Prop :=
  forall s c k m, step s c k = Some m ->
    exists s' c', k s' c' = Some m /\ group n c' = group n c.

(** Greedy repetition of [step]; an iteration has to consume a character,
    so [length s] rounds of fuel are enough. *)
Fixpoint star (step : text -> captures -> cont -> option captures)
    (fuel : nat) (s : text) (c : captures) (k : cont) : option captures :=
  match fuel with
  | O => k s c
  | S f =>
      match step s c (fun s' c' =>
                        if (length s' <? length s)%nat
                        then star step f s' c' k else None) with
      | Some r => Some r
      | None => k s c
      end
  end.

(** [$] matches at the end of the text and before a final newline. *)
Definition at_end (s : text) : bool :=
  match s with
  | [] => true
  | [a] => Ascii.eqb a nl
  | _ => false
  end.

Fixpoint run (whole : text) (r : regex) (s : text) (c : captures) (k : cont)
    : option captures :=
  match r with
  | Eps => k s c
  | Class p =>
      match s with
      | a :: s' => if p a then k s' c else None
      | [] => None
      end
  | Seq r1 r2 => run whole r1 s c (fun s' c' => run whole r2 s' c' k)
  | Alt r1 r2 =>
      match run whole r1 s c k with
      | Some x => Some x
      | None => run whole r2 s c k
      end
  | Star r1 => star (run whole r1) (length s) s c k
  | Group n r1 =>
      run whole r1 s c
        (fun s' c' => k s' ((n, firstn (length s - length s') s) :: c'))
  | Bol => if (length s =? length whole)%nat then k s c else None
  | Eol => if at_end s then k s c else None
  end.

(** [re.match(r, s)]: the captures of the first match found at the start of
    [s], or [None]. *)
Definition re_match (r : regex) (s : text) : option captures :=
  run s r s [] (fun _ c => Some c).

(** The group [n] occurs in [r]. *)
Fixpoint binds (n : nat) (r : regex) : bool :=
  match r with
  | Seq r1 r2 | Alt r1 r2 => binds n r1 || binds n r2
  | Star r1 => binds n r1
  | Group m r1 => Nat.eqb n m || binds n r1
  | _ => false
  end.

Definition Chr (a : ascii) : regex := Class (Ascii.eqb a).
Definition Plus (r : regex) : regex := Seq r (Star r).
Definition Opt (r : regex) : regex := Alt r Eps.
Fixpoint Lit (t : text) : regex :=
  match t with
  | [] => Eps
  | a :: t' => Seq (Chr a) (Lit t')
  end.

End Regex.

(* ===================================================================== *)
(** * The signal parser: apps/broker/functions/signal_parser.py *)
(* ===================================================================== *)

(** A Python exception: its class and [str(e)]. *)
Inductive PyExn := Exn (kind : string) (msg : string).

Definition exn_str (e : PyExn) : string :=
  match e with Exn _ msg => msg end.

(** The values a caller may pass for [message]. *)
Inductive PyObj :=
| PStr (s : string)
| PNone
| PInt (n : Z).

Module SignalParser.
Import PyStr PyFloat Regex.
Local Open Scope string_scope.

(** The ["data"] dictionary of a valid result. *)
Record SignalData := {
  action : string;
  instrument : string;
  price : option float;
  stop_loss : float;
  take_profit : float
}.

(** The returned dictionary: [{"valid": True, "data": d}] or
    [{"valid": False, "error": e}]. *)
Inductive ParseResult :=
| Valid (data : SignalData)
| Invalid (error : string).

Definition valid (r : ParseResult) : bool :=
  match r with Valid _ => true | Invalid _ => false end.

(** [not message or not isinstance(message, str)] is false exactly for a
    non-empty [str]. *)
Definition as_message (m : PyObj) : option text :=
  match m with
  | PStr s => match of_string s with [] => None | t => Some t end
  | _ => None
  end.

(** Lines 24 to 29: the double quotes, then the single quotes. *)
Definition unquote (message : text) : text :=
  let message :=
    if startswith [dquote] message && endswith [dquote] message
    then strip (slice_1_m1 message) else message in
  if startswith [squote] message && endswith [squote] message
  then strip (slice_1_m1 message) else message.

Definition nonempty (t : text) : bool :=
  match t with [] => false | _ :: _ => true end.

(** [[line.strip() for line in message.split("\n") if line.strip()]] *)
Definition get_lines (message : text) : list text :=
  map strip (List.filter (fun line => nonempty (strip line)) (split_on nl message)).

Definition ws : regex := Class isspace.
Definition upper_AZ : regex := Class is_AZ.
Definition digit_or_dot : regex := Class (fun c => isdecimal c || is_char 46 c).
Definition not_rbracket : regex := Class (fun c => negb (is_char 93 c)).

(** [^(BUY|SELL)\s+([A-Z]+)(?:\s*(?:\[@?([\d.]+)[^\]]*\]|@([\d.]+)))?$],
    in three parts: the optional price, what follows the action, and the
    whole pattern. *)
Definition price_part : regex :=
  Opt (Seq (Star ws)
      (Alt (Seq (Chr "[")
           (Seq (Opt (Chr "@"))
           (Seq (Group 3 (Plus digit_or_dot))
           (Seq (Star not_rbracket)
                (Chr "]")))))
           (Seq (Chr "@") (Group 4 (Plus digit_or_dot))))).

Definition after_action : regex :=
  Seq (Plus ws) (Seq (Group 2 (Plus upper_AZ)) (Seq price_part Eol)).

Definition pattern : regex :=
  Seq Bol
 (Seq (Group 1 (Alt (Lit (of_string "BUY")) (Lit (of_string "SELL"))))
      after_action).

(** [a or b] on two optional texts. *)
Definition text_or (a b : option text) : option text :=
  match a with
  | Some (_ :: _) => a
  | _ => b
  end.

(** [repr] of a text of digits and dots. *)
Definition repr_plain (t : text) : string :=
  String squote (to_string t) ++ String squote "".

Definition float_error (t : text) : PyExn :=
  Exn "ValueError" ("could not convert string to float: " ++ repr_plain t).

(** [float(line.split()[1])]: [None] on [IndexError] and on [ValueError]. *)
Definition second_token_float (line : text) : option float :=
  match split_ws line !! 1%nat with
  | Some tok => py_float tok
  | None => None
  end.

(** The loop of lines 60 to 75 over [lines[1:]]: the last SL and the last
    TP seen, or the error of the first line that fails. *)
Fixpoint scan_lines (ls : list text) (sl tp : option float)
    : string + (option float * option float) :=
  match ls with
  | [] => inr (sl, tp)
  | line :: rest =>
      let upper := upper line in
      if startswith (of_string "SL") upper then
        match second_token_float line with
        | Some f => scan_lines rest (Some f) tp
        | None => inl "Invalid SL format"
        end
      else if startswith (of_string "TP") upper then
        match second_token_float line with
        | Some f => scan_lines rest sl (Some f)
        | None => inl "Invalid TP format"
        end
      else scan_lines rest sl tp
  end.

(** The body of the [try] block: [inl e] when it raises [e]. *)
Definition parse_signal_try (message : PyObj) : PyExn + ParseResult :=
  match as_message message with
  | None => inr (Invalid "Empty message")
  | Some message =>
      let message := unquote message in
      let lines := get_lines message in
      if (length lines <? 2)%nat then inr (Invalid "Incomplete signal data")
      else
        let first_line := hd [] lines in
        match re_match pattern first_line with
        | None => inr (Invalid "Invalid first line format")
        | Some m =>
            let action := to_string (default [] (group 1 m)) in
            let instrument := to_string (default [] (group 2 m)) in
            let price := text_or (group 3 m) (group 4 m) in
            let price_result :=
              match price with
              | Some (c :: p) =>
                  match py_float (c :: p) with
                  | Some f => inr (Some f)
                  | None => inl (float_error (c :: p))
                  end
              | _ => inr None
              end in
            match price_result with
            | inl e => inl e
            | inr price =>
                match scan_lines (tl lines) None None with
                | inl err => inr (Invalid err)
                | inr (None, _) => inr (Invalid "SL missing")
                | inr (Some _, None) => inr (Invalid "TP missing")
                | inr (Some sl, Some tp) =>
                    if String.eqb action "BUY" && ge sl tp then
                      inr (Invalid "For BUY, SL must be lower than TP")
                    else if String.eqb action "SELL" && le sl tp then
                      inr (Invalid "For SELL, SL must be higher than TP")
                    else
                      inr (Valid {| action := action;
                                    instrument := instrument;
                                    price := price;
                                    stop_loss := sl;
                                    take_profit := tp |})
                end
            end
        end
  end.

(** The reasons the parser gives by name (lines 19 to 99). *)
Definition named_reasons : list string :=
  ["Empty message"; "Incomplete signal data"; "Invalid first line format";
   "Invalid SL format"; "Invalid TP format"; "SL missing"; "TP missing";
   "For BUY, SL must be lower than TP"; "For SELL, SL must be higher than TP"].

(** [parse_signal]: the [try] block under its [except Exception] handler. *)
Definition parse_signal (message : PyObj) : ParseResult :=
  match parse_signal_try message with
  | inr r => r
  | inl e => Invalid ("Unexpected error: " ++ exn_str e)
  end.

End SignalParser.

(* ===================================================================== *)
(** * The models: apps/broker/models, apps/order/models *)
(* ===================================================================== *)

Module SignalStatusChoices.
Inductive t := PENDING | PROCESSING | SUCCESS | FAILED.
End SignalStatusChoices.

Module OrderStatus.
Inductive t := PENDING | EXECUTED | CLOSED | REJECTED | CANCELLED.
Definition value (s : t) : string :=
  match s with
  | PENDING => "pending"
  | EXECUTED => "executed"
  | CLOSED => "closed"
  | REJECTED => "rejected"
  | CANCELLED => "cancelled"
  end.
End OrderStatus.

Module Action.
Inductive t := BUY | SELL.
End Action.

(** A [Decimal] with four fraction digits, counted in ten-thousandths. *)
Definition Decimal := Z.

(** [float(d)]: the nearest binary64 number. *)
Definition float_of_decimal (d : Decimal) : PyFloat.float :=
  PyFloat.of_decimal (d <? 0) (Z.abs d) (-4).

(** A row is the columns other than the primary key; the primary key is the
    key of the row in its table, and a model instance is the key together
    with the columns ([signal.id] is [signal_id], [order.id] is [pk]). *)
Module TradingSignal.
Record t := {
  user : Z;
  account : option Z;
  raw_message : option string;
  status : SignalStatusChoices.t;
  error_message : option string
}.
Definition set_status (s : SignalStatusChoices.t) (x : t) : t :=
  {| user := user x; account := account x;
     raw_message := raw_message x; status := s;
     error_message := error_message x |}.
Definition set_error_message (m : option string) (x : t) : t :=
  {| user := user x; account := account x;
     raw_message := raw_message x; status := status x;
     error_message := m |}.
End TradingSignal.

(** The columns of [Order] the pipeline reads or writes.  The time stamps
    and the columns of [BaseModel] are left out: no code below assigns
    them. *)
Module Order.
Record t := {
  order_id : option string;
  user : Z;
  signal : option Z;
  action : option Action.t;
  instrument : string;
  entry_price : option Decimal;
  stop_loss : option Decimal;
  take_profit : option Decimal;
  status : OrderStatus.t
}.
Definition set_status (s : OrderStatus.t) (x : t) : t :=
  {| order_id := order_id x; user := user x; signal := signal x;
     action := action x; instrument := instrument x;
     entry_price := entry_price x; stop_loss := stop_loss x;
     take_profit := take_profit x; status := s |}.
Definition set_action (a : option Action.t) (x : t) : t :=
  {| order_id := order_id x; user := user x; signal := signal x;
     action := a; instrument := instrument x;
     entry_price := entry_price x; stop_loss := stop_loss x;
     take_profit := take_profit x; status := status x |}.
Definition set_order_id (i : option string) (x : t) : t :=
  {| order_id := i; user := user x; signal := signal x;
     action := action x; instrument := instrument x;
     entry_price := entry_price x; stop_loss := stop_loss x;
     take_profit := take_profit x; status := status x |}.
End Order.

Module OrderHistory.
Record t := {
  order : Z;
  status : OrderStatus.t;
  description : string
}.
End OrderHistory.

(* ===================================================================== *)
(** * The database, the task queue and the effects of the tasks *)
(* ===================================================================== *)

Module Runtime.
Import PyFloat.

(** The payload of [broadcast_order_event]. *)
Record OrderEvent := {
  ev_type : string;
  ev_order_id : option string;
  ev_instrument : string;
  ev_entry_price : float;
  ev_status : string
}.

(** The payload of [notify_signal_invalid]. *)
Record InvalidEvent := {
  ev_event : string;
  ev_trading_id : Z;
  ev_user : string;
  ev_account_id : option Z;
  ev_error_message : option string
}.

(** A message that [.delay] sent to the broker. *)
Inductive Task :=
| ProcessSignal (signal_id : Z)
| SimulateOrderLifecycle (order_pk : Z)
| BroadcastOrderEvent (data : OrderEvent)
| NotifySignalInvalid (data : InvalidEvent).

(** The tables: rows by primary key; the history is in insertion order;
    [users] gives the username of each user. *)
Record DB := {
  signals : gmap Z TradingSignal.t;
  orders : gmap Z Order.t;
  history : list OrderHistory.t;
  users : gmap Z string
}.

(** What a task acts on: the database, the broker's queue (oldest first),
    and, for the statements about signal status, the record of every status
    value written to a signal row (oldest first). *)
Record World := {
  db : DB;
  queue : list Task;
  status_writes : list (Z * SignalStatusChoices.t)
}.

Definition set_db (d : DB) (w : World) : World :=
  {| db := d; queue := queue w; status_writes := status_writes w |}.
Definition set_signals (s : gmap Z TradingSignal.t) (d : DB) : DB :=
  {| signals := s; orders := orders d; history := history d; users := users d |}.
Definition set_orders (o : gmap Z Order.t) (d : DB) : DB :=
  {| signals := signals d; orders := o; history := history d; users := users d |}.
Definition set_history (h : list OrderHistory.t) (d : DB) : DB :=
  {| signals := signals d; orders := orders d; history := h; users := users d |}.

(** A computation that may raise: state passing with an error result. *)
Definition M (A : Type) : Type := World -> (PyExn + A) * World.

Definition ret {A} (a : A) : M A := fun w => (inr a, w).
Definition raise {A} (e : PyExn) : M A := fun w => (inl e, w).
Definition bind {A B} (m : M A) (f : A -> M B) : M B :=
  fun w => match m w with
           | (inr a, w') => f a w'
           | (inl e, w') => (inl e, w')
           end.
Definition lift {A} (r : PyExn + A) : M A := fun w => (r, w).

(** [try: m  except Exception as e: h e] *)
Definition try_except {A} (m : M A) (h : PyExn -> M A) : M A :=
  fun w => match m w with
           | (inl e, w') => h e w'
           | r => r
           end.

(** [with atomic(): m].  When [m] raises, or the commit fails, the
    database is as it was on entry; what was sent to the broker stays
    sent. *)
Definition atomic {A} (commit_fails : bool) (m : M A) : M A :=
  fun w => match m w with
           | (inr a, w') =>
               if commit_fails
               then (inl (Exn "OperationalError" "commit failed"), set_db (db w) w')
               else (inr a, w')
           | (inl e, w') => (inl e, set_db (db w) w')
           end.

Definition get_db : M DB := fun w => (inr (db w), w).
Definition put_db (d : DB) : M unit := fun w => (inr tt, set_db d w).

(** A statement that reaches the database or the broker raises when the
    service fails. *)
Definition guard (service_fails : bool) : M unit :=
  if service_fails
  then raise (Exn "OperationalError" "service unavailable")
  else ret tt.

(** [task.delay(...)] *)
Definition delay (service_fails : bool) (t : Task) : M unit :=
  bind (guard service_fails) (fun _ w =>
    (inr tt, {| db := db w; queue := queue w ++ [t];
                status_writes := status_writes w |})).

Definition log_status (i : Z) (s : SignalStatusChoices.t) : M unit :=
  fun w => (inr tt, {| db := db w; queue := queue w;
                       status_writes := status_writes w ++ [(i, s)] |}).

End Runtime.

Declare Scope task_scope.
Delimit Scope task_scope with task.
Notation "x <- m ;; k" := (Runtime.bind m (fun x => k))
  (at level 100, m at next level, right associativity) : task_scope.
Notation "m ;; k" := (Runtime.bind m (fun _ => k))
  (at level 100, right associativity) : task_scope.

(* ===================================================================== *)
(** * What the tasks call on the models *)
(* ===================================================================== *)

Module Orm.
Import Runtime.
Local Open Scope task_scope.

(** The primary key of the next row: above every key of the table. *)
Definition next_pk {A} (m : gmap Z A) : Z :=
  1 + foldr Z.max 0 ((map_to_list m).*1).

(** [DecimalField(max_digits=19, decimal_places=4)] *)
Definition decimal_ok (v : Decimal) : bool := Z.abs v <? 10 ^ 19.

(** [stop_loss] and [take_profit]: not null, [MinValueValidator(0)]. *)
Definition price_ok (v : option Decimal) : bool :=
  match v with
  | Some d => decimal_ok d && (0 <=? d)
  | None => false
  end.

(** [entry_price]: null allowed. *)
Definition entry_price_ok (v : option Decimal) : bool :=
  match v with
  | Some d => decimal_ok d
  | None => true
  end.

(** [instrument]: not blank, [max_length=20]. *)
Definition instrument_ok (s : string) : bool :=
  negb (String.eqb s "") && (String.length s <=? 20)%nat.

(** [order_id]: blank allowed, [max_length=50]. *)
Definition order_id_ok (i : option string) : bool :=
  match i with
  | Some s => (String.length s <=? 50)%nat
  | None => true
  end.

Definition clean_fields (o : Order.t) : bool :=
  order_id_ok (Order.order_id o) && instrument_ok (Order.instrument o)
  && entry_price_ok (Order.entry_price o)
  && price_ok (Order.stop_loss o) && price_ok (Order.take_profit o).

Definition is_blank (i : option string) : bool :=
  match i with
  | Some s => String.eqb s ""
  | None => true
  end.

(** Some row of [m] has [order_id] [i]; some row of [m] has [signal] [s].
    Null is never taken. *)
Definition order_id_taken (i : option string) (m : gmap Z Order.t) : bool :=
  match i with
  | Some _ => existsb (fun kv => bool_decide (Order.order_id kv.2 = i)) (map_to_list m)
  | None => false
  end.
Definition signal_taken (s : option Z) (m : gmap Z Order.t) : bool :=
  match s with
  | Some _ => existsb (fun kv => bool_decide (Order.signal kv.2 = s)) (map_to_list m)
  | None => false
  end.

(** The rows a uniqueness check compares with: all of them for an instance
    that is not stored yet ([pk = None]), the other ones for a stored
    instance. *)
Definition others (pk : option Z) (m : gmap Z Order.t) : gmap Z Order.t :=
  match pk with
  | Some k => delete k m
  | None => m
  end.

(** [validate_unique]: [order_id] is unique, and so is the one-to-one
    [signal]. *)
Definition validate_unique (pk : option Z) (m : gmap Z Order.t) (o : Order.t)
    : bool :=
  negb (order_id_taken (Order.order_id o) (others pk m))
  && negb (signal_taken (Order.signal o) (others pk m)).

(** ** The text of a [ValidationError]

    [str(e)] of the error that [full_clean] raises is the [repr] of the
    dictionary of its messages by field.  The messages are those of
    Django's validators in English; none of them holds a quote or a
    backslash, so [repr] writes each one between single quotes. *)

Definition nat_text (n : nat) : string := NilZero.string_of_uint (Nat.to_uint n).

(** [MaxLengthValidator(limit)] on a text of [n] characters, [limit]
    being 20 or 50. *)
Definition max_length_text (limit n : nat) : string :=
  ("Ensure this value has at most " ++ nat_text limit
   ++ " characters (it has " ++ nat_text n ++ ").")%string.

Definition blank_text : string := "This field cannot be blank.".
Definition null_text : string := "This field cannot be null.".

(** [MinValueValidator(0)] and [DecimalValidator(19, 4)] *)
Definition min_value_text : string :=
  "Ensure this value is greater than or equal to 0.".
Definition max_digits_text : string :=
  "Ensure that there are no more than 19 digits in total.".

(** The uniqueness check of the field with the label [label]. *)
Definition unique_text (label : string) : string :=
  ("Order with this " ++ label ++ " already exists.")%string.

(** The messages of each field, in the order of its validators. *)
Definition order_id_errors (i : option string) : list string :=
  match i with
  | Some s => if (String.length s <=? 50)%nat then []
              else [max_length_text 50 (String.length s)]
  | None => []
  end.

Definition instrument_errors (s : string) : list string :=
  if String.eqb s "" then [blank_text]
  else if (String.length s <=? 20)%nat then []
       else [max_length_text 20 (String.length s)].

Definition digits_errors (d : Decimal) : list string :=
  if decimal_ok d then [] else [max_digits_text].

Definition entry_price_errors (v : option Decimal) : list string :=
  match v with
  | Some d => digits_errors d
  | None => []
  end.

Definition price_errors (v : option Decimal) : list string :=
  match v with
  | Some d => ((if 0 <=? d then [] else [min_value_text]) ++ digits_errors d)%list
  | None => [null_text]
  end.

Definition has_errors (e : string * list string) : bool :=
  match e.2 with
  | [] => false
  | _ :: _ => true
  end.

(** [clean_fields]: the fields that fail, in the order of the model. *)
Definition field_errors (o : Order.t) : list (string * list string) :=
  List.filter has_errors
    [("order_id", order_id_errors (Order.order_id o));
     ("instrument", instrument_errors (Order.instrument o));
     ("entry_price", entry_price_errors (Order.entry_price o));
     ("stop_loss", price_errors (Order.stop_loss o));
     ("take_profit", price_errors (Order.take_profit o))].

(** [repr] of a list of messages and of the dictionary of the errors. *)
Definition repr_list (l : list string) : string :=
  ("[" ++ String.concat ", " (map (fun s : string => "'" ++ s ++ "'") l)
   ++ "]")%string.
Definition repr_errors (d : list (string * list string)) : string :=
  ("{" ++ String.concat ", "
            (map (fun e : string * list string =>
                    "'" ++ e.1 ++ "': " ++ repr_list e.2) d)
   ++ "}")%string.

Section Env.

(** [generate_custom_id("INV", "order_id", Order)]: it reads the clock and
    the stored identifiers; nothing below depends on the text it returns. *)
Variable generate_custom_id : gmap Z Order.t -> string.

(** [Order.clean]: an empty [order_id] is generated. *)
Definition clean (m : gmap Z Order.t) (o : Order.t) : Order.t :=
  if is_blank (Order.order_id o)
  then Order.set_order_id (Some (generate_custom_id m)) o
  else o.

(** The errors of the uniqueness checks, which skip a field whose
    validators have failed, on the instance that [clean] returns. *)
Definition unique_errors (pk : option Z) (m : gmap Z Order.t)
    (failed : list string) (o : Order.t) : list (string * list string) :=
  ((if negb (existsb (String.eqb "order_id") failed)
       && order_id_taken (Order.order_id o) (others pk m)
    then [("order_id", [unique_text "Order id"])] else [])
   ++ (if signal_taken (Order.signal o) (others pk m)
       then [("signal", [unique_text "Signal"])] else []))%list.

(** The error dictionary that [full_clean] collects: the fields that fail
    their validators, then the fields that fail the uniqueness checks. *)
Definition validation_errors (pk : option Z) (m : gmap Z Order.t) (o : Order.t)
    : list (string * list string) :=
  let errors := field_errors o in
  (errors ++ unique_errors pk m (map fst errors) (clean m o))%list.

(** [Order.full_clean]: the instance with its [order_id] filled in;
    [ValidationError] when a field validator fails or when [order_id] or
    [signal] is already used by another row, with the dictionary of the
    messages as its text. *)
Definition full_clean (pk : option Z) (o : Order.t) : M Order.t :=
  fun w =>
    let m := orders (db w) in
    if clean_fields o && validate_unique pk m (clean m o)
    then (inr (clean m o), w)
    else (inl (Exn "ValidationError" (repr_errors (validation_errors pk m o))), w).

(** [Order.objects.create(...)]: [Order.save] validates, then the row is
    inserted under a new primary key. *)
Definition order_create (insert_fails : bool) (o : Order.t) : M (Z * Order.t) :=
  o <- full_clean None o ;;
  guard insert_fails ;;
  d <- get_db ;;
  let pk := next_pk (orders d) in
  put_db (set_orders (<[pk := o]> (orders d)) d) ;;
  ret (pk, o).

(** [order.save()]: validation, then every column is written. *)
Definition order_save (update_fails : bool) (pk : Z) (o : Order.t) : M Order.t :=
  o <- full_clean (Some pk) o ;;
  guard update_fails ;;
  d <- get_db ;;
  put_db (set_orders (<[pk := o]> (orders d)) d) ;;
  ret o.

(** [order.save(update_fields=["status"])]: validation, then the status
    column of the stored row is written, and no other. *)
Definition order_save_status (update_fails : bool) (pk : Z) (o : Order.t)
    : M Order.t :=
  o <- full_clean (Some pk) o ;;
  guard update_fails ;;
  d <- get_db ;;
  match orders d !! pk with
  | Some row =>
      put_db (set_orders (<[pk := Order.set_status (Order.status o) row]>
                            (orders d)) d) ;;
      ret o
  | None => raise (Exn "DatabaseError" "Save with update_fields did not affect any rows.")
  end.

End Env.

(** [Order.objects.filter(id=pk).first()] *)
Definition order_first (fetch_fails : bool) (pk : Z) : M (option Order.t) :=
  guard fetch_fails ;;
  d <- get_db ;;
  ret (orders d !! pk).

(** [OrderHistory.objects.create(...)] and [order_history.save()] *)
Definition history_create (insert_fails : bool) (h : OrderHistory.t) : M unit :=
  guard insert_fails ;;
  d <- get_db ;;
  put_db (set_history (history d ++ [h]) d).
Definition history_save (update_fails : bool) : M unit := guard update_fails.

(** [TradingSignal.objects.get(id=pk)] *)
Definition signal_get (fetch_fails : bool) (pk : Z) : M TradingSignal.t :=
  guard fetch_fails ;;
  d <- get_db ;;
  match signals d !! pk with
  | Some s => ret s
  | None => raise (Exn "TradingSignal.DoesNotExist"
                       "TradingSignal matching query does not exist.")
  end.

(** [signal.save(update_fields=[...])]: the status column, and the error
    message when [with_error], of the stored row are written. *)
Definition signal_save_fields (update_fails with_error : bool) (pk : Z)
    (s : TradingSignal.t) : M unit :=
  guard update_fails ;;
  d <- get_db ;;
  match signals d !! pk with
  | Some row =>
      let row := TradingSignal.set_status (TradingSignal.status s) row in
      let row := if with_error
                 then TradingSignal.set_error_message (TradingSignal.error_message s) row
                 else row in
      put_db (set_signals (<[pk := row]> (signals d)) d) ;;
      log_status pk (TradingSignal.status s)
  | None => raise (Exn "DatabaseError" "Save with update_fields did not affect any rows.")
  end.

(** [signal.save()]: every column is written. *)
Definition signal_save (update_fails : bool) (pk : Z) (s : TradingSignal.t)
    : M unit :=
  guard update_fails ;;
  d <- get_db ;;
  put_db (set_signals (<[pk := s]> (signals d)) d) ;;
  log_status pk (TradingSignal.status s).

(** [TradingSignal.objects.create(user=..., account=..., raw_message=...)]:
    a new row in the default status. *)
Definition signal_create (insert_fails : bool) (user : Z) (account : option Z)
    (raw_message : string) : M Z :=
  guard insert_fails ;;
  d <- get_db ;;
  let pk := next_pk (signals d) in
  put_db (set_signals
            (<[pk := {| TradingSignal.user := user;
                        TradingSignal.account := account;
                        TradingSignal.raw_message := Some raw_message;
                        TradingSignal.status := SignalStatusChoices.PENDING;
                        TradingSignal.error_message := None |}]> (signals d)) d) ;;
  log_status pk SignalStatusChoices.PENDING ;;
  ret pk.

(** [signal.user.username] *)
Definition username (fetch_fails : bool) (uid : Z) : M string :=
  guard fetch_fails ;;
  d <- get_db ;;
  match users d !! uid with
  | Some n => ret n
  | None => raise (Exn "User.DoesNotExist" "User matching query does not exist.")
  end.

(** [float(order.entry_price)] *)
Definition float_of_price (p : option Decimal) : M PyFloat.float :=
  match p with
  | Some d => ret (float_of_decimal d)
  | None => raise (Exn "TypeError"
      "float() argument must be a string or a real number, not 'NoneType'")
  end.

End Orm.

(* ===================================================================== *)
(** * The signal worker: apps/broker/tasks/paser_signal_task.py *)
(* ===================================================================== *)

Module Worker.
Import Runtime Orm SignalParser.
Local Open Scope task_scope.

(** The statements of [process_signal_task] that reach the database or the
    broker, by what they do (and their line). *)
Inductive Op :=
| SignalFetch      (* 21: TradingSignal.objects.get *)
| SaveProcessing   (* 23: signal.save(update_fields=["status"]) *)
| SaveInvalid      (* 31: signal.save(update_fields=["status", "error_message"]) *)
| UserFetch        (* 35, 45: signal.user *)
| NotifyDelay      (* 39: notify_signal_invalid.delay *)
| OrderInsert      (* 44: Order.objects.create *)
| OrderUpdate      (* 57: order.save *)
| BroadcastDelay   (* 65: broadcast_order_event.delay *)
| LifecycleDelay   (* 67: simulate_order_lifecycle.delay *)
| HistoryInsert    (* 71: OrderHistory.objects.create *)
| HistoryUpdate    (* 76: order_history.save *)
| Commit           (* 43: leaving the atomic block *)
| SaveSuccess      (* 80: signal.save *)
| SaveFailed.      (* 85: signal.save(update_fields=["status", "error_message"]) *)

Definition raw_message_obj (s : TradingSignal.t) : PyObj :=
  match TradingSignal.raw_message s with
  | Some m => PStr m
  | None => PNone
  end.

Definition pending_event (order : Order.t) (entry_price : PyFloat.float)
    : OrderEvent :=
  {| ev_type := "order." ++ OrderStatus.value OrderStatus.PENDING;
     ev_order_id := Order.order_id order;
     ev_instrument := Order.instrument order;
     ev_entry_price := entry_price;
     ev_status := OrderStatus.value (Order.status order) |}.

Definition pending_history (pk : Z) : OrderHistory.t :=
  {| OrderHistory.order := pk;
     OrderHistory.status := OrderStatus.PENDING;
     OrderHistory.description := "{'message': 'Order pending'}" |}.

(** Lines 53 to 56: the action of the order. *)
Definition with_action (action : string) (order : Order.t) : Order.t :=
  let order := if String.eqb action "BUY"
               then Order.set_action (Some Action.BUY) order else order in
  if String.eqb action "SELL"
  then Order.set_action (Some Action.SELL) order else order.

Section Env.

Variable generate_custom_id : gmap Z Order.t -> string.

(** [_library.functions.number_utils.round_half_up(value, 4)], whose file
    is not part of the sources: the rounded price, or the exception it
    raises. *)
Variable round_half_up : option PyFloat.float -> Z -> PyExn + option Decimal.

(** Which statements meet a failing database or broker in this run. *)
Variable fails : Op -> bool.

(** Lines 43 to 77: the atomic block. *)
Definition create_order (signal_id : Z) (signal : TradingSignal.t)
    (data : SignalData) : M unit :=
  atomic (fails Commit)
    (_ <- username (fails UserFetch) (TradingSignal.user signal) ;;
     entry_price <- lift (round_half_up (price data) 4) ;;
     stop_loss <- lift (round_half_up (Some (stop_loss data)) 4) ;;
     take_profit <- lift (round_half_up (Some (take_profit data)) 4) ;;
     created <- order_create generate_custom_id (fails OrderInsert)
                {| Order.order_id := None;
                   Order.user := TradingSignal.user signal;
                   Order.signal := Some signal_id;
                   Order.action := None;
                   Order.instrument := instrument data;
                   Order.entry_price := entry_price;
                   Order.stop_loss := stop_loss;
                   Order.take_profit := take_profit;
                   Order.status := OrderStatus.PENDING |} ;;
     let '(pk, order) := created in
     order <- order_save generate_custom_id (fails OrderUpdate) pk
                (with_action (action data) order) ;;
     entry_price <- float_of_price (Order.entry_price order) ;;
     delay (fails BroadcastDelay)
       (BroadcastOrderEvent (pending_event order entry_price)) ;;
     delay (fails LifecycleDelay) (SimulateOrderLifecycle pk) ;;
     history_create (fails HistoryInsert) (pending_history pk) ;;
     history_save (fails HistoryUpdate)).

(** Lines 26 to 80: the body of the [try] block. *)
Definition process_body (signal_id : Z) (signal : TradingSignal.t) : M unit :=
  match parse_signal (raw_message_obj signal) with
  | Invalid error =>
      let signal := TradingSignal.set_status SignalStatusChoices.FAILED signal in
      let signal := TradingSignal.set_error_message (Some error) signal in
      signal_save_fields (fails SaveInvalid) true signal_id signal ;;
      user <- username (fails UserFetch) (TradingSignal.user signal) ;;
      delay (fails NotifyDelay)
        (NotifySignalInvalid
           {| ev_event := "signal.invalid";
              ev_trading_id := signal_id;
              ev_user := user;
              ev_account_id := TradingSignal.account signal;
              ev_error_message := TradingSignal.error_message signal |})
  | Valid data =>
      create_order signal_id signal data ;;
      signal_save (fails SaveSuccess) signal_id
        (TradingSignal.set_status SignalStatusChoices.SUCCESS signal)
  end.

(** Lines 82 to 86: the handler. *)
Definition on_exception (signal_id : Z) (signal : TradingSignal.t) (e : PyExn)
    : M unit :=
  let signal := TradingSignal.set_status SignalStatusChoices.FAILED signal in
  let signal := TradingSignal.set_error_message (Some (exn_str e)) signal in
  signal_save_fields (fails SaveFailed) true signal_id signal ;;
  raise e.

Definition process_signal_task (signal_id : Z) : M unit :=
  signal <- signal_get (fails SignalFetch) signal_id ;;
  let signal := TradingSignal.set_status SignalStatusChoices.PROCESSING signal in
  signal_save_fields (fails SaveProcessing) false signal_id signal ;;
  try_except (process_body signal_id signal) (on_exception signal_id signal).

End Env.

(** [ReceiveSignalAPIView.post], lines 58 to 62 of
    apps/broker/views/signals_parse_view.py: the signal is stored and the
    worker is enqueued for it. *)
Definition receive_signal (insert_fails delay_fails : bool) (user : Z)
    (account : option Z) (message : string) : M unit :=
  pk <- signal_create insert_fails user account message ;;
  delay delay_fails (ProcessSignal pk).

Definition no_fault : Op -> bool := fun _ => false.

(** The run in which the statement [op] fails, and no other. *)
Definition only (op : Op) : Op -> bool :=
  fun o => match op, o with
           | SignalFetch, SignalFetch | SaveProcessing, SaveProcessing
           | SaveInvalid, SaveInvalid | UserFetch, UserFetch
           | NotifyDelay, NotifyDelay | OrderInsert, OrderInsert
           | OrderUpdate, OrderUpdate | BroadcastDelay, BroadcastDelay
           | LifecycleDelay, LifecycleDelay | HistoryInsert, HistoryInsert
           | HistoryUpdate, HistoryUpdate | Commit, Commit
           | SaveSuccess, SaveSuccess | SaveFailed, SaveFailed => true
           | _, _ => false
           end.

End Worker.

(* ===================================================================== *)
(** * The lifecycle: apps/order/tasks/order_life_cycle_task.py *)
(* ===================================================================== *)

Module Lifecycle.
Import Runtime Orm.
Local Open Scope task_scope.

(** The statements of [simulate_order_lifecycle] that reach the database or
    the broker; those of the two atomic blocks carry the status the block
    writes. *)
Inductive Op :=
| OrderFetch                              (* 20 *)
| StatusUpdate (s : OrderStatus.t)        (* 30, 53: order.save *)
| BroadcastDelay (s : OrderStatus.t)      (* 39, 64 *)
| HistoryInsert (s : OrderStatus.t)       (* 41, 66 *)
| HistoryUpdate (s : OrderStatus.t)       (* 46, 71 *)
| Commit (s : OrderStatus.t).             (* 28, 51 *)

Definition status_event (target : OrderStatus.t) (order : Order.t)
    (entry_price : PyFloat.float) : OrderEvent :=
  {| ev_type := "order." ++ OrderStatus.value target;
     ev_order_id := Order.order_id order;
     ev_instrument := Order.instrument order;
     ev_entry_price := entry_price;
     ev_status := OrderStatus.value (Order.status order) |}.

Definition status_history (target : OrderStatus.t) (message : string)
    (pk : Z) : OrderHistory.t :=
  {| OrderHistory.order := pk;
     OrderHistory.status := target;
     OrderHistory.description := "{'message': '" ++ message ++ "'}" |}.

Section Env.

Variable generate_custom_id : gmap Z Order.t -> string.
Variable fails : Op -> bool.

(** Lines 28 to 47 with [target = EXECUTED] and [message = "Order executed"],
    lines 51 to 72 with [CLOSED] and ["Order closed"]: the two blocks are the
    same statements.  The result is the instance [order] as the block leaves
    it. *)
Definition transition (target : OrderStatus.t) (message : string)
    (pk : Z) (order : Order.t) : M Order.t :=
  atomic (fails (Commit target))
    (order <- order_save_status generate_custom_id (fails (StatusUpdate target))
                pk (Order.set_status target order) ;;
     entry_price <- float_of_price (Order.entry_price order) ;;
     delay (fails (BroadcastDelay target))
       (BroadcastOrderEvent (status_event target order entry_price)) ;;
     history_create (fails (HistoryInsert target))
       (status_history target message pk) ;;
     history_save (fails (HistoryUpdate target)) ;;
     ret order).

(** Lines 20 to 72: the body of the [try] block. *)
Definition lifecycle_body (order_id : Z) : M unit :=
  found <- order_first (fails OrderFetch) order_id ;;
  match found with
  | None => ret tt
  | Some order =>
      order <- transition OrderStatus.EXECUTED "Order executed" order_id order ;;
      _ <- transition OrderStatus.CLOSED "Order closed" order_id order ;;
      ret tt
  end.

(** Lines 74 to 79: [Order.DoesNotExist] is logged, anything else is
    raised again. *)
Definition on_exception (e : PyExn) : M unit :=
  match e with
  | Exn kind _ =>
      if String.eqb kind "Order.DoesNotExist" then ret tt else raise e
  end.

Definition simulate_order_lifecycle (order_id : Z) : M unit :=
  try_except (lifecycle_body order_id) on_exception.

End Env.

Definition no_fault : Op -> bool := fun _ => false.

(** The run in which the second block cannot write the status, and nothing
    else fails. *)
Definition closing_fails : Op -> bool :=
  fun o => match o with
           | StatusUpdate OrderStatus.CLOSED => true
           | _ => false
           end.

End Lifecycle.

(* ===================================================================== *)
(** * Sample data *)
(* ===================================================================== *)

Module Sample.
Import PyStr PyFloat Runtime.

(** Modelled from the spec: [round_half_up], whose file
    [_library/functions/number_utils.py] is missing from the sources.  The
    spec has prices rounded half-up to 4 fraction digits; the result is
    counted in units of [10^-ndigits].  An absent price stays absent, and a
    NaN or an infinity cannot be rounded. *)
Definition round_half_up (value : option float) (ndigits : Z)
    : PyExn + option Decimal :=
  match value with
  | None => inr None
  | Some (S754_zero _) => inr (Some 0)
  | Some (S754_finite s m e) =>
      let scaled := Zpos m * 10 ^ ndigits in
      let rounded :=
        if 0 <=? e then scaled * 2 ^ e
        else (2 * scaled + 2 ^ (- e)) / 2 ^ (1 - e) in
      inr (Some (cond_Zopp s rounded))
  | Some _ => inl (Exn "InvalidOperation" "[<class 'decimal.InvalidOperation'>]")
  end.

Definition digit_char (d : Z) : ascii := ascii_of_N (48 + Z.to_N (d mod 10)).

(** An identifier in the format of [generate_custom_id]: the prefix, a date
    and a counter of four digits, here one more than the number of rows. *)
Definition custom_id (m : gmap Z Order.t) : string :=
  let n := Z.of_nat (size m) + 1 in
  "INV031126" ++
  String (digit_char (n / 1000)) (String (digit_char (n / 100))
    (String (digit_char (n / 10)) (String (digit_char n) ""))).

Definition buy_text : string :=
  nl_join ["BUY EURUSD [@1.0860]"; "SL 1.0850"; "TP 1.0890"].

Definition signal1 : TradingSignal.t :=
  {| TradingSignal.user := 7;
     TradingSignal.account := Some 3;
     TradingSignal.raw_message := Some buy_text;
     TradingSignal.status := SignalStatusChoices.PENDING;
     TradingSignal.error_message := None |}.

(** One signal, numbered 1, and no order yet. *)
Definition db0 : DB :=
  {| signals := {[ 1 := signal1 ]}; orders := ∅; history := [];
     users := {[ 7 := "alice" ]} |}.

Definition world0 : World := {| db := db0; queue := []; status_writes := [] |}.

Definition run_worker (fails : Worker.Op -> bool) (signal_id : Z) (w : World)
    : (PyExn + unit) * World :=
  Worker.process_signal_task custom_id round_half_up fails signal_id w.

Definition run_lifecycle (fails : Lifecycle.Op -> bool) (order_pk : Z)
    (w : World) : (PyExn + unit) * World :=
  Lifecycle.simulate_order_lifecycle custom_id fails order_pk w.

(** The signal processed without failure: order 1 is pending. *)
Definition world1 : World := (run_worker Worker.no_fault 1 world0).2.

(** Then the lifecycle of order 1 stopped by a failure in its second block:
    order 1 is executed. *)
Definition world2 : World := (run_lifecycle Lifecycle.closing_fails 1 world1).2.

(** Or the lifecycle of order 1 run to its end: order 1 is closed. *)
Definition world3 : World := (run_lifecycle Lifecycle.no_fault 1 world1).2.

End Sample.

(* ===================================================================== *)
(** * The statements about the pipeline, as predicates *)
(* ===================================================================== *)

Module Properties.
Import Runtime.

(** The run ended by an exception. *)
Definition raised {A} (r : (PyExn + A) * World) : bool :=
  match r.1 with inl _ => true | inr _ => false end.

(** The transitions of a signal that the specification allows. *)
Definition signal_transition (a b : SignalStatusChoices.t) : bool :=
  match a, b with
  | SignalStatusChoices.PENDING, SignalStatusChoices.PROCESSING
  | SignalStatusChoices.PROCESSING, SignalStatusChoices.SUCCESS
  | SignalStatusChoices.PROCESSING, SignalStatusChoices.FAILED => true
  | _, _ => false
  end.

(** Every value of the list follows the one before it by an allowed
    transition. *)
Fixpoint follows_transitions (l : list SignalStatusChoices.t) : bool :=
  match l with
  | a :: (b :: _) as rest => signal_transition a b && follows_transitions rest
  | _ => true
  end.

(** The values written to the signal [pk], oldest first. *)
Definition writes_of (pk : Z) (l : list (Z * SignalStatusChoices.t))
    : list SignalStatusChoices.t :=
  map snd (List.filter (fun e => Z.eqb e.1 pk) l).

(** What one run of the worker writes to its signal: nothing, or
    [PROCESSING] followed by nothing, by [SUCCESS], or by [FAILED] once or
    twice. *)
Definition worker_writes (l : list SignalStatusChoices.t) : Prop :=
  l = []
  \/ l = [SignalStatusChoices.PROCESSING]
  \/ l = [SignalStatusChoices.PROCESSING; SignalStatusChoices.SUCCESS]
  \/ l = [SignalStatusChoices.PROCESSING; SignalStatusChoices.FAILED]
  \/ l = [SignalStatusChoices.PROCESSING; SignalStatusChoices.FAILED;
          SignalStatusChoices.FAILED].

(** At most one order refers to each signal. *)
Definition one_to_one (m : gmap Z Order.t) : Prop :=
  forall (k1 k2 : Z) (o1 o2 : Order.t) (s : Z),
    m !! k1 = Some o1 -> m !! k2 = Some o2 ->
    Order.signal o1 = Some s -> Order.signal o2 = Some s -> k1 = k2.

(** The orders that refer to the signal [s]. *)
Definition orders_of_signal (s : Z) (m : gmap Z Order.t) : list (Z * Order.t) :=
  List.filter (fun kv => bool_decide (Order.signal kv.2 = Some s)) (map_to_list m).

(** Everything of an order but its status. *)
Definition same_terms (o o' : Order.t) : Prop :=
  Order.order_id o' = Order.order_id o
  /\ Order.user o' = Order.user o
  /\ Order.signal o' = Order.signal o
  /\ Order.action o' = Order.action o
  /\ Order.instrument o' = Order.instrument o
  /\ Order.entry_price o' = Order.entry_price o
  /\ Order.stop_loss o' = Order.stop_loss o
  /\ Order.take_profit o' = Order.take_profit o.

(** One invocation of the lifecycle: the identifier generator and the
    failures of the run, and the order. *)
Record Advance := {
  adv_generate : gmap Z Order.t -> string;
  adv_fails : Lifecycle.Op -> bool;
  adv_order : Z
}.

Definition advance (a : Advance) (w : World) : World :=
  (Lifecycle.simulate_order_lifecycle (adv_generate a) (adv_fails a)
     (adv_order a) w).2.

(** Any number of invocations, one after the other. *)
Definition advance_all (runs : list Advance) (w : World) : World :=
  fold_left (fun w a => advance a w) runs w.

(** The statuses the pipeline gives to an order. *)
Definition pipeline_status (s : OrderStatus.t) : Prop :=
  s = OrderStatus.PENDING \/ s = OrderStatus.EXECUTED \/ s = OrderStatus.CLOSED.

Section Steps.

Variable round_half_up : option PyFloat.float -> Z -> PyExn + option Decimal.

(** A step of the pipeline: a signal is received, the worker runs for some
    signal, or the lifecycle runs for some order; each with any failures.
    Tasks are delivered at least once, so a run is not tied to the queue. *)
Inductive step : World -> World -> Prop :=
| step_receive (w : World) (f1 f2 : bool) (user : Z) (account : option Z)
    (message : string) :
    step w (Worker.receive_signal f1 f2 user account message w).2
| step_process (w : World) (gen : gmap Z Order.t -> string)
    (fails : Worker.Op -> bool) (signal_id : Z) :
    step w (Worker.process_signal_task gen round_half_up fails signal_id w).2
| step_advance (w : World) (a : Advance) :
    step w (advance a w).

(** The states of the pipeline, from a database without orders. *)
Inductive reachable : World -> Prop :=
| reachable_init (w : World) : orders (db w) = ∅ -> reachable w
| reachable_step (w w' : World) : reachable w -> step w w' -> reachable w'.

End Steps.

End Properties.

(* ===================================================================== *)
(** * Running a task symbolically *)
(* ===================================================================== *)

(** The scrutinee at the head of a stuck computation. *)
Ltac head_of t :=
  lazymatch t with
  | match ?x with _ => _ end => head_of x
  | (match ?x with _ => _ end) _ => head_of x
  | _ => t
  end.

Ltac unfold_task H :=
  cbv beta iota zeta delta
    [Worker.process_signal_task Worker.process_body Worker.on_exception
     Worker.create_order Worker.receive_signal
     Lifecycle.simulate_order_lifecycle Lifecycle.lifecycle_body
     Lifecycle.transition Lifecycle.on_exception
     Lifecycle.no_fault Worker.no_fault
     Orm.signal_get Orm.signal_save_fields Orm.signal_save Orm.signal_create
     Orm.username Orm.float_of_price Orm.order_first
     Orm.order_create Orm.order_save Orm.order_save_status Orm.full_clean
     Orm.history_create Orm.history_save
     Runtime.bind Runtime.ret Runtime.raise Runtime.lift Runtime.try_except
     Runtime.atomic Runtime.get_db Runtime.put_db Runtime.guard Runtime.delay
     Runtime.log_status
     Runtime.set_db Runtime.set_signals Runtime.set_orders Runtime.set_history
     Runtime.db Runtime.queue Runtime.status_writes Runtime.signals
     Runtime.orders Runtime.history Runtime.users] in H.

(** One step of [H : task world = (result, world')]: the test the run
    stops at is decided, by a fact at hand or by cases. *)
Ltac step_task H :=
  first
    [ rewrite !lookup_insert_eq in H; unfold_task H
    | lazymatch type of H with
      | (_, _) = _ => fail
      | ?e = _ =>
          let h := head_of e in
          first [ match goal with Hx : h = _ |- _ => rewrite Hx in H end
                | destruct h eqn:? ];
          unfold_task H
      end ].

Ltac run_task H := unfold_task H; repeat step_task H.

(** The writes of a run of the worker are the list [l]. *)
Ltac close_writes l :=
  exists l;
  (split; [ cbn [map]; rewrite <- ?app_assoc, ?app_nil_r; reflexivity |]);
  (split; [ unfold Properties.worker_writes; tauto |]);
  (split; [ intros k Hk; rewrite ?lookup_insert_ne by congruence; reflexivity |]);
  (split; [ intros Hl; try (exfalso; apply Hl; reflexivity);
            rewrite ?lookup_insert_eq; reflexivity |]);
  (split; [ intros Hl; first [ discriminate Hl | repeat split; eauto ]
          | intros (Hx & Hy & Hz); first [ reflexivity
                                         | destruct Hx; congruence ] ]).


(* ===================================================================== *)
(** * Invariants of the database *)
(* ===================================================================== *)

Module Invariants.
Import Runtime.

(** What the worker never writes of a signal: its user, its account and
    the message. *)
Definition same_message (a b : TradingSignal.t) : Prop :=
  TradingSignal.user b = TradingSignal.user a
  /\ TradingSignal.account b = TradingSignal.account a
  /\ TradingSignal.raw_message b = TradingSignal.raw_message a.

(** The signals of [m'] are those of [m], each with the message it had. *)
Definition same_messages (m m' : gmap Z TradingSignal.t) : Prop :=
  forall k : Z,
    match m !! k, m' !! k with
    | Some a, Some b => same_message a b
    | None, None => True
    | _, _ => False
    end.

(** Every history row belongs to a stored order, and the signal of every
    order is stored. *)
Definition history_refers (d : DB) : Prop :=
  forall h : OrderHistory.t,
    h ∈ history d -> is_Some (orders d !! OrderHistory.order h).
Definition orders_refer (d : DB) : Prop :=
  forall (k : Z) (o : Order.t) (s : Z),
    orders d !! k = Some o -> Order.signal o = Some s ->
    is_Some (signals d !! s).

(** Nothing of [w] is taken back in [w']: the rows are kept, the history,
    the queue and the record of status values only grow at their end. *)
Definition extends (w w' : World) : Prop :=
  (forall k, is_Some (signals (db w) !! k) -> is_Some (signals (db w') !! k))
  /\ (forall k, is_Some (orders (db w) !! k) -> is_Some (orders (db w') !! k))
  /\ history (db w) `prefix_of` history (db w')
  /\ queue w `prefix_of` queue w'
  /\ status_writes w `prefix_of` status_writes w'
  /\ users (db w') = users (db w).

End Invariants.

(* ===================================================================== *)
(** * Order identifiers: apps/common/functions/unique_id_generator.py *)
(* ===================================================================== *)

Module UniqueId.
Import PyStr PyFloat.

(** [datetime.date] *)
Record date := { year : Z; month : Z; day : Z }.

Definition digit (d : Z) : ascii := ascii_of_N (48 + Z.to_N (d mod 10)).

(** A number below 100 in two digits, as [%d], [%m] and [%y] print it. *)
Definition two_digits (n : Z) : text := [digit (n / 10); digit n].

(** [d.strftime("%d%m%y")] *)
Definition strftime_dmy (d : date) : text :=
  two_digits (day d) ++ two_digits (month d) ++ two_digits (year d mod 100).

(** The decimal digits of a natural number, the last one first in [acc];
    [fuel] bounds the number of digits. *)
Fixpoint digits_of (fuel : nat) (n : Z) (acc : text) : text :=
  match fuel with
  | O => acc
  | S f =>
      if n <? 10 then digit n :: acc
      else digits_of f (n / 10) (digit n :: acc)
  end.

(** [str(n)] for an integer. *)
Definition py_str (n : Z) : text :=
  let m := Z.abs n in
  let ds := digits_of (S (Z.to_nat (Z.log2 m))) m [] in
  if n <? 0 then ascii_of_N 45 :: ds else ds.

(** [s.zfill(width)]: zeros after the sign, if any. *)
Definition zfill (width : nat) (s : text) : text :=
  let pad := repeat (ascii_of_N 48) (width - length s) in
  match s with
  | c :: r => if is_char 43 c || is_char 45 c then c :: pad ++ r else pad ++ s
  | [] => pad
  end.

(** [s[-4:]] *)
Definition last4 (s : text) : text := skipn (length s - 4) s.

(** [int(t)] for a text [t]: [None] when Python raises [ValueError].
    Underscores between digits and the white space around the number are
    dropped as for [float]; what is left is an optional sign and at least one
    digit. *)
Definition py_int (t : text) : option Z :=
  match strip_underscores None t with
  | None => None
  | Some u =>
      let '(neg, body) := take_sign (float_strip u) in
      match body with
      | [] => None
      | _ :: _ =>
          if forallb isdecimal body then Some (cond_Zopp neg (digits_value body))
          else None
      end
  end.

(** The order of two texts by their code points. *)
Fixpoint text_ltb (a b : text) : bool :=
  match a, b with
  | _, [] => false
  | [], _ :: _ => true
  | x :: a', y :: b' =>
      (code x <? code y)%N || ((code x =? code y)%N && text_ltb a' b')
  end.

(** [objects.filter(field__startswith=base).order_by("-field").first()],
    on the stored values of the field: the greatest value that starts with
    [base], if there is one.  The rows are compared by code points, and no
    row is locked by another transaction. *)
Definition latest (base : text) (values : list text) : option text :=
  foldr (fun v acc =>
           if startswith base v
           then match acc with
                | Some m => Some (if text_ltb m v then v else m)
                | None => Some v
                end
           else acc)
        None values.

(** Lines 25 to 33: the counter of the new identifier. *)
Definition new_counter (latest_value : option text) : Z :=
  match latest_value with
  | Some v =>
      match py_int (last4 v) with
      | Some previous_counter => (previous_counter + 1) mod 10000
      | None => 1
      end
  | None => 1
  end.

(** [generate_custom_id(id_prefix, field, model_class)] for a model that has
    the field, on the day [today], where [values] are the values of the
    field in the stored rows that are not null. *)
Definition generate_custom_id (id_prefix : string) (today : date)
    (values : list string) : string :=
  let base_prefix := of_string id_prefix ++ strftime_dmy today in
  let latest_value := latest base_prefix (map of_string values) in
  let formatted_counter := zfill 4 (py_str (new_counter latest_value)) in
  to_string (base_prefix ++ formatted_counter).

(** The identifiers of the stored orders. *)
Definition order_ids (m : gmap Z Order.t) : list string :=
  omap (fun kv => Order.order_id kv.2) (map_to_list m).

(** [generate_custom_id(id_prefix="INV", field="order_id", model_class=Order)],
    as [Order.clean] calls it. *)
Definition order_custom_id (today : date) (m : gmap Z Order.t) : string :=
  generate_custom_id "INV" today (order_ids m).

(** The four digits of a counter below 10000. *)
Definition counter4 (n : Z) : text :=
  [digit (n / 1000); digit (n / 100); digit (n / 10); digit n].

(** [base_prefix] for the prefix and the day. *)
Definition base_prefix (id_prefix : string) (today : date) : text :=
  of_string id_prefix ++ strftime_dmy today.

(** Every stored value that starts with [base] is [base] followed by the
    four digits of a counter below [bound]. *)
Definition day_ids (base : text) (bound : Z) (values : list string) : Prop :=
  forall v : string,
    In v values -> startswith base (of_string v) = true ->
    exists k : Z, 0 <= k < bound /\ of_string v = base ++ counter4 k.

End UniqueId.

(* ===================================================================== *)
(** * Responses: _library/functions/formatters.py *)
(* ===================================================================== *)

Module Formatters.
Local Open Scope string_scope.

(** The values of the response dictionaries. *)
#[warnings="-register-all"]
Inductive Value :=
| VInt (n : Z)
| VStr (s : string)
| VNone
| VDict (d : list (string * Value)).

(** A Python [dict] with [str] keys, in insertion order. *)
Definition Dict := list (string * Value).

(** [d[key]] and [key in d] *)
Fixpoint get (key : string) (d : Dict) : option Value :=
  match d with
  | [] => None
  | (k, v) :: rest => if String.eqb k key then Some v else get key rest
  end.

(** [d[key] = value]: the value of a key that is there is replaced, a new
    key goes to the end. *)
Fixpoint set (key : string) (value : Value) (d : Dict) : Dict :=
  match d with
  | [] => [(key, value)]
  | (k, v) :: rest =>
      if String.eqb k key then (k, value) :: rest
      else (k, v) :: set key value rest
  end.

(** What [d.pop(key)] leaves of [d]. *)
Fixpoint remove (key : string) (d : Dict) : Dict :=
  match d with
  | [] => []
  | (k, v) :: rest =>
      if String.eqb k key then rest else (k, v) :: remove key rest
  end.

(** The templates of _library/error_codes.py and _library/success_code.py
    that the webhook uses, as [model_dump()] gives them. *)
Definition BAD_REQUEST_DEVELOPER_ERROR : Dict :=
  [("status", VInt 400); ("type", VStr "error");
   ("message", VStr "400 Bad Request"); ("client", VStr "developer");
   ("data", VDict [])].
Definition BAD_REQUEST_USER_ERROR : Dict :=
  [("status", VInt 400); ("type", VStr "error");
   ("message", VStr "400 Bad Request"); ("client", VStr "user");
   ("data", VDict [])].
Definition INTERNAL_SERVER_ERROR : Dict :=
  [("status", VInt 500); ("type", VStr "error");
   ("message", VStr "500 Internal Server Error"); ("client", VStr "developer");
   ("data", VDict [])].
Definition SUCCESS_RESPONSE_200 : Dict :=
  [("status", VInt 200); ("message", VStr "Success"); ("client", VStr "user");
   ("data", VDict []); ("links", VNone)].

(** [inject_data_to_code_object(code_object, data)] for a dictionary
    [code_object] and a payload that is [None] or a dictionary: the copy of
    the template with the payload under ["data"], the message of the
    payload moved to the top. *)
Definition inject_data_to_code_object (code_object : Dict)
    (data : option Dict) : Dict :=
  match data with
  | None | Some [] => code_object
  | Some data =>
      match get "message" data with
      | Some message =>
          set "data" (VDict (remove "message" data))
            (set "message" message code_object)
      | None => set "data" (VDict data) code_object
      end
  end.

(** [rest_framework.response.Response(data, status)] *)
Record Response := { body : Dict; status : Value }.

(** [response_formatter(code_object, data)] for a dictionary [code_object];
    [code_object["status"]] raises [KeyError] when the key is missing. *)
Definition response_formatter (code_object : Dict) (data : option Dict)
    : PyExn + Response :=
  let code_object := inject_data_to_code_object code_object data in
  match get "status" code_object with
  | Some s => inr {| body := code_object; status := s |}
  | None => inl (Exn "KeyError" "'status'")
  end.

End Formatters.

(* ===================================================================== *)
(** * The webhook: apps/broker/views/signals_parse_view.py *)
(* ===================================================================== *)

Module BrokerAccount.
(** The columns of [BrokerAccount] the webhook reads. *)
Record t := {
  user : Z;
  api_key_hash : option string
}.
End BrokerAccount.

Module View.
Import Runtime Orm Formatters PyStr.
Local Open Scope task_scope.
Local Open Scope string_scope.

(** The statements of [ReceiveSignalAPIView.post] that reach the database
    or the broker. *)
Inductive Op :=
| AccountFetch   (* 79: BrokerAccount.objects.get *)
| UserFetch      (* 59: broker_account.user *)
| SignalInsert   (* 58: TradingSignal.objects.create *)
| TaskDelay.     (* 62: process_signal_task.delay *)

(** [request.data]: the text of the body, or a dictionary whose
    ["message"], if it has one, is a text. *)
Inductive RequestData :=
| Text (s : string)
| Form (message : option string).

(** What the view reads of the request. *)
Record Request := {
  x_api_key : option string;     (* request.headers.get("X-API-KEY") *)
  content_type : string;
  data : RequestData
}.

(** Lines 50 to 53: the message of the request. *)
Definition message_of (request : Request) : option string :=
  match data request with
  | Text s => Some (to_string (strip (of_string s)))
  | Form message => message
  end.

(** [not s] for an optional text. *)
Definition falsy (s : option string) : bool :=
  match s with
  | Some s => String.eqb s ""
  | None => true
  end.

Section Env.

(** [hash_api_key]: the SHA-256 digest of the key, in hexadecimal. *)
Variable hash_api_key : string -> string.

(** The table of broker accounts, which the view only reads. *)
Variable accounts : gmap Z BrokerAccount.t.

Variable fails : Op -> bool.

(** Lines 71 to 81: the account of the key, [None] when there is no key or
    no account; [objects.get] raises when several accounts have the
    hash. *)
Definition authenticate_with_api_key (request : Request)
    : M (option (Z * BrokerAccount.t)) :=
  match x_api_key request with
  | Some api_key =>
      if String.eqb api_key "" then ret None
      else
        let hashed := hash_api_key api_key in
        guard (fails AccountFetch) ;;
        match List.filter
                (fun kv => bool_decide
                             (BrokerAccount.api_key_hash kv.2 = Some hashed))
                (map_to_list accounts) with
        | [] => ret None
        | [account] => ret (Some account)
        | _ => raise (Exn "BrokerAccount.MultipleObjectsReturned"
                          "get() returned more than one BrokerAccount")
        end
  | None => ret None
  end.

(** Lines 36 to 65: the body of the [try] block. *)
Definition post_body (request : Request) : M Response :=
  if falsy (x_api_key request) then
    lift (response_formatter BAD_REQUEST_DEVELOPER_ERROR
            (Some [("message", VStr "No X-API-KEY header provided");
                   ("error", VStr "X-API-KEY header is missing")]))
  else
    broker_account <- authenticate_with_api_key request ;;
    match broker_account with
    | None =>
        lift (response_formatter BAD_REQUEST_DEVELOPER_ERROR
                (Some [("message", VStr "Invalid or inactive X-API-KEY header");
                       ("error", VStr "Invalid or inactive X-API-KEY header")]))
    | Some (account_pk, broker_account) =>
        if negb (startswith (of_string "text/plain")
                            (of_string (content_type request)))
        then
          lift (response_formatter BAD_REQUEST_DEVELOPER_ERROR
                  (Some [("message", VStr "Invalid Content-Type Header");
                         ("error", VStr "Invalid Content-Type Header")]))
        else
          match message_of request with
          | Some message =>
              if String.eqb message "" then
                lift (response_formatter BAD_REQUEST_USER_ERROR
                        (Some [("message", VStr "Signal message is required")]))
              else
                _ <- username (fails UserFetch)
                       (BrokerAccount.user broker_account) ;;
                Worker.receive_signal (fails SignalInsert) (fails TaskDelay)
                  (BrokerAccount.user broker_account) (Some account_pk)
                  message ;;
                lift (response_formatter SUCCESS_RESPONSE_200
                        (Some [("message", VStr "Signal received");
                               ("info", VStr "Signal Received and processing")]))
          | None =>
              lift (response_formatter BAD_REQUEST_USER_ERROR
                      (Some [("message", VStr "Signal message is required")]))
          end
    end.

(** [ReceiveSignalAPIView.post]: every exception of the body is answered
    by the response 500. *)
Definition post (request : Request) : M Response :=
  try_except (post_body request)
    (fun _ => lift (response_formatter INTERNAL_SERVER_ERROR None)).

End Env.

Definition no_fault : Op -> bool := fun _ => false.

(** The row that the view stores for a message. *)
Definition new_signal (account_pk : Z) (account : BrokerAccount.t)
    (message : string) : TradingSignal.t :=
  {| TradingSignal.user := BrokerAccount.user account;
     TradingSignal.account := Some account_pk;
     TradingSignal.raw_message := Some message;
     TradingSignal.status := SignalStatusChoices.PENDING;
     TradingSignal.error_message := None |}.

End View.

(** The view unfolded, with its responses computed. *)
Ltac unfold_view H :=
  cbv beta iota zeta delta
    [View.post View.post_body View.authenticate_with_api_key View.no_fault] in H;
  repeat match type of H with
         | context [Formatters.response_formatter ?a ?b] =>
             let r := eval vm_compute in (Formatters.response_formatter a b) in
             change (Formatters.response_formatter a b) with r in H
         end.


(* ===================================================================== *)
(** * More sample data *)
(* ===================================================================== *)

Module Cases.
Import PyStr Runtime Sample.
Local Open Scope string_scope.

Definition today : UniqueId.date :=
  {| UniqueId.year := 2026; UniqueId.month := 11; UniqueId.day := 3 |}.

(** A BUY with the stop-loss above the take-profit, and a SELL without
    price. *)
Definition inverted_text : string :=
  nl_join ["BUY EURUSD"; "SL 1.0890"; "TP 1.0850"].
Definition market_text : string :=
  nl_join ["SELL GBPUSD"; "SL 1.2750"; "TP 1.2600"].

Definition signal_of (message : string) : TradingSignal.t :=
  {| TradingSignal.user := 7;
     TradingSignal.account := Some 3;
     TradingSignal.raw_message := Some message;
     TradingSignal.status := SignalStatusChoices.PENDING;
     TradingSignal.error_message := None |}.

(** Three signals and no order. *)
Definition world4 : World :=
  {| db := {| signals := {[ 1 := signal1; 2 := signal_of inverted_text;
                            3 := signal_of market_text ]};
              orders := ∅; history := []; users := {[ 7 := "alice" ]} |};
     queue := []; status_writes := [] |}.

(** An order without entry price. *)
Definition order_without_price : Order.t :=
  {| Order.order_id := Some "INV0311260001"; Order.user := 7;
     Order.signal := None; Order.action := Some Action.SELL;
     Order.instrument := "GBPUSD"; Order.entry_price := None;
     Order.stop_loss := Some 12750; Order.take_profit := Some 12600;
     Order.status := OrderStatus.PENDING |}.

Definition world5 : World :=
  {| db := {| signals := ∅; orders := {[ 1 := order_without_price ]};
              history := []; users := {[ 7 := "alice" ]} |};
     queue := []; status_writes := [] |}.

(** The last and the first identifier of the day are both in use. *)
Definition world6 : World :=
  {| db := {| signals := ∅;
              orders := {[ 1 := Order.set_order_id (Some "INV0311260000")
                                  order_without_price;
                           2 := Order.set_order_id (Some "INV0311269999")
                                  order_without_price ]};
              history := []; users := {[ 7 := "alice" ]} |};
     queue := []; status_writes := [] |}.

(** A BUY whose instrument has 21 letters, and the world in which it is
    signal 1. *)
Definition long_text : string :=
  nl_join ["BUY ABCDEFGHIJKLMNOPQRSTU @1.0860"; "SL 1.0850"; "TP 1.0890"].
Definition world7 : World :=
  {| db := {| signals := {[ 1 := signal_of long_text ]};
              orders := ∅; history := []; users := {[ 7 := "alice" ]} |};
     queue := []; status_writes := [] |}.

(** A stand-in for the digest of a key, for the examples. *)
Definition digest (key : string) : string := "sha256:" ++ key.

Definition account_alice : BrokerAccount.t :=
  {| BrokerAccount.user := 7;
     BrokerAccount.api_key_hash := Some (digest "key-of-alice") |}.

(** One account, and two accounts with the same hash. *)
Definition accounts : gmap Z BrokerAccount.t := {[ 3 := account_alice ]}.
Definition twin_accounts : gmap Z BrokerAccount.t :=
  {[ 3 := account_alice;
     4 := {| BrokerAccount.user := 8;
             BrokerAccount.api_key_hash := Some (digest "key-of-alice") |} ]}.

(** The BUY signal posted as text, with white space around it. *)
Definition request1 : View.Request :=
  {| View.x_api_key := Some "key-of-alice";
     View.content_type := "text/plain; charset=utf-8";
     View.data := View.Text ("  " ++ buy_text ++ String nl "") |}.

End Cases.

(* ===================================================================== *)
(** * Signals as the docstring of the parser writes them *)
(* ===================================================================== *)

Module SignalText.
Import PyStr PyFloat.

(** The price after the instrument: none, [ @1.0860] or [ [@1.0860]]. *)
Inductive price_text :=
| NoPrice
| At (p : text)
| Bracketed (p : text).

Definition suffix (p : price_text) : text :=
  match p with
  | NoPrice => []
  | At p => of_string " @" ++ p
  | Bracketed p => of_string " [@" ++ p ++ of_string "]"
  end.

(** A word that [str.split] leaves whole: not empty, no white space. *)
Definition token (t : text) : bool :=
  SignalParser.nonempty t && forallb (fun c => negb (isspace c)) t.

(** A text of digits and dots that is not empty. *)
Definition digits_and_dots (t : text) : bool :=
  SignalParser.nonempty t && forallb (fun c => isdecimal c || is_char 46 c) t.

(** The price is well formed, and [price] is its value. *)
Definition price_value (p : price_text) (price : option float) : Prop :=
  match p with
  | NoPrice => price = None
  | At t | Bracketed t =>
      digits_and_dots t = true /\ py_float t = price /\ price <> None
  end.

(** What the pattern of the first line captures of the price. *)
Definition price_captures (p : price_text) : Regex.captures :=
  match p with
  | NoPrice => []
  | At t => [(4%nat, t)]
  | Bracketed t => [(3%nat, t)]
  end.

(** The three lines of a signal: the action, the instrument and the
    price; the stop-loss; the take-profit. *)
Definition message (action : string) (instrument : text) (p : price_text)
    (sl tp : text) : string :=
  to_string (of_string action ++ of_string " " ++ instrument ++ suffix p
             ++ nl :: of_string "SL " ++ sl
             ++ nl :: of_string "TP " ++ tp).

End SignalText.

(* ===================================================================== *)
(** * The states that the runs without failure lead to *)
(* ===================================================================== *)

Module Outcomes.
Import Runtime.

(** After the webhook has accepted [message] for the account: the signal
    is stored under the next key and the worker is enqueued for it. *)
Definition received (account_pk : Z) (account : BrokerAccount.t)
    (message : string) (w : World) : World :=
  let pk := Orm.next_pk (signals (db w)) in
  {| db := set_signals
             (<[pk := View.new_signal account_pk account message]>
                (signals (db w))) (db w);
     queue := queue w ++ [ProcessSignal pk];
     status_writes := status_writes w ++ [(pk, SignalStatusChoices.PENDING)] |}.

(** The response of the webhook to a signal it accepts. *)
Definition accepted_response : Formatters.Response :=
  {| Formatters.body :=
       [("status", Formatters.VInt 200);
        ("message", Formatters.VStr "Signal received");
        ("client", Formatters.VStr "user");
        ("data", Formatters.VDict
                   [("info", Formatters.VStr "Signal Received and processing")]);
        ("links", Formatters.VNone)];
     Formatters.status := Formatters.VInt 200 |}.

(** After the worker has created [order] for the signal [sid], which was
    stored as [s]. *)
Definition processed (sid : Z) (s : TradingSignal.t) (order : Order.t)
    (entry_price : PyFloat.float) (w : World) : World :=
  let pk := Orm.next_pk (orders (db w)) in
  {| db := {| signals := <[sid := TradingSignal.set_status
                                    SignalStatusChoices.SUCCESS s]>
                           (signals (db w));
              orders := <[pk := order]> (orders (db w));
              history := history (db w) ++ [Worker.pending_history pk];
              users := users (db w) |};
     queue := queue w
       ++ [BroadcastOrderEvent (Worker.pending_event order entry_price);
           SimulateOrderLifecycle pk];
     status_writes := status_writes w
       ++ [(sid, SignalStatusChoices.PROCESSING);
           (sid, SignalStatusChoices.SUCCESS)] |}.

(** After the lifecycle has closed the order [pk], which was stored as
    [o]. *)
Definition closed (pk : Z) (o : Order.t) (entry_price : PyFloat.float)
    (w : World) : World :=
  {| db := set_history
             (history (db w)
              ++ [Lifecycle.status_history OrderStatus.EXECUTED "Order executed" pk;
                  Lifecycle.status_history OrderStatus.CLOSED "Order closed" pk])
             (set_orders (<[pk := Order.set_status OrderStatus.CLOSED o]>
                            (orders (db w))) (db w));
     queue := queue w
       ++ [BroadcastOrderEvent
             (Lifecycle.status_event OrderStatus.EXECUTED
                (Order.set_status OrderStatus.EXECUTED o) entry_price);
           BroadcastOrderEvent
             (Lifecycle.status_event OrderStatus.CLOSED
                (Order.set_status OrderStatus.CLOSED o) entry_price)];
     status_writes := status_writes w |}.

(** The order of a signal: pending, with the generated identifier. *)
Definition new_order (order_id : string) (user sid : Z) (a : Action.t)
    (instrument : string) (entry_price : Decimal)
    (stop_loss take_profit : option Decimal) : Order.t :=
  {| Order.order_id := Some order_id;
     Order.user := user;
     Order.signal := Some sid;
     Order.action := Some a;
     Order.instrument := instrument;
     Order.entry_price := Some entry_price;
     Order.stop_loss := stop_loss;
     Order.take_profit := take_profit;
     Order.status := OrderStatus.PENDING |}.

End Outcomes.

(* ===================================================================== *)
(** * The parser on the inputs of the specification *)
(* ===================================================================== *)

Module ParserFacts.
Import PyStr PyFloat Regex SignalParser.

(** What [re.match] returns for the pattern, as Python's own [re] does. *)
Example match_plain :
  re_match pattern (of_string "BUY EURUSD")
  = Some [(2%nat, of_string "EURUSD"); (1%nat, of_string "BUY")].
Proof. vm_compute. reflexivity. Qed.

Example match_bracket :
  let m := re_match pattern (of_string "BUY EURUSD [@1.08 - x]") in
  (m ≫= group 3, m ≫= group 4) = (Some (of_string "1.08"), None).
Proof. vm_compute. reflexivity. Qed.

Example match_at :
  let m := re_match pattern (of_string "SELL EURUSD@1.2") in
  (m ≫= group 3, m ≫= group 4) = (None, Some (of_string "1.2")).
Proof. vm_compute. reflexivity. Qed.

Example match_dots :
  (re_match pattern (of_string "SELL E[.]")) ≫= group 3 = Some (of_string ".").
Proof. vm_compute. reflexivity. Qed.

Example no_match :
  map (fun s => re_match pattern (of_string s))
      ["BUY EURUSD [1..2]x"; "BUYY EUR"; "BUY EUR [@1]]"; "buy EURUSD"; "BUY eurusd"]
  = [None; None; None; None; None].
Proof. vm_compute. reflexivity. Qed.

(** [float] on some texts: 0.1 is 0x1.999999999999ap-4, a tie goes to the
    even mantissa, and too large a number is an infinity. *)
Example float_tenth :
  py_float (of_string "0.1") = Some (S754_finite false 7205759403792794 (-56)).
Proof. vm_compute. reflexivity. Qed.

Example float_tie :
  py_float (of_string "9007199254740993")
  = Some (S754_finite false 4503599627370496 1).
Proof. vm_compute. reflexivity. Qed.

Example float_overflow :
  py_float (of_string "1.7976931348623159e308") = Some (S754_infinity false).
Proof. vm_compute. reflexivity. Qed.

(** Correct rounding at a tie above 1 (to the even mantissa), just above
    the tie, below the smallest subnormal number, and at the largest
    number. *)
Example float_rounding :
  map (fun s => py_float (of_string s))
      ["1.00000000000000011102230246251565404236316680908203125";
       "1.00000000000000011102230246251565404236316680908203126";
       "2.4703282292062327e-324"; "2.4703282292062328e-324";
       "1.7976931348623158e308"]
  = [Some (S754_finite false 4503599627370496 (-52));
     Some (S754_finite false 4503599627370497 (-52));
     Some (S754_zero false);
     Some (S754_finite false 1 (-1074));
     Some (S754_finite false 9007199254740991 971)].
Proof. vm_compute. reflexivity. Qed.

Example float_refused :
  map (fun s => py_float (of_string s))
      ["1.0.8"; "."; "1e"; "_1"; "1__0"; "infinit"; "0x10"; ""]
  = [None; None; None; None; None; None; None; None].
Proof. vm_compute. reflexivity. Qed.

Example float_accepted :
  map (fun s => py_float (of_string s)) ["nan"; "-iNf"; "1_0.5"; "-0"; " 1.5 "]
  = [Some S754_nan; Some (S754_infinity true);
     Some (S754_finite false 5910974510923776 (-49));
     Some (S754_zero true);
     Some (S754_finite false 6755399441055744 (-52))].
Proof. vm_compute. reflexivity. Qed.

(** The two valid examples of the specification. *)
Example parse_buy_with_price :
  parse_signal (PStr (nl_join ["BUY EURUSD [@1.0860]"; "SL 1.0850"; "TP 1.0890"]))
  = Valid {| action := "BUY"; instrument := "EURUSD";
             price := py_float (of_string "1.0860");
             stop_loss := S754_finite false 4886405595696988 (-52);
             take_profit := S754_finite false 4904419994206470 (-52) |}.
Proof. vm_compute. reflexivity. Qed.

Example parse_sell_without_price :
  parse_signal (PStr (nl_join ["SELL GBPUSD"; "SL 1.2700"; "TP 1.2600"]))
  = Valid {| action := "SELL"; instrument := "GBPUSD"; price := None;
             stop_loss := S754_finite false 5719571526760530 (-52);
             take_profit := S754_finite false 5674535530486825 (-52) |}.
Proof. vm_compute. reflexivity. Qed.

Example parse_one_line :
  parse_signal (PStr "BUY EURUSD") = Invalid "Incomplete signal data".
Proof. vm_compute. reflexivity. Qed.

Example parse_not_text :
  map parse_signal [PStr ""; PNone; PInt 0; PInt 5]
  = [Invalid "Empty message"; Invalid "Empty message";
     Invalid "Empty message"; Invalid "Empty message"].
Proof. vm_compute. reflexivity. Qed.

End ParserFacts.

(* ===================================================================== *)
(** * Quote stripping (lines 23 to 29 of the parser) *)
(* ===================================================================== *)

Module Quotes.
Import PyStr SignalParser.

Lemma startswith_head (c : ascii) (t : text) : startswith [c] (c :: t) = true.
Proof. simpl. now rewrite Ascii.eqb_refl. Qed.

Lemma startswith_other (c a : ascii) (t : text) :
  Ascii.eqb c a = false -> startswith [c] (a :: t) = false.
Proof. intros H. simpl. now rewrite H. Qed.

Lemma endswith_last (c : ascii) (t : text) : endswith [c] (t ++ [c]) = true.
Proof.
  unfold endswith. rewrite rev_app_distr. apply startswith_head.
Qed.

Lemma endswith_wrapped (a c : ascii) (t : text) :
  endswith [c] (a :: t ++ [c]) = true.
Proof. apply (endswith_last c (a :: t)). Qed.

Lemma slice_wrapped (a b : ascii) (t : text) :
  slice_1_m1 (a :: t ++ [b]) = t.
Proof. unfold slice_1_m1. simpl. apply removelast_last. Qed.

(** A text that neither starts nor ends with a space is its own [strip]. *)
Lemma strip_wrapped (a b : ascii) (t : text) :
  isspace a = false -> isspace b = false ->
  strip (a :: t ++ [b]) = a :: t ++ [b].
Proof.
  intros Ha Hb. unfold strip, lstrip, rstrip.
  cbn [drop_while]. rewrite Ha.
  change (a :: t ++ [b]) with ((a :: t) ++ [b]).
  rewrite rev_app_distr. cbn [rev app drop_while]. rewrite Hb.
  change (b :: rev t ++ [a]) with ([b] ++ rev (a :: t)).
  rewrite rev_app_distr, rev_involutive. reflexivity.
Qed.

(** Double quotes around [t]: the first step leaves [strip t], and the
    second step looks at that text. *)
Lemma unquote_double (t : text) :
  unquote (dquote :: t ++ [dquote])
  = let inner := strip t in
    if startswith [squote] inner && endswith [squote] inner
    then strip (slice_1_m1 inner) else inner.
Proof.
  unfold unquote.
  rewrite startswith_head, endswith_wrapped. cbn [andb].
  rewrite slice_wrapped. reflexivity.
Qed.

(** C7, as the code has it: the double quotes are removed first and the
    single quotes next, each at most once.  So a text in double quotes
    whose content is in single quotes loses both pairs; of two pairs of the
    same kind, or of single quotes around double quotes, only the outer
    pair is removed. *)
Theorem unquote_layers (t : text) :
  unquote (dquote :: squote :: t ++ [squote; dquote]) = strip t
  /\ unquote (dquote :: dquote :: t ++ [dquote; dquote]) = dquote :: t ++ [dquote]
  /\ unquote (squote :: squote :: t ++ [squote; squote]) = squote :: t ++ [squote]
  /\ unquote (squote :: dquote :: t ++ [dquote; squote]) = dquote :: t ++ [dquote].
Proof.
  assert (Hd : isspace dquote = false) by reflexivity.
  assert (Hs : isspace squote = false) by reflexivity.
  assert (Hds : Ascii.eqb dquote squote = false) by reflexivity.
  assert (Hsd : Ascii.eqb squote dquote = false) by reflexivity.
  repeat split.
  - replace (squote :: t ++ [squote; dquote])
      with ((squote :: t ++ [squote]) ++ [dquote])
      by (simpl; now rewrite <- app_assoc).
    rewrite unquote_double. cbv zeta.
    rewrite (strip_wrapped squote squote t Hs Hs).
    rewrite startswith_head, endswith_wrapped. cbn [andb].
    now rewrite slice_wrapped.
  - replace (dquote :: t ++ [dquote; dquote])
      with ((dquote :: t ++ [dquote]) ++ [dquote])
      by (simpl; now rewrite <- app_assoc).
    rewrite unquote_double. cbv zeta.
    rewrite (strip_wrapped dquote dquote t Hd Hd).
    now rewrite (startswith_other squote dquote) by exact Hsd.
  - unfold unquote.
    rewrite (startswith_other dquote squote) by exact Hds. cbn [andb].
    replace (squote :: t ++ [squote; squote])
      with ((squote :: t ++ [squote]) ++ [squote])
      by (simpl; now rewrite <- app_assoc).
    rewrite startswith_head, endswith_wrapped. cbn [andb].
    rewrite slice_wrapped. now apply strip_wrapped.
  - unfold unquote.
    rewrite (startswith_other dquote squote) by exact Hds. cbn [andb].
    replace (dquote :: t ++ [dquote; squote])
      with ((dquote :: t ++ [dquote]) ++ [squote])
      by (simpl; now rewrite <- app_assoc).
    rewrite startswith_head, endswith_wrapped. cbn [andb].
    rewrite slice_wrapped. now apply strip_wrapped.
Qed.

(** C7 as stated fails: both pairs of quotes are removed from
    ["'BUY EURUSD'"] written between double quotes. *)
Lemma unquote_removes_two_layers :
  unquote (dquote :: squote :: of_string "BUY EURUSD" ++ [squote; dquote])
  = of_string "BUY EURUSD".
Proof. vm_compute. reflexivity. Qed.

End Quotes.

(* ===================================================================== *)
(** * The parser never raises; the order of stop-loss and take-profit *)
(* ===================================================================== *)

Module ParserTheorems.
Import PyStr PyFloat Regex SignalParser.
Local Open Scope string_scope.

Lemma not_named (rest : string) :
  ~ In ("Unexpected error: " ++ rest) named_reasons.
Proof.
  unfold named_reasons. cbn [In String.append].
  intros H. repeat (destruct H as [H | H]; [discriminate H |]). exact H.
Qed.

(** The body of the [try] block raises nothing but the [ValueError] of
    [float(price)]. *)
Lemma parse_signal_try_raises (message : PyObj) (e : PyExn) :
  parse_signal_try message = inl e -> exists p : text, e = float_error p.
Proof.
  unfold parse_signal_try.
  destruct (as_message message) as [t |]; [| discriminate].
  destruct (length (get_lines (unquote t)) <? 2)%nat; [discriminate |].
  destruct (re_match pattern (hd [] (get_lines (unquote t)))) as [m |];
    [| discriminate].
  destruct (text_or (group 3 m) (group 4 m)) as [[| c p] |].
  - destruct (scan_lines _ None None) as [err | [[sl |] [tp |]]];
      try discriminate.
    repeat (match goal with |- context [if ?b then _ else _] => destruct b end);
      discriminate.
  - destruct (py_float (c :: p)).
    + destruct (scan_lines _ None None) as [err | [[sl |] [tp |]]];
        try discriminate.
      repeat (match goal with |- context [if ?b then _ else _] => destruct b end);
        discriminate.
    + intros [= <-]. now exists (c :: p).
  - destruct (scan_lines _ None None) as [err | [[sl |] [tp |]]];
      try discriminate.
    repeat (match goal with |- context [if ?b then _ else _] => destruct b end);
      discriminate.
Qed.

(** C9: the parser returns a result for every argument, valid or invalid,
    and never raises: what its body raises is the [ValueError] of
    [float(price)], which the handler turns into an invalid result.  When
    the first line matches the pattern with a price that [float] refuses,
    the result is invalid, its reason is "Unexpected error: " followed by
    the message of the exception, and that is none of the named reasons. *)
Theorem parse_signal_total :
  (forall message : PyObj,
      (exists data, parse_signal message = Valid data
                    /\ valid (parse_signal message) = true)
      \/ (exists error, parse_signal message = Invalid error
                        /\ valid (parse_signal message) = false))
  /\ (forall (message : PyObj) (e : PyExn),
         parse_signal_try message = inl e ->
         (exists p, e = float_error p)
         /\ parse_signal message = Invalid ("Unexpected error: " ++ exn_str e))
  /\ (forall (s : string) (t first : text) (rest : list text)
             (m : captures) (p : text),
         as_message (PStr s) = Some t ->
         get_lines (unquote t) = first :: rest ->
         rest <> [] ->
         re_match pattern first = Some m ->
         text_or (group 3 m) (group 4 m) = Some p ->
         p <> [] ->
         py_float p = None ->
         parse_signal (PStr s)
         = Invalid ("Unexpected error: could not convert string to float: "
                    ++ repr_plain p)
         /\ valid (parse_signal (PStr s)) = false
         /\ ~ In ("Unexpected error: could not convert string to float: "
                  ++ repr_plain p) named_reasons).
Proof.
  split; [| split].
  - intros message. destruct (parse_signal message) as [d | err] eqn:E.
    + left. now exists d.
    + right. now exists err.
  - intros message e H. split.
    + now apply (parse_signal_try_raises message).
    + unfold parse_signal. now rewrite H.
  - intros s t first rest m p Hmsg Hlines Hrest Hm Hprice Hp Hfloat.
    assert (E : parse_signal_try (PStr s) = inl (float_error p)).
    { unfold parse_signal_try. rewrite Hmsg, Hlines.
      destruct rest as [| second rest']; [congruence |].
      cbn [length Nat.ltb Nat.leb hd]. rewrite Hm, Hprice.
      destruct p as [| c p']; [congruence |]. now rewrite Hfloat. }
    assert (R : parse_signal (PStr s)
                = Invalid ("Unexpected error: could not convert string to float: "
                           ++ repr_plain p)).
    { unfold parse_signal. rewrite E. reflexivity. }
    split; [exact R |]. split; [now rewrite R |]. apply not_named.
Qed.

(** C9 at the input of the claim: the price 1.0.8. *)
Lemma parse_signal_total_witness :
  parse_signal (PStr (nl_join ["BUY EURUSD @1.0.8"; "SL 1.0850"; "TP 1.0890"]))
  = Invalid "Unexpected error: could not convert string to float: '1.0.8'".
Proof.
  refine (proj1 (proj2 (proj2 parse_signal_total)
    (nl_join ["BUY EURUSD @1.0.8"; "SL 1.0850"; "TP 1.0890"])
    (of_string (nl_join ["BUY EURUSD @1.0.8"; "SL 1.0850"; "TP 1.0890"]))
    (of_string "BUY EURUSD @1.0.8")
    [of_string "SL 1.0850"; of_string "TP 1.0890"]
    [(4%nat, of_string "1.0.8"); (2%nat, of_string "EURUSD"); (1%nat, of_string "BUY")]
    (of_string "1.0.8") _ _ _ _ _ _ _)).
  - vm_compute. reflexivity.
  - vm_compute. reflexivity.
  - discriminate.
  - vm_compute. reflexivity.
  - vm_compute. reflexivity.
  - discriminate.
  - vm_compute. reflexivity.
Defined.

(** C6, as the code has it: the stop-loss above the take-profit of a BUY
    is refused with the reason "For BUY, SL must be lower than TP". *)
Theorem parse_buy_inverted :
  parse_signal (PStr (nl_join ["BUY EURUSD"; "SL 1.0890"; "TP 1.0850"]))
  = Invalid "For BUY, SL must be lower than TP".
Proof. vm_compute. reflexivity. Qed.

(** C6 as stated fails: the reason is not the text of the claim. *)
Lemma parse_buy_inverted_other_reason :
  parse_signal (PStr (nl_join ["BUY EURUSD"; "SL 1.0890"; "TP 1.0850"]))
  <> Invalid "stop-loss must be lower than take-profit for BUY".
Proof. vm_compute. discriminate. Qed.

(** Comparisons of floats: [a >= b] fails for numbers exactly when
    [a < b]. *)
Lemma SFcompare_antisym (a b : float) :
  SFcompare b a = option_map CompOpp (SFcompare a b).
Proof.
  destruct a as [sa | sa | | sa ma ea], b as [sb | sb | | sb mb eb];
    try reflexivity;
    try (destruct sa; reflexivity);
    try (destruct sb; reflexivity);
    try (destruct sa, sb; reflexivity).
  cbn [SFcompare option_map].
  destruct sa, sb; try reflexivity.
  - rewrite (Z.compare_antisym ea eb).
    destruct (ea ?= eb)%Z eqn:E; cbn [CompOpp]; try reflexivity.
    rewrite (Pos.compare_cont_antisym ma mb Eq). cbn.
    now destruct (Pos.compare_cont Eq ma mb).
  - rewrite (Z.compare_antisym ea eb).
    destruct (ea ?= eb)%Z eqn:E; cbn [CompOpp]; try reflexivity.
    rewrite (Pos.compare_cont_antisym ma mb Eq). reflexivity.
Qed.

Lemma SFcompare_numbers (a b : float) :
  is_nan a = false -> is_nan b = false -> exists c, SFcompare a b = Some c.
Proof.
  destruct a, b; try discriminate; intros _ _; cbn [SFcompare]; eauto.
Qed.

Lemma not_ge_lt (a b : float) :
  is_nan a = false -> is_nan b = false -> ge a b = false -> lt a b = true.
Proof.
  intros Ha Hb. unfold ge, lt, SFleb, SFltb.
  rewrite (SFcompare_antisym a b).
  destruct (SFcompare_numbers a b Ha Hb) as [c ->].
  now destruct c.
Qed.

Lemma not_le_gt (a b : float) :
  is_nan a = false -> is_nan b = false -> le a b = false -> gt a b = true.
Proof.
  intros Ha Hb H. unfold gt. apply (not_ge_lt b a Hb Ha). exact H.
Qed.

Section Keeps.
Variable n : nat.
Variable whole : text.

Lemma star_keeps step : keeps n step -> forall fuel, keeps n (star step fuel).
Proof.
  intros Hstep fuel. induction fuel as [| f IH]; intros s c k m H.
  - cbn in H. now exists s, c.
  - cbn [star] in H.
    destruct (step s c _) as [x |] eqn:E.
    + injection H as ->.
      destruct (Hstep _ _ _ _ E) as (s1 & c1 & H1 & G1).
      destruct (length s1 <? length s)%nat; [| discriminate].
      destruct (IH _ _ _ _ H1) as (s2 & c2 & H2 & G2).
      exists s2, c2. split; [exact H2 | congruence].
    + now exists s, c.
Qed.

Lemma run_keeps r : binds n r = false -> keeps n (run whole r).
Proof.
  induction r as [| p | r1 IH1 r2 IH2 | r1 IH1 r2 IH2 | r1 IH1 | g r1 IH1 | |];
    cbn [binds]; intros Hb s c k m H; cbn [run] in H.
  - now exists s, c.
  - destruct s as [| a s']; [discriminate |].
    destruct (p a); [| discriminate]. now exists s', c.
  - apply orb_false_iff in Hb as [B1 B2].
    destruct (IH1 B1 _ _ _ _ H) as (s1 & c1 & H1 & G1).
    destruct (IH2 B2 _ _ _ _ H1) as (s2 & c2 & H2 & G2).
    exists s2, c2. split; [exact H2 | congruence].
  - apply orb_false_iff in Hb as [B1 B2].
    destruct (run whole r1 s c k) as [x |] eqn:E.
    + injection H as ->. now apply (IH1 B1 _ _ _ _ E).
    + now apply (IH2 B2 _ _ _ _ H).
  - now apply (star_keeps _ (IH1 Hb) _ _ _ _ _ H).
  - apply orb_false_iff in Hb as [Bg B1].
    destruct (IH1 B1 _ _ _ _ H) as (s1 & c1 & H1 & G1).
    eexists s1, _. split; [exact H1 |].
    cbn [group]. rewrite Bg. exact G1.
  - destruct (length s =? length whole)%nat; [| discriminate]. now exists s, c.
  - destruct (at_end s); [| discriminate]. now exists s, c.
Qed.
End Keeps.

Lemma run_Lit whole t s c k :
  run whole (Lit t) s c k
  = if startswith t s then k (skipn (length t) s) c else None.
Proof.
  revert s. induction t as [| a t IH]; intros s; [reflexivity |].
  cbn [Lit run Chr]. destruct s as [| b s']; [reflexivity |].
  cbn [startswith length skipn]. destruct (Ascii.eqb a b); [| reflexivity].
  cbn [andb]. apply IH.
Qed.

Lemma startswith_firstn t s :
  startswith t s = true -> firstn (length t) s = t.
Proof.
  revert s. induction t as [| a t IH]; intros s H; [reflexivity |].
  destruct s as [| b s']; [discriminate |]. cbn [startswith] in H.
  apply andb_prop in H as [E H]. apply Ascii.eqb_eq in E as ->.
  cbn [length firstn]. f_equal. now apply IH.
Qed.

Lemma startswith_length t s :
  startswith t s = true -> (length t <= length s)%nat.
Proof.
  revert s. induction t as [| a t IH]; intros s H; [cbn; lia |].
  destruct s as [| b s']; [discriminate |]. cbn [startswith] in H.
  apply andb_prop in H as [_ H]. specialize (IH _ H). cbn [length]. lia.
Qed.

Lemma group_one_length t s :
  startswith t s = true ->
  firstn (length s - length (skipn (length t) s)) s = t.
Proof.
  intros H. pose proof (startswith_length t s H) as L.
  rewrite length_skipn.
  replace (length s - (length s - length t))%nat with (length t) by lia.
  now apply startswith_firstn.
Qed.

(** The first group of a match of the pattern is BUY or SELL. *)
Lemma pattern_action (s : text) (m : captures) :
  re_match pattern s = Some m ->
  group 1 m = Some (of_string "BUY") \/ group 1 m = Some (of_string "SELL").
Proof.
  unfold re_match, pattern. cbn [run].
  rewrite Nat.eqb_refl. rewrite !run_Lit.
  destruct (startswith (of_string "BUY") s) eqn:B.
  - destruct (run s after_action _ _ _) as [x |] eqn:E.
    + intros [= ->].
      destruct (run_keeps 1 s after_action eq_refl _ _ _ _ E) as (s' & c' & [= ->] & G).
      left. rewrite G. cbn [group Nat.eqb].
      now rewrite (group_one_length _ _ B).
    + destruct (startswith (of_string "SELL") s) eqn:S; [| discriminate].
      intros E'.
      destruct (run_keeps 1 s after_action eq_refl _ _ _ _ E') as (s' & c' & [= ->] & G).
      right. rewrite G. cbn [group Nat.eqb].
      now rewrite (group_one_length _ _ S).
  - destruct (startswith (of_string "SELL") s) eqn:S; [| discriminate].
    intros E'.
    destruct (run_keeps 1 s after_action eq_refl _ _ _ _ E') as (s' & c' & [= ->] & G).
    right. rewrite G. cbn [group Nat.eqb].
    now rewrite (group_one_length _ _ S).
Qed.

(** X1: for every accepted input the action is BUY or SELL; the
    stop-loss of a BUY is not above or equal to its take-profit and that of
    a SELL not below or equal; and when neither is a NaN, the stop-loss of
    a BUY is strictly below its take-profit and that of a SELL strictly
    above. *)
Theorem parse_valid_ordering (message : PyObj) (d : SignalData) :
  parse_signal message = Valid d ->
  (action d = "BUY" \/ action d = "SELL")
  /\ (action d = "BUY" -> ge (stop_loss d) (take_profit d) = false)
  /\ (action d = "SELL" -> le (stop_loss d) (take_profit d) = false)
  /\ (is_nan (stop_loss d) = false -> is_nan (take_profit d) = false ->
      (action d = "BUY" -> lt (stop_loss d) (take_profit d) = true)
      /\ (action d = "SELL" -> gt (stop_loss d) (take_profit d) = true)).
Proof.
  intros H.
  assert (G : (action d = "BUY" \/ action d = "SELL")
              /\ (action d = "BUY" -> ge (stop_loss d) (take_profit d) = false)
              /\ (action d = "SELL" -> le (stop_loss d) (take_profit d) = false)).
  { unfold parse_signal in H.
    destruct (parse_signal_try message) as [e | r] eqn:E; [discriminate |].
    subst r. unfold parse_signal_try in E.
    destruct (as_message message) as [t |]; [| discriminate].
    destruct (length (get_lines (unquote t)) <? 2)%nat; [discriminate |].
    destruct (re_match pattern (hd [] (get_lines (unquote t)))) as [m |] eqn:M;
      [| discriminate].
    apply pattern_action in M.
    destruct (match text_or (group 3 m) (group 4 m) with
              | Some (c :: p) => _ | _ => _ end) as [e | pr]; [discriminate |].
    destruct (scan_lines _ None None) as [err | [[sl |] [tp |]]];
      try discriminate.
    destruct (String.eqb _ "BUY" && ge sl tp) eqn:B; [discriminate |].
    destruct (String.eqb _ "SELL" && le sl tp) eqn:S; [discriminate |].
    injection E as <-. cbn [action stop_loss take_profit].
    destruct M as [M | M]; rewrite M in B, S |- *; cbn [default].
    - change (to_string (of_string "BUY")) with "BUY" in *.
      rewrite String.eqb_refl in B.
      repeat split; [now left | intros _; exact B | discriminate].
    - change (to_string (of_string "SELL")) with "SELL" in *.
      rewrite String.eqb_refl in S.
      repeat split; [now right | discriminate | intros _; exact S]. }
  destruct G as (A & B & S). repeat split; try assumption.
  - intros E. apply not_ge_lt; auto.
  - intros E. apply not_le_gt; auto.
Qed.

(** X1 at the valid BUY example of the specification. *)
Lemma parse_valid_ordering_witness :
  lt (S754_finite false 4886405595696988 (-52))
     (S754_finite false 4904419994206470 (-52)) = true.
Proof.
  refine (proj1 (proj2 (proj2 (proj2 (parse_valid_ordering
    (PStr (nl_join ["BUY EURUSD [@1.0860]"; "SL 1.0850"; "TP 1.0890"]))
    {| action := "BUY"; instrument := "EURUSD";
       price := Some (S754_finite false 4890909195324359 (-52));
       stop_loss := S754_finite false 4886405595696988 (-52);
       take_profit := S754_finite false 4904419994206470 (-52) |} _)))
    _ _) _).
  - vm_compute. reflexivity.
  - reflexivity.
  - reflexivity.
  - reflexivity.
Defined.

(** C4 at a stop-loss that is not a number: the BUY signal is accepted,
    and its stop-loss is not below its take-profit. *)
Theorem parse_buy_nan_accepted :
  parse_signal (PStr (nl_join ["BUY EURUSD"; "SL nan"; "TP 1.0850"]))
  = Valid {| action := "BUY"; instrument := "EURUSD"; price := None;
             stop_loss := nan;
             take_profit := S754_finite false 4886405595696988 (-52) |}
  /\ lt nan (S754_finite false 4886405595696988 (-52)) = false.
Proof. split; vm_compute; reflexivity. Qed.

End ParserTheorems.

(* ===================================================================== *)
(** * Facts about the model operations *)
(* ===================================================================== *)

Module OrmFacts.
Import Runtime Orm.

Lemma le_foldr_max (l : list Z) (k : Z) : k ∈ l -> k <= foldr Z.max 0 l.
Proof.
  induction l as [| x l IH]; intros Hin.
  - now apply elem_of_nil in Hin.
  - apply elem_of_cons in Hin. cbn [foldr]. destruct Hin as [-> | Hin].
    + lia.
    + specialize (IH Hin). lia.
Qed.

(** The next primary key is not in the table. *)
Lemma next_pk_fresh {A} (m : gmap Z A) : m !! next_pk m = None.
Proof.
  destruct (m !! next_pk m) as [v |] eqn:E; [| reflexivity].
  exfalso.
  assert (Hin : next_pk m ∈ (map_to_list m).*1).
  { apply list_elem_of_fmap. exists (next_pk m, v). split; [reflexivity |].
    now apply elem_of_map_to_list. }
  apply le_foldr_max in Hin. unfold next_pk in Hin. lia.
Qed.

(** [signal_taken] decides whether some row refers to the signal. *)
Lemma signal_taken_true (s : Z) (m : gmap Z Order.t) (k : Z) (o : Order.t) :
  m !! k = Some o -> Order.signal o = Some s ->
  signal_taken (Some s) m = true.
Proof.
  intros Hk Hs. unfold signal_taken. apply existsb_exists.
  exists (k, o). split.
  - apply list_elem_of_In. now apply elem_of_map_to_list.
  - now apply bool_decide_eq_true.
Qed.

Lemma signal_taken_false (s : Z) (m : gmap Z Order.t) (k : Z) (o : Order.t) :
  signal_taken (Some s) m = false -> m !! k = Some o ->
  Order.signal o <> Some s.
Proof.
  intros Hf Hk Hs. rewrite (signal_taken_true s m k o Hk Hs) in Hf.
  discriminate.
Qed.

Section Clean.
Variable generate_custom_id : gmap Z Order.t -> string.

Lemma clean_status m o :
  Order.status (clean generate_custom_id m o) = Order.status o.
Proof. unfold clean. now destruct (is_blank _). Qed.

Lemma clean_signal m o :
  Order.signal (clean generate_custom_id m o) = Order.signal o.
Proof. unfold clean. now destruct (is_blank _). Qed.

Lemma clean_not_blank m o :
  is_blank (Order.order_id o) = false -> clean generate_custom_id m o = o.
Proof. unfold clean. now intros ->. Qed.

Lemma clean_same_terms m o :
  Order.user (clean generate_custom_id m o) = Order.user o
  /\ Order.action (clean generate_custom_id m o) = Order.action o
  /\ Order.instrument (clean generate_custom_id m o) = Order.instrument o
  /\ Order.entry_price (clean generate_custom_id m o) = Order.entry_price o
  /\ Order.stop_loss (clean generate_custom_id m o) = Order.stop_loss o
  /\ Order.take_profit (clean generate_custom_id m o) = Order.take_profit o.
Proof. unfold clean. now destruct (is_blank _). Qed.

End Clean.

Lemma with_action_status a o :
  Order.status (Worker.with_action a o) = Order.status o.
Proof.
  unfold Worker.with_action.
  now destruct (String.eqb a "BUY"), (String.eqb a "SELL").
Qed.

Lemma with_action_signal a o :
  Order.signal (Worker.with_action a o) = Order.signal o.
Proof.
  unfold Worker.with_action.
  now destruct (String.eqb a "BUY"), (String.eqb a "SELL").
Qed.

(** Writing the status twice is writing the last one. *)
Lemma set_status_twice s s' o :
  Order.set_status s (Order.set_status s' o) = Order.set_status s o.
Proof. reflexivity. Qed.

(** The messages of a field are empty exactly when the field passes. *)
Lemma order_id_errors_nil i : order_id_errors i = [] <-> order_id_ok i = true.
Proof.
  unfold order_id_errors, order_id_ok. destruct i as [s |]; [| tauto].
  destruct (String.length s <=? 50)%nat; split; congruence.
Qed.

Lemma instrument_errors_nil s :
  instrument_errors s = [] <-> instrument_ok s = true.
Proof.
  unfold instrument_errors, instrument_ok.
  destruct (String.eqb s ""), (String.length s <=? 20)%nat; cbn;
    split; congruence.
Qed.

Lemma entry_price_errors_nil v :
  entry_price_errors v = [] <-> entry_price_ok v = true.
Proof.
  unfold entry_price_errors, entry_price_ok, digits_errors.
  destruct v as [d |]; [| tauto]. destruct (decimal_ok d); split; congruence.
Qed.

Lemma price_errors_nil v : price_errors v = [] <-> price_ok v = true.
Proof.
  unfold price_errors, price_ok, digits_errors.
  destruct v as [d |]; [| split; congruence].
  destruct (decimal_ok d), (0 <=? d); cbn; split; congruence.
Qed.

Lemma has_errors_false f l : has_errors (f, l) = false <-> l = [].
Proof. unfold has_errors. cbn. destruct l; split; congruence. Qed.

(** [clean_fields] passes exactly when no field has a message. *)
Lemma field_errors_nil (o : Order.t) :
  field_errors o = [] <-> clean_fields o = true.
Proof.
  unfold field_errors, clean_fields.
  rewrite !andb_true_iff, <- order_id_errors_nil, <- instrument_errors_nil,
    <- entry_price_errors_nil, <- !price_errors_nil.
  split.
  - intros H.
    assert (F : Forall (fun e => has_errors e = false)
                  [("order_id", order_id_errors (Order.order_id o));
                   ("instrument", instrument_errors (Order.instrument o));
                   ("entry_price", entry_price_errors (Order.entry_price o));
                   ("stop_loss", price_errors (Order.stop_loss o));
                   ("take_profit", price_errors (Order.take_profit o))]).
    { apply Forall_forall. intros e He.
      destruct (has_errors e) eqn:E; [| reflexivity].
      assert (I : In e []) by (rewrite <- H; apply filter_In; split;
                               [now apply list_elem_of_In | exact E]).
      destruct I. }
    repeat match goal with
           | F : Forall _ (_ :: _) |- _ =>
               apply Forall_cons_1 in F as [?%has_errors_false F]
           end.
    tauto.
  - intros ((((-> & ->) & ->) & ->) & ->). reflexivity.
Qed.

Section Text.

Variable generate_custom_id : gmap Z Order.t -> string.

(** [full_clean] raises exactly when the dictionary of the errors is not
    empty. *)
Lemma validation_errors_nil pk m o :
  validation_errors generate_custom_id pk m o = []
  <-> clean_fields o && validate_unique pk m (clean generate_custom_id m o)
      = true.
Proof.
  unfold validation_errors, unique_errors, validate_unique.
  rewrite !andb_true_iff, !negb_true_iff, <- field_errors_nil. split.
  - intros H. apply app_eq_nil in H as [H1 H2]. rewrite H1 in H2.
    cbn [map existsb negb andb] in H2.
    destruct (order_id_taken _ _), (signal_taken _ _); try discriminate.
    now rewrite H1.
  - intros (-> & -> & ->). reflexivity.
Qed.

(** The text when the generated or given [order_id] is the only thing in
    the way. *)
Lemma validation_errors_order_id pk m o :
  clean_fields o = true ->
  order_id_taken (Order.order_id (clean generate_custom_id m o)) (others pk m)
  = true ->
  signal_taken (Order.signal (clean generate_custom_id m o)) (others pk m)
  = false ->
  repr_errors (validation_errors generate_custom_id pk m o)
  = "{'order_id': ['Order with this Order id already exists.']}".
Proof.
  intros Hc Hi Hs. unfold validation_errors, unique_errors.
  apply field_errors_nil in Hc. rewrite Hc, Hi, Hs. reflexivity.
Qed.

(** The text when the [signal] of the order is the only thing in the
    way. *)
Lemma validation_errors_signal pk m o :
  clean_fields o = true ->
  order_id_taken (Order.order_id (clean generate_custom_id m o)) (others pk m)
  = false ->
  signal_taken (Order.signal (clean generate_custom_id m o)) (others pk m)
  = true ->
  repr_errors (validation_errors generate_custom_id pk m o)
  = "{'signal': ['Order with this Signal already exists.']}".
Proof.
  intros Hc Hi Hs. unfold validation_errors, unique_errors.
  apply field_errors_nil in Hc. rewrite Hc, Hi, Hs. reflexivity.
Qed.

End Text.

End OrmFacts.

(* ===================================================================== *)
(** * What one run of a task does *)
(* ===================================================================== *)

Module TaskFacts.
Import Runtime Orm Properties OrmFacts.

(** One run of the worker: either no order and no history row is added,
    and what was sent to the broker is at most one of the three messages
    or the event followed by the lifecycle task; or one pending order of
    the signal is added under a new key, with its history row, its event
    and its lifecycle task. *)
Lemma worker_outcome gen rhu fails sid w r w' :
  Worker.process_signal_task gen rhu fails sid w = (r, w') ->
  users (db w') = users (db w)
  /\ ((orders (db w') = orders (db w) /\ history (db w') = history (db w)
       /\ (queue w' = queue w
           \/ (exists ev, queue w' = queue w ++ [NotifySignalInvalid ev])
           \/ (exists ev, queue w' = queue w ++ [BroadcastOrderEvent ev])
           \/ (exists ev pk, queue w' = queue w
                 ++ [BroadcastOrderEvent ev; SimulateOrderLifecycle pk])))
      \/ (exists pk o d,
             orders (db w) !! pk = None
             /\ signal_taken (Some sid) (orders (db w)) = false
             /\ orders (db w') = <[pk := o]> (orders (db w))
             /\ Order.status o = OrderStatus.PENDING
             /\ Order.signal o = Some sid
             /\ Order.entry_price o = Some d
             /\ history (db w') = history (db w) ++ [Worker.pending_history pk]
             /\ queue w' = queue w
                  ++ [BroadcastOrderEvent
                        (Worker.pending_event o (float_of_decimal d));
                      SimulateOrderLifecycle pk])).
Proof.
  intros H. destruct w as [[sigs ords hist usrs] q sw].
  run_task H.
  all: injection H as <- <-; cbn [db queue orders history users].
  all: split; [reflexivity |].
  all: try (left; split; [reflexivity | split; [reflexivity |]];
            rewrite <- ?app_assoc; cbn [app]; eauto 8; fail).
  all: right; exists (next_pk ords); eexists;
    match goal with Hd : Order.entry_price _ = Some ?d |- _ => exists d end.
  all: (split; [apply next_pk_fresh |]).
  all: (split;
        [ match goal with
          | Hv : _ && validate_unique None _ _ = true |- _ =>
              apply andb_prop in Hv as [_ Hu]; unfold validate_unique in Hu;
              apply andb_prop in Hu as [_ Hu]; rewrite clean_signal in Hu;
              cbn [Order.signal others] in Hu; now apply negb_true_iff in Hu
          end |]).
  all: (split; [ rewrite insert_insert_eq; reflexivity |]).
  all: rewrite clean_status, clean_signal, with_action_status, with_action_signal,
         clean_status, clean_signal; cbn [Order.status Order.signal].
  all: (split; [reflexivity |]); (split; [reflexivity |]).
  all: (split; [eassumption |]).
  all: rewrite <- ?app_assoc; cbn [app]; split; reflexivity.
Qed.

(** What one run of the worker writes to the status of signals: only to
    its own signal, one of the five lists of [worker_writes], and the
    stored status is the last value written.  The list starts with
    [PROCESSING] exactly when the signal is stored and neither line 21 nor
    line 23 meets a failure: the status that is stored plays no part. *)
Lemma worker_writes_outcome gen rhu fails sid w r w' :
  Worker.process_signal_task gen rhu fails sid w = (r, w') ->
  exists l : list SignalStatusChoices.t,
    status_writes w' = status_writes w ++ map (pair sid) l
    /\ worker_writes l
    /\ (forall k, k <> sid -> signals (db w') !! k = signals (db w) !! k)
    /\ (l <> [] -> TradingSignal.status <$> (signals (db w') !! sid) = last l)
    /\ (hd_error l = Some SignalStatusChoices.PROCESSING
        <-> is_Some (signals (db w) !! sid)
            /\ fails Worker.SignalFetch = false
            /\ fails Worker.SaveProcessing = false).
Proof.
  intros H. destruct w as [[sigs ords hist usrs] q sw].
  run_task H.
  all: injection H as <- <-; cbn [status_writes db signals].
  all: first
    [ close_writes (@nil SignalStatusChoices.t)
    | close_writes [SignalStatusChoices.PROCESSING]
    | close_writes [SignalStatusChoices.PROCESSING; SignalStatusChoices.SUCCESS]
    | close_writes [SignalStatusChoices.PROCESSING; SignalStatusChoices.FAILED;
                    SignalStatusChoices.FAILED]
    | close_writes [SignalStatusChoices.PROCESSING; SignalStatusChoices.FAILED] ].
Qed.

(** One run of the lifecycle: signals are not touched; only events are
    sent; and the orders and the history are as before, or the order is
    executed with one more row, or it is closed with two more rows. *)
Lemma lifecycle_outcome gen fails pk w r w' :
  Lifecycle.simulate_order_lifecycle gen fails pk w = (r, w') ->
  signals (db w') = signals (db w)
  /\ users (db w') = users (db w)
  /\ status_writes w' = status_writes w
  /\ (exists evs, queue w' = queue w ++ map BroadcastOrderEvent evs)
  /\ ((orders (db w') = orders (db w) /\ history (db w') = history (db w))
      \/ (exists o, orders (db w) !! pk = Some o
            /\ orders (db w')
               = <[pk := Order.set_status OrderStatus.EXECUTED o]> (orders (db w))
            /\ history (db w') = history (db w)
                 ++ [Lifecycle.status_history OrderStatus.EXECUTED "Order executed" pk])
      \/ (exists o, orders (db w) !! pk = Some o
            /\ orders (db w')
               = <[pk := Order.set_status OrderStatus.CLOSED o]> (orders (db w))
            /\ history (db w') = history (db w)
                 ++ [Lifecycle.status_history OrderStatus.EXECUTED "Order executed" pk;
                     Lifecycle.status_history OrderStatus.CLOSED "Order closed" pk])).
Proof.
  intros H. destruct w as [[sigs ords hist usrs] q sw].
  run_task H.
  all: try match goal with
           | Hx : String.eqb _ _ = true |- _ => vm_compute in Hx; discriminate Hx
           end.
  all: injection H as <- <-;
    cbn [db queue orders history users signals status_writes].
  all: rewrite ?clean_status; cbn [Order.status Order.set_status].
  all: do 3 (split; [reflexivity |]).
  all: split;
    [ first [ exists []; cbn [map]; rewrite ?app_nil_r; reflexivity
            | eexists [_]; cbn [map]; rewrite <- ?app_assoc; reflexivity
            | eexists [_; _]; cbn [map]; rewrite <- ?app_assoc; reflexivity ] |].
  all: try (left; split; reflexivity).
  all: try (right; left; eexists; split; [eassumption |]; split; reflexivity).
  all: right; right; eexists; split; [eassumption |]; split;
         [ rewrite insert_insert_eq; reflexivity
         | rewrite <- ?app_assoc; reflexivity ].
Qed.

(** Receiving a signal adds no order. *)
Lemma receive_outcome f1 f2 user account message w r w' :
  Worker.receive_signal f1 f2 user account message w = (r, w') ->
  orders (db w') = orders (db w).
Proof.
  intros H. destruct w as [[sigs ords hist usrs] q sw].
  run_task H.
  all: injection H as <- <-; reflexivity.
Qed.

(** X2: the one-to-one relation between signals and orders is kept by a
    run of the worker, whatever fails in it. *)
Lemma worker_keeps_one_to_one gen rhu fails sid w :
  one_to_one (orders (db w)) ->
  one_to_one (orders (db (Worker.process_signal_task gen rhu fails sid w).2)).
Proof.
  intros Hone.
  destruct (Worker.process_signal_task gen rhu fails sid w) as [r w'] eqn:H.
  cbn [snd].
  destruct (worker_outcome _ _ _ _ _ _ _ H)
    as [_ [[-> _] | (pk & o & d & Hfresh & Hfree & -> & _ & Hsig & _)]];
    [exact Hone |].
  intros k1 k2 o1 o2 s H1 H2 S1 S2.
  destruct (decide (k1 = pk)) as [-> | N1], (decide (k2 = pk)) as [-> | N2];
    [reflexivity | | |].
  - rewrite lookup_insert_eq in H1. rewrite lookup_insert_ne in H2 by congruence.
    injection H1 as <-. exfalso.
    apply (signal_taken_false sid _ k2 o2 Hfree H2). congruence.
  - rewrite lookup_insert_eq in H2. rewrite lookup_insert_ne in H1 by congruence.
    injection H2 as <-. exfalso.
    apply (signal_taken_false sid _ k1 o1 Hfree H1). congruence.
  - rewrite lookup_insert_ne in H1, H2 by congruence. now apply (Hone k1 k2 o1 o2 s).
Qed.

(** Under the one-to-one relation a signal has at most one order. *)
Lemma filter_at_most_one {A} (P : Z * A -> bool) (l : list (Z * A)) :
  NoDup (l.*1) ->
  (forall x y, x ∈ l -> y ∈ l -> P x = true -> P y = true -> x.1 = y.1) ->
  (length (List.filter P l) <= 1)%nat.
Proof.
  induction l as [| a l IH]; intros Hnd Hsame; [cbn; lia |].
  cbn [fmap list_fmap] in Hnd. apply NoDup_cons in Hnd as [Hnot Hnd].
  cbn [List.filter]. destruct (P a) eqn:Pa.
  - assert (E : List.filter P l = []).
    { destruct (List.filter P l) as [| y ys] eqn:F; [reflexivity |]. exfalso.
      assert (Hy : In y (List.filter P l)) by (rewrite F; now left).
      apply filter_In in Hy as [Hin Py]. apply list_elem_of_In in Hin.
      apply Hnot. apply list_elem_of_fmap. exists y. split; [| exact Hin].
      apply Hsame; [left | now right | exact Pa | exact Py]. }
    rewrite E. cbn. lia.
  - apply IH; [exact Hnd |].
    intros x y Hx Hy. apply Hsame; now right.
Qed.

Lemma one_to_one_count (s : Z) (m : gmap Z Order.t) :
  one_to_one m -> (length (orders_of_signal s m) <= 1)%nat.
Proof.
  intros Hone. unfold orders_of_signal. apply filter_at_most_one.
  - apply NoDup_fst_map_to_list.
  - intros [k1 o1] [k2 o2] H1 H2 P1 P2. cbn [fst snd] in *.
    apply elem_of_map_to_list in H1, H2.
    apply bool_decide_eq_true in P1, P2.
    now apply (Hone k1 k2 o1 o2 s).
Qed.

Lemma same_terms_refl o : same_terms o o.
Proof. now repeat split. Qed.

Lemma same_terms_set_status s o : same_terms o (Order.set_status s o).
Proof. now repeat split. Qed.

Lemma same_terms_trans o1 o2 o3 :
  same_terms o1 o2 -> same_terms o2 o3 -> same_terms o1 o3.
Proof.
  unfold same_terms. intros (A1 & A2 & A3 & A4 & A5 & A6 & A7 & A8)
    (B1 & B2 & B3 & B4 & B5 & B6 & B7 & B8).
  repeat split; congruence.
Qed.

(** One run of the lifecycle keeps every order, with the same terms. *)
Lemma advance_same_terms (a : Advance) (w : World) (k : Z) (o : Order.t) :
  orders (db w) !! k = Some o ->
  exists o', orders (db (advance a w)) !! k = Some o' /\ same_terms o o'.
Proof.
  intros Hk. unfold advance.
  destruct (Lifecycle.simulate_order_lifecycle _ _ _ w) as [r w'] eqn:H.
  cbn [snd].
  destruct (lifecycle_outcome _ _ _ _ _ _ H) as (_ & _ & _ & _ & Hcases).
  destruct Hcases as [[-> _] | [(o0 & H0 & -> & _) | (o0 & H0 & -> & _)]].
  - exists o. split; [exact Hk | apply same_terms_refl].
  - destruct (decide (k = adv_order a)) as [-> | N].
    + rewrite lookup_insert_eq. eexists. split; [reflexivity |].
      replace o0 with o by congruence. apply same_terms_set_status.
    + rewrite lookup_insert_ne by congruence.
      exists o. split; [exact Hk | apply same_terms_refl].
  - destruct (decide (k = adv_order a)) as [-> | N].
    + rewrite lookup_insert_eq. eexists. split; [reflexivity |].
      replace o0 with o by congruence. apply same_terms_set_status.
    + rewrite lookup_insert_ne by congruence.
      exists o. split; [exact Hk | apply same_terms_refl].
Qed.

(** The statuses one run of the lifecycle leaves: the stored one,
    executed or closed; and it adds no order. *)
Lemma advance_statuses (a : Advance) (w : World) (k : Z) (o' : Order.t) :
  orders (db (advance a w)) !! k = Some o' ->
  exists o, orders (db w) !! k = Some o
            /\ (Order.status o' = Order.status o
                \/ Order.status o' = OrderStatus.EXECUTED
                \/ Order.status o' = OrderStatus.CLOSED).
Proof.
  unfold advance.
  destruct (Lifecycle.simulate_order_lifecycle _ _ _ w) as [r w'] eqn:H.
  cbn [snd].
  destruct (lifecycle_outcome _ _ _ _ _ _ H) as (_ & _ & _ & _ & Hcases).
  destruct Hcases as [[-> _] | [(o0 & H0 & -> & _) | (o0 & H0 & -> & _)]];
    intros Hk.
  - exists o'. split; [exact Hk | now left].
  - destruct (decide (k = adv_order a)) as [-> | N].
    + rewrite lookup_insert_eq in Hk. injection Hk as <-.
      exists o0. split; [exact H0 | right; now left].
    + rewrite lookup_insert_ne in Hk by congruence.
      exists o'. split; [exact Hk | now left].
  - destruct (decide (k = adv_order a)) as [-> | N].
    + rewrite lookup_insert_eq in Hk. injection Hk as <-.
      exists o0. split; [exact H0 | right; now right].
    + rewrite lookup_insert_ne in Hk by congruence.
      exists o'. split; [exact Hk | now left].
Qed.

(** An order the worker adds is pending. *)
Lemma worker_creates_pending gen rhu fails sid w k o :
  orders (db w) !! k = None ->
  orders (db (Worker.process_signal_task gen rhu fails sid w).2) !! k = Some o ->
  Order.status o = OrderStatus.PENDING.
Proof.
  destruct (Worker.process_signal_task gen rhu fails sid w) as [r w'] eqn:H.
  cbn [snd]. intros Hnone Hk.
  destruct (worker_outcome _ _ _ _ _ _ _ H)
    as [_ [[E _] | (pk & o0 & d & _ & _ & E & Hst & _)]]; rewrite E in Hk.
  - congruence.
  - destruct (decide (k = pk)) as [-> | N].
    + rewrite lookup_insert_eq in Hk. congruence.
    + rewrite lookup_insert_ne in Hk by congruence. congruence.
Qed.

(** The orders the worker leaves: those it found, unchanged, and at most
    one more, pending. *)
Lemma worker_statuses gen rhu fails sid w k o :
  orders (db (Worker.process_signal_task gen rhu fails sid w).2) !! k = Some o ->
  orders (db w) !! k = Some o \/ Order.status o = OrderStatus.PENDING.
Proof.
  destruct (Worker.process_signal_task gen rhu fails sid w) as [r w'] eqn:H.
  cbn [snd]. intros Hk.
  destruct (worker_outcome _ _ _ _ _ _ _ H)
    as [_ [[E _] | (pk & o0 & d & _ & _ & E & Hst & _)]]; rewrite E in Hk.
  - now left.
  - destruct (decide (k = pk)) as [-> | N].
    + rewrite lookup_insert_eq in Hk. right. congruence.
    + rewrite lookup_insert_ne in Hk by congruence. now left.
Qed.

Lemma validate_unique_after_insert pk m o o' :
  validate_unique (Some pk) (<[pk := o']> m) o = validate_unique (Some pk) m o.
Proof. unfold validate_unique, others. now rewrite delete_insert_eq. Qed.

Lemma status_set_status s o : Order.status (Order.set_status s o) = s.
Proof. reflexivity. Qed.

Lemma entry_price_set_status s o :
  Order.entry_price (Order.set_status s o) = Order.entry_price o.
Proof. reflexivity. Qed.

End TaskFacts.

(* ===================================================================== *)
(** * The statements of the specification about the pipeline *)
(* ===================================================================== *)

Module Pipeline.
Import Runtime Orm Properties OrmFacts TaskFacts Sample.

(** The order of signal 1 in the sample data. *)
Lemma world1_orders :
  orders (db world1)
  = {[ 1 := {| Order.order_id := Some "INV0311260001"; Order.user := 7;
               Order.signal := Some 1; Order.action := Some Action.BUY;
               Order.instrument := "EURUSD"; Order.entry_price := Some 10860;
               Order.stop_loss := Some 10850; Order.take_profit := Some 10890;
               Order.status := OrderStatus.PENDING |} ]}.
Proof. vm_compute. reflexivity. Qed.

(** C1, as the code has it: the order and its first history row are stored
    together or not at all.  After a run of the worker either no order and
    no history row was added, or one pending order of the signal and its
    pending history row were added and the event and the lifecycle task of
    that order were sent, in this order.  Sending is immediate: in the
    first case the broker has received nothing, or the invalid-signal
    event, or the order event, or the order event and the lifecycle
    task. *)
Theorem worker_atomic_persistence gen rhu fails sid w :
  let w' := (Worker.process_signal_task gen rhu fails sid w).2 in
  (orders (db w') = orders (db w) /\ history (db w') = history (db w)
   /\ (queue w' = queue w
       \/ (exists ev, queue w' = queue w ++ [NotifySignalInvalid ev])
       \/ (exists ev, queue w' = queue w ++ [BroadcastOrderEvent ev])
       \/ (exists ev pk, queue w' = queue w
             ++ [BroadcastOrderEvent ev; SimulateOrderLifecycle pk])))
  \/ (exists pk o d,
         orders (db w) !! pk = None
         /\ orders (db w') = <[pk := o]> (orders (db w))
         /\ Order.status o = OrderStatus.PENDING
         /\ Order.signal o = Some sid
         /\ Order.entry_price o = Some d
         /\ history (db w') = history (db w) ++ [Worker.pending_history pk]
         /\ queue w' = queue w
              ++ [BroadcastOrderEvent (Worker.pending_event o (float_of_decimal d));
                  SimulateOrderLifecycle pk]).
Proof.
  destruct (Worker.process_signal_task gen rhu fails sid w) as [r w'] eqn:H.
  cbn [snd].
  destruct (worker_outcome _ _ _ _ _ _ _ H)
    as [_ [Hsame | (pk & o & d & H1 & _ & H2 & H3 & H4 & H5 & H6 & H7)]].
  - now left.
  - right. now exists pk, o, d.
Qed.

(** C1 as stated fails: when the insertion of the history row fails, the
    transaction is rolled back, no order and no history row is stored, and
    the event and the lifecycle task have been sent. *)
Lemma enqueued_without_commit :
  let r := run_worker (Worker.only Worker.HistoryInsert) 1 world0 in
  raised r = true
  /\ orders (db r.2) = ∅
  /\ history (db r.2) = []
  /\ queue r.2
     = [BroadcastOrderEvent
          {| ev_type := "order.pending"; ev_order_id := Some "INV0311260001";
             ev_instrument := "EURUSD";
             ev_entry_price := S754_finite false 4890909195324359 (-52);
             ev_status := "pending" |};
        SimulateOrderLifecycle 1].
Proof. vm_compute. repeat split; reflexivity. Qed.

(** C2, as the code has it: a run of the worker writes the status of its
    own signal only.  When the signal is stored and lines 21 to 23 meet no
    failure it first writes [PROCESSING], whatever the stored status is
    (no condition on it: a signal in [SUCCESS] or [FAILED] goes back to
    [PROCESSING]), and otherwise it writes nothing; after [PROCESSING] it
    writes nothing more, or [SUCCESS], or [FAILED] once or twice; the
    stored status is the last value written.  The lifecycle writes no
    signal. *)
Theorem worker_status_writes gen rhu fails sid w :
  (let w' := (Worker.process_signal_task gen rhu fails sid w).2 in
   exists l : list SignalStatusChoices.t,
     status_writes w' = status_writes w ++ map (pair sid) l
     /\ worker_writes l
     /\ (forall k, k <> sid -> signals (db w') !! k = signals (db w) !! k)
     /\ (l <> [] -> TradingSignal.status <$> (signals (db w') !! sid) = last l)
     /\ (hd_error l = Some SignalStatusChoices.PROCESSING
         <-> is_Some (signals (db w) !! sid)
             /\ fails Worker.SignalFetch = false
             /\ fails Worker.SaveProcessing = false))
  /\ (forall a : Advance,
         status_writes (advance a w) = status_writes w
         /\ signals (db (advance a w)) = signals (db w)).
Proof.
  split.
  - destruct (Worker.process_signal_task gen rhu fails sid w) as [r w'] eqn:H.
    cbn [snd]. exact (worker_writes_outcome _ _ _ _ _ _ _ H).
  - intros a. unfold advance.
    destruct (Lifecycle.simulate_order_lifecycle _ _ _ w) as [r w'] eqn:H.
    cbn [snd].
    destruct (lifecycle_outcome _ _ _ _ _ _ H) as (Hs & _ & Hw & _).
    now split.
Qed.

(** C2 as stated fails.  The signal 1 is in the final state [SUCCESS]; the
    worker delivered again for it writes [PROCESSING], then [FAILED]
    because the order exists.  And a run that fails leaves the signal
    [FAILED]; the retry writes [PROCESSING] and then [SUCCESS]. *)
Lemma success_signal_reprocessed :
  (TradingSignal.status <$> (signals (db world1) !! 1)
   = Some SignalStatusChoices.SUCCESS
   /\ (let w' := (run_worker Worker.no_fault 1 world1).2 in
       TradingSignal.status <$> (signals (db w') !! 1)
       = Some SignalStatusChoices.FAILED
       /\ writes_of 1 (status_writes w')
          = [SignalStatusChoices.PROCESSING; SignalStatusChoices.SUCCESS;
             SignalStatusChoices.PROCESSING; SignalStatusChoices.FAILED]
       /\ follows_transitions
            (SignalStatusChoices.PENDING :: writes_of 1 (status_writes w'))
          = false))
  /\ (let w1 := (run_worker (Worker.only Worker.HistoryInsert) 1 world0).2 in
      let w2 := (run_worker Worker.no_fault 1 w1).2 in
      TradingSignal.status <$> (signals (db w1) !! 1)
      = Some SignalStatusChoices.FAILED
      /\ TradingSignal.status <$> (signals (db w2) !! 1)
         = Some SignalStatusChoices.SUCCESS
      /\ writes_of 1 (status_writes w2)
         = [SignalStatusChoices.PROCESSING; SignalStatusChoices.FAILED;
            SignalStatusChoices.PROCESSING; SignalStatusChoices.SUCCESS]).
Proof. vm_compute. repeat split; reflexivity. Qed.

(** C3, as the code has it: the lifecycle applies its two transitions
    whatever the stored status of the order is.  For a stored order that
    passes the validation of its model and has an entry price, a run
    without failure returns, leaves the order closed, appends one
    executed and one closed history row, and sends the two events. *)
Theorem lifecycle_unconditional gen pk w o d :
  orders (db w) !! pk = Some o ->
  is_blank (Order.order_id o) = false ->
  clean_fields o = true ->
  validate_unique (Some pk) (orders (db w)) o = true ->
  Order.entry_price o = Some d ->
  let r := Lifecycle.simulate_order_lifecycle gen Lifecycle.no_fault pk w in
  r.1 = inr tt
  /\ orders (db r.2) = <[pk := Order.set_status OrderStatus.CLOSED o]> (orders (db w))
  /\ history (db r.2) = history (db w)
       ++ [Lifecycle.status_history OrderStatus.EXECUTED "Order executed" pk;
           Lifecycle.status_history OrderStatus.CLOSED "Order closed" pk]
  /\ queue r.2 = queue w
       ++ [BroadcastOrderEvent
             (Lifecycle.status_event OrderStatus.EXECUTED
                (Order.set_status OrderStatus.EXECUTED o) (float_of_decimal d));
           BroadcastOrderEvent
             (Lifecycle.status_event OrderStatus.CLOSED
                (Order.set_status OrderStatus.CLOSED o) (float_of_decimal d))].
Proof.
  intros Ho Hb Hc Hu Hd r.
  destruct (Lifecycle.simulate_order_lifecycle gen Lifecycle.no_fault pk w)
    as [res w'] eqn:H.
  subst r. cbn [fst snd].
  destruct w as [[sigs ords hist usrs] q sw]. cbn [db orders] in Ho, Hu.
  assert (E : forall m s, clean gen m (Order.set_status s o) = Order.set_status s o)
    by (intros m s; now apply clean_not_blank).
  assert (C : forall s, clean_fields (Order.set_status s o) = true)
    by (intros s; exact Hc).
  assert (U : forall s o', validate_unique (Some pk) (<[pk := o']> ords)
                             (Order.set_status s o) = true)
    by (intros s o'; rewrite validate_unique_after_insert; exact Hu).
  assert (U0 : forall s, validate_unique (Some pk) ords (Order.set_status s o) = true)
    by (intros s; exact Hu).
  run_task H.
  all: repeat first
         [ rewrite status_set_status in *
         | rewrite set_status_twice in *
         | rewrite entry_price_set_status in *
         | rewrite E in * | rewrite C in * | rewrite U in * | rewrite U0 in * ].
  all: try discriminate.
  all: try congruence.
  all: injection H as <- <-; cbn [db orders history queue].
  all: split; [reflexivity |].
  all: split; [now rewrite insert_insert_eq |].
  all: rewrite <- !app_assoc; cbn [app].
  all: split; [reflexivity |].
  all: congruence.
Qed.

(** C3 on the closed order 1 of the sample data: the run appends an
    executed and a closed row to the three rows of the order. *)
Lemma lifecycle_unconditional_witness :
  map OrderHistory.status
      (history (db (run_lifecycle Lifecycle.no_fault 1 world3).2))
  = [OrderStatus.PENDING; OrderStatus.EXECUTED; OrderStatus.CLOSED;
     OrderStatus.EXECUTED; OrderStatus.CLOSED].
Proof.
  pose proof (lifecycle_unconditional custom_id 1 world3
    {| Order.order_id := Some "INV0311260001"; Order.user := 7;
       Order.signal := Some 1; Order.action := Some Action.BUY;
       Order.instrument := "EURUSD"; Order.entry_price := Some 10860;
       Order.stop_loss := Some 10850; Order.take_profit := Some 10890;
       Order.status := OrderStatus.CLOSED |} 10860) as T.
  destruct T as (_ & _ & Hh & _).
  - vm_compute. reflexivity.
  - vm_compute. reflexivity.
  - vm_compute. reflexivity.
  - vm_compute. reflexivity.
  - reflexivity.
  - unfold run_lifecycle. rewrite Hh. vm_compute. reflexivity.
Defined.

(** C3 as stated fails: order 1 is executed with the rows pending and
    executed, and the lifecycle invoked again writes a second executed
    row; invoked on the closed order it writes a second closed row. *)
Lemma retry_duplicates_history :
  (Order.status <$> (orders (db world2) !! 1) = Some OrderStatus.EXECUTED
   /\ map OrderHistory.status (history (db world2))
      = [OrderStatus.PENDING; OrderStatus.EXECUTED]
   /\ map OrderHistory.status
        (history (db (run_lifecycle Lifecycle.no_fault 1 world2).2))
      = [OrderStatus.PENDING; OrderStatus.EXECUTED;
         OrderStatus.EXECUTED; OrderStatus.CLOSED])
  /\ (Order.status <$> (orders (db world3) !! 1) = Some OrderStatus.CLOSED
      /\ map OrderHistory.status
           (history (db (run_lifecycle Lifecycle.no_fault 1 world3).2))
         = [OrderStatus.PENDING; OrderStatus.EXECUTED; OrderStatus.CLOSED;
            OrderStatus.EXECUTED; OrderStatus.CLOSED]).
Proof. vm_compute. repeat split; reflexivity. Qed.

(** C5: when the signal is in the state [SUCCESS] and has its order, a run
    of the worker for it, whatever fails, leaves the orders as they are,
    so the order of the signal is still the only one. *)
Theorem reprocessing_creates_no_order gen rhu fails sid w s k o :
  signals (db w) !! sid = Some s ->
  TradingSignal.status s = SignalStatusChoices.SUCCESS ->
  orders (db w) !! k = Some o ->
  Order.signal o = Some sid ->
  one_to_one (orders (db w)) ->
  let w' := (Worker.process_signal_task gen rhu fails sid w).2 in
  orders (db w') = orders (db w)
  /\ (forall k' o', orders (db w') !! k' = Some o' ->
                    Order.signal o' = Some sid -> k' = k)
  /\ (length (orders_of_signal sid (orders (db w'))) <= 1)%nat.
Proof.
  intros Hs Hst Hk Hsig Hone w'.
  assert (E : orders (db w') = orders (db w)).
  { subst w'.
    destruct (Worker.process_signal_task gen rhu fails sid w) as [r w1] eqn:H.
    cbn [snd].
    destruct (worker_outcome _ _ _ _ _ _ _ H)
      as [_ [[E _] | (pk & o0 & d & _ & Hfree & _)]]; [exact E |].
    rewrite (signal_taken_true sid _ k o Hk Hsig) in Hfree. discriminate. }
  split; [exact E |]. rewrite E. split.
  - intros k' o' Hk' Hsig'. now apply (Hone k' k o' o sid).
  - now apply one_to_one_count.
Qed.

(** C5 on the sample data: signal 1 is in the state [SUCCESS] with the
    order 1, and the worker run again adds no order. *)
Lemma reprocessing_creates_no_order_witness :
  orders (db (run_worker Worker.no_fault 1 world1).2) = orders (db world1).
Proof.
  refine (proj1 (reprocessing_creates_no_order custom_id round_half_up
    Worker.no_fault 1 world1
    {| TradingSignal.user := 7; TradingSignal.account := Some 3;
       TradingSignal.raw_message := Some buy_text;
       TradingSignal.status := SignalStatusChoices.SUCCESS;
       TradingSignal.error_message := None |}
    1
    {| Order.order_id := Some "INV0311260001"; Order.user := 7;
       Order.signal := Some 1; Order.action := Some Action.BUY;
       Order.instrument := "EURUSD"; Order.entry_price := Some 10860;
       Order.stop_loss := Some 10850; Order.take_profit := Some 10890;
       Order.status := OrderStatus.PENDING |} _ _ _ _ _)).
  - vm_compute. reflexivity.
  - reflexivity.
  - vm_compute. reflexivity.
  - reflexivity.
  - rewrite world1_orders. intros k1 k2 o1 o2 s0 H1 H2 _ _.
    apply lookup_singleton_Some in H1 as [<- _].
    apply lookup_singleton_Some in H2 as [<- _]. reflexivity.
Defined.

(** X2 on the sample data: the worker run for signal 1 from the database
    without orders. *)
Lemma worker_keeps_one_to_one_witness :
  one_to_one (orders (db (run_worker Worker.no_fault 1 world0).2)).
Proof.
  apply (worker_keeps_one_to_one custom_id round_half_up Worker.no_fault 1 world0).
  intros k1 k2 o1 o2 s H1. cbn in H1. now rewrite lookup_empty in H1.
Defined.

(** C8: whatever invocations of the lifecycle run, with whatever
    failures, every order is still stored afterwards with its action,
    instrument, entry price, stop-loss and take-profit (and identifier,
    user and signal) unchanged. *)
Theorem lifecycle_changes_status_only (runs : list Advance) (w : World)
    (k : Z) (o : Order.t) :
  orders (db w) !! k = Some o ->
  exists o', orders (db (advance_all runs w)) !! k = Some o' /\ same_terms o o'.
Proof.
  revert w o. induction runs as [| a runs IH]; intros w o Hk.
  - exists o. split; [exact Hk | apply same_terms_refl].
  - cbn [advance_all fold_left].
    destruct (advance_same_terms a w k o Hk) as (o1 & H1 & S1).
    destruct (IH (advance a w) o1 H1) as (o2 & H2 & S2).
    exists o2. split; [exact H2 | now apply (same_terms_trans o o1 o2)].
Qed.

(** C8 on the sample data: order 1 after two runs of its lifecycle, the
    first stopped by a failure. *)
Lemma lifecycle_changes_status_only_witness :
  exists o',
    orders (db (advance_all
                  [ {| adv_generate := custom_id;
                       adv_fails := Lifecycle.closing_fails; adv_order := 1 |};
                    {| adv_generate := custom_id;
                       adv_fails := Lifecycle.no_fault; adv_order := 1 |} ]
                  world1)) !! 1 = Some o'
    /\ same_terms
         {| Order.order_id := Some "INV0311260001"; Order.user := 7;
            Order.signal := Some 1; Order.action := Some Action.BUY;
            Order.instrument := "EURUSD"; Order.entry_price := Some 10860;
            Order.stop_loss := Some 10850; Order.take_profit := Some 10890;
            Order.status := OrderStatus.PENDING |} o'.
Proof.
  apply lifecycle_changes_status_only. vm_compute. reflexivity.
Defined.

(** The invariant behind C10: every order has a status of the pipeline. *)
Lemma reachable_statuses rhu w :
  reachable rhu w ->
  forall k o, orders (db w) !! k = Some o -> pipeline_status (Order.status o).
Proof.
  induction 1 as [w Hempty | w w' Hreach IH Hstep]; intros k o Hk.
  - rewrite Hempty in Hk. now rewrite lookup_empty in Hk.
  - destruct Hstep as [w f1 f2 user account message | w gen fails sid | w a].
    + destruct (Worker.receive_signal f1 f2 user account message w)
        as [r w1] eqn:H.
      cbn [snd] in Hk. rewrite (receive_outcome _ _ _ _ _ _ _ _ H) in Hk.
      now apply (IH k).
    + destruct (worker_statuses _ _ _ _ _ _ _ Hk) as [Hold | Hp].
      * now apply (IH k).
      * left. exact Hp.
    + destruct (advance_statuses a w k o Hk) as (o0 & H0 & [E | [E | E]]).
      * rewrite E. now apply (IH k).
      * right. now left.
      * right. now right.
Qed.

(** C10: an order the worker adds is pending; the lifecycle adds no order
    and leaves each order with its status, executed or closed; so from a
    database without orders, whatever signals are received and whatever
    runs of the worker and of the lifecycle follow, with whatever
    failures, no order is rejected or cancelled. *)
Theorem rejected_cancelled_unreachable rhu :
  (forall gen fails sid w k o,
      orders (db w) !! k = None ->
      orders (db (Worker.process_signal_task gen rhu fails sid w).2) !! k = Some o ->
      Order.status o = OrderStatus.PENDING)
  /\ (forall a w k o',
         orders (db (advance a w)) !! k = Some o' ->
         exists o, orders (db w) !! k = Some o
                   /\ (Order.status o' = Order.status o
                       \/ Order.status o' = OrderStatus.EXECUTED
                       \/ Order.status o' = OrderStatus.CLOSED))
  /\ (forall w, reachable rhu w ->
                forall k o, orders (db w) !! k = Some o ->
                            Order.status o <> OrderStatus.REJECTED
                            /\ Order.status o <> OrderStatus.CANCELLED).
Proof.
  split; [| split].
  - intros gen fails sid w k o. apply worker_creates_pending.
  - intros a w k o'. apply advance_statuses.
  - intros w Hreach k o Hk.
    destruct (reachable_statuses rhu w Hreach k o Hk) as [E | [E | E]];
      rewrite E; split; discriminate.
Qed.

(** C10 on the sample data: signal 1 processed and the lifecycle of its
    order run to the end. *)
Lemma rejected_cancelled_unreachable_witness :
  let o := {| Order.order_id := Some "INV0311260001"; Order.user := 7;
              Order.signal := Some 1; Order.action := Some Action.BUY;
              Order.instrument := "EURUSD"; Order.entry_price := Some 10860;
              Order.stop_loss := Some 10850; Order.take_profit := Some 10890;
              Order.status := OrderStatus.CLOSED |} in
  orders (db world3) !! 1 = Some o
  /\ Order.status o <> OrderStatus.REJECTED
  /\ Order.status o <> OrderStatus.CANCELLED.
Proof.
  intros o.
  assert (Hk : orders (db world3) !! 1 = Some o) by (vm_compute; reflexivity).
  split; [exact Hk |].
  refine (proj2 (proj2 (rejected_cancelled_unreachable round_half_up))
            world3 _ 1 o Hk).
  apply (reachable_step round_half_up world1 world3).
  - apply (reachable_step round_half_up world0 world1).
    + apply reachable_init. reflexivity.
    + exact (step_process round_half_up world0 custom_id Worker.no_fault 1).
  - exact (step_advance round_half_up world1
             {| adv_generate := custom_id; adv_fails := Lifecycle.no_fault;
                adv_order := 1 |}).
Defined.

End Pipeline.
(* ===================================================================== *)
(** * More about the parser: what it captures and why it refuses *)
(* ===================================================================== *)

Module ParserCaptures.
Import PyStr PyFloat Regex SignalParser.
Local Open Scope string_scope.
Local Open Scope list_scope.

Section KeepsAll.
Variable whole : text.

Lemma star_keeps_all (B : nat -> bool)
    (step : text -> captures -> cont -> option captures) :
  (forall s c k m, step s c k = Some m ->
     exists s' c', k s' c' = Some m
                   /\ forall n, B n = false -> group n c' = group n c) ->
  forall fuel s c k m, star step fuel s c k = Some m ->
    exists s' c', k s' c' = Some m
                  /\ forall n, B n = false -> group n c' = group n c.
Proof.
  intros Hstep fuel. induction fuel as [| f IH]; intros s c k m H.
  - cbn in H. now exists s, c.
  - cbn [star] in H.
    destruct (step s c _) as [x |] eqn:E.
    + injection H as ->.
      destruct (Hstep _ _ _ _ E) as (s1 & c1 & H1 & G1).
      destruct (length s1 <? length s)%nat; [| discriminate].
      destruct (IH _ _ _ _ H1) as (s2 & c2 & H2 & G2).
      exists s2, c2. split; [exact H2 |].
      intros n Hn. rewrite (G2 n Hn). now apply G1.
    + now exists s, c.
Qed.

(** A match goes on with the groups that the expression does not bind as
    they were. *)
Lemma run_keeps_all r s c k m :
  run whole r s c k = Some m ->
  exists s' c', k s' c' = Some m
                /\ forall n, binds n r = false -> group n c' = group n c.
Proof.
  revert s c k m.
  induction r as [| p | r1 IH1 r2 IH2 | r1 IH1 r2 IH2 | r1 IH1 | g r1 IH1 | |];
    intros s c k m H; cbn [run] in H.
  - now exists s, c.
  - destruct s as [| a s']; [discriminate |].
    destruct (p a); [| discriminate]. now exists s', c.
  - destruct (IH1 _ _ _ _ H) as (s1 & c1 & H1 & G1).
    destruct (IH2 _ _ _ _ H1) as (s2 & c2 & H2 & G2).
    exists s2, c2. split; [exact H2 |].
    intros n Hn. cbn [binds] in Hn. apply orb_false_iff in Hn as [B1 B2].
    rewrite (G2 n B2). now apply G1.
  - destruct (run whole r1 s c k) as [x |] eqn:E.
    + injection H as ->. destruct (IH1 _ _ _ _ E) as (s1 & c1 & H1 & G1).
      exists s1, c1. split; [exact H1 |].
      intros n Hn. cbn [binds] in Hn. apply orb_false_iff in Hn as [B1 _].
      now apply G1.
    + destruct (IH2 _ _ _ _ H) as (s1 & c1 & H1 & G1).
      exists s1, c1. split; [exact H1 |].
      intros n Hn. cbn [binds] in Hn. apply orb_false_iff in Hn as [_ B2].
      now apply G1.
  - apply (star_keeps_all (fun n => binds n r1) (run whole r1)) in H;
      [exact H |].
    intros s0 c0 k0 m0 H0. exact (IH1 _ _ _ _ H0).
  - destruct (IH1 _ _ _ _ H) as (s1 & c1 & H1 & G1).
    eexists s1, _. split; [exact H1 |].
    intros n Hn. cbn [binds] in Hn. apply orb_false_iff in Hn as [Bg B1].
    cbn [group]. rewrite Bg. now apply G1.
  - destruct (length s =? length whole)%nat; [| discriminate]. now exists s, c.
  - destruct (at_end s); [| discriminate]. now exists s, c.
Qed.

(** Greedy repetition of a character class consumes characters of the
    class only. *)
Lemma star_class p fuel s c k m :
  star (run whole (Class p)) fuel s c k = Some m ->
  exists t s', s = t ++ s' /\ forallb p t = true /\ k s' c = Some m.
Proof.
  revert s. induction fuel as [| f IH]; intros s H.
  - cbn in H. now exists [], s.
  - cbn [star] in H. destruct s as [| a s1].
    + cbn [run] in H. now exists [], [].
    + assert (R : forall K, run whole (Class p) (a :: s1) c K
                            = if p a then K s1 c else None) by reflexivity.
      rewrite R in H. destruct (p a) eqn:Pa.
      * cbn [length] in H.
        replace (length s1 <? S (length s1))%nat with true in H
          by (symmetry; apply Nat.ltb_lt; lia).
        destruct (star (run whole (Class p)) f s1 c k) as [x |] eqn:E.
        -- injection H as ->.
           destruct (IH _ E) as (t & s' & -> & Ht & Hk).
           exists (a :: t), s'. cbn [forallb app]. rewrite Pa. now repeat split.
        -- now exists [], (a :: s1).
      * now exists [], (a :: s1).
Qed.

(** A group of one or more characters of a class captures a non-empty
    text of the class. *)
Lemma run_group_plus_class n p s c k m :
  run whole (Group n (Plus (Class p))) s c k = Some m ->
  exists t s', s = t ++ s' /\ t <> [] /\ forallb p t = true
               /\ k s' ((n, t) :: c) = Some m.
Proof.
  cbn [run Plus]. destruct s as [| a s1]; [discriminate |].
  destruct (p a) eqn:Pa; [| discriminate].
  intros H. apply star_class in H as (t & s' & -> & Ht & Hk).
  exists (a :: t), s'. cbn [forallb app]. rewrite Pa.
  split; [reflexivity |]. split; [discriminate |]. split; [exact Ht |].
  rewrite <- Hk. do 2 f_equal. f_equal.
  change (a :: t ++ s') with ((a :: t) ++ s').
  rewrite length_app.
  replace (length (a :: t) + length s' - length s')%nat with (length (a :: t)) by lia.
  now rewrite firstn_app, Nat.sub_diag, firstn_all, app_nil_r.
Qed.

Lemma run_Seq r1 r2 s c k :
  run whole (Seq r1 r2) s c k
  = run whole r1 s c (fun s' c' => run whole r2 s' c' k).
Proof. reflexivity. Qed.

Lemma run_Alt r1 r2 s c k m :
  run whole (Alt r1 r2) s c k = Some m ->
  run whole r1 s c k = Some m \/ run whole r2 s c k = Some m.
Proof.
  cbn [run]. destruct (run whole r1 s c k) as [x |]; [left | right]; assumption.
Qed.

Lemma run_Chr a s c k m :
  run whole (Chr a) s c k = Some m -> exists s', s = a :: s' /\ k s' c = Some m.
Proof.
  cbn [run Chr]. destruct s as [| b s']; [discriminate |].
  destruct (Ascii.eqb a b) eqn:E; [| discriminate].
  apply Ascii.eqb_eq in E as <-. intros H. now exists s'.
Qed.

Lemma run_Eol s c m :
  run whole Eol s c (fun _ c' => Some c') = Some m -> m = c.
Proof. cbn [run]. destruct (at_end s); congruence. Qed.

End KeepsAll.

(** The groups of a match of the pattern: the instrument is a non-empty
    text of the letters A to Z, and the price, when there is one, a
    non-empty text of digits and dots. *)
Lemma pattern_groups (s : text) (m : captures) :
  re_match pattern s = Some m ->
  (exists t, group 2 m = Some t /\ t <> [] /\ forallb is_AZ t = true)
  /\ (forall p, text_or (group 3 m) (group 4 m) = Some p ->
                p <> [] /\ forallb (fun c => isdecimal c || is_char 46 c) p = true).
Proof.
  unfold re_match, pattern. rewrite run_Seq. cbn [run]. rewrite Nat.eqb_refl.
  intros H.
  apply (run_keeps_all s (Alt _ _)) in H as (s1 & c1 & H & G1).
  unfold after_action in H. rewrite run_Seq in H.
  apply (run_keeps_all s (Plus ws)) in H as (s2 & c2 & H & G2).
  rewrite run_Seq in H. unfold upper_AZ in H.
  apply (run_group_plus_class s 2) in H as (t & s3 & -> & Ht & Haz & H).
  assert (N3 : group 3 c2 = None).
  { rewrite (G2 3%nat eq_refl). cbn [group Nat.eqb]. now rewrite (G1 3%nat eq_refl). }
  assert (N4 : group 4 c2 = None).
  { rewrite (G2 4%nat eq_refl). cbn [group Nat.eqb]. now rewrite (G1 4%nat eq_refl). }
  rewrite run_Seq in H.
  split.
  - apply (run_keeps_all s price_part) in H as (s4 & c4 & H & G4).
    apply run_Eol in H as ->.
    exists t. rewrite (G4 2%nat eq_refl). cbn [group Nat.eqb]. now repeat split.
  - unfold price_part, Opt in H. apply run_Alt in H as [H | H].
    + rewrite run_Seq in H.
      apply (run_keeps_all s (Star ws)) in H as (s4 & c4 & H & G4).
      assert (M3 : group 3 c4 = None).
      { rewrite (G4 3%nat eq_refl). cbn [group Nat.eqb]. exact N3. }
      apply run_Alt in H as [H | H].
      * rewrite run_Seq in H. apply run_Chr in H as (s5 & -> & H).
        rewrite run_Seq in H.
        apply (run_keeps_all s (Opt (Chr "@"))) in H as (s6 & c6 & H & G6).
        rewrite run_Seq in H. unfold digit_or_dot in H.
        apply (run_group_plus_class s 3) in H as (p3 & s7 & -> & Hp & Hd & H).
        apply (run_keeps_all s (Seq (Star not_rbracket) (Chr "]"))) in H
          as (s8 & c8 & H & G8).
        apply run_Eol in H as ->.
        intros p. rewrite (G8 3%nat eq_refl). cbn [group Nat.eqb].
        destruct p3 as [| x p3]; [congruence |]. cbn [text_or].
        intros [= <-]. split; [discriminate | exact Hd].
      * rewrite run_Seq in H. apply run_Chr in H as (s5 & -> & H).
        unfold digit_or_dot in H.
        apply (run_group_plus_class s 4) in H as (p4 & s6 & -> & Hp & Hd & H).
        apply run_Eol in H as ->.
        intros p. cbn [group Nat.eqb]. rewrite M3.
        cbn [text_or]. intros [= <-]. split; assumption.
    + cbn [run] in H. destruct (at_end s3); [| discriminate]. injection H as <-.
      intros p. cbn [group Nat.eqb]. rewrite N3, N4. discriminate.
Qed.

Lemma scan_lines_reason ls sl tp err :
  scan_lines ls sl tp = inl err ->
  err = "Invalid SL format" \/ err = "Invalid TP format".
Proof.
  revert sl tp. induction ls as [| line rest IH]; intros sl tp; [discriminate |].
  cbn [scan_lines].
  destruct (startswith (of_string "SL") (upper line)).
  - destruct (second_token_float line); [apply IH |]. intros [= <-]. now left.
  - destruct (startswith (of_string "TP") (upper line)); [| apply IH].
    destruct (second_token_float line); [apply IH |]. intros [= <-]. now right.
Qed.

(** X3: every reason of an invalid result is one of the nine named
    reasons, none of which starts with "Unexpected error: ", or it is
    "Unexpected error: could not convert string to float: " followed by
    the price in quotes, where the price is a non-empty text of digits and
    dots that [float] refuses. *)
Theorem parse_invalid_reasons (message : PyObj) (error : string) :
  parse_signal message = Invalid error ->
  (In error named_reasons
   /\ forall rest, error <> ("Unexpected error: " ++ rest)%string)
  \/ (exists p : text,
         p <> [] /\ forallb (fun c => isdecimal c || is_char 46 c) p = true
         /\ py_float p = None
         /\ error = ("Unexpected error: could not convert string to float: "
                     ++ repr_plain p)%string).
Proof.
  assert (Named : forall e, In e named_reasons ->
            In e named_reasons /\ forall rest, e <> ("Unexpected error: " ++ rest)%string).
  { intros e He. split; [exact He |]. intros rest ->.
    revert He. unfold named_reasons. cbn [In String.append].
    intros H. repeat (destruct H as [H | H]; [discriminate H |]). exact H. }
  unfold parse_signal, parse_signal_try.
  destruct (as_message message) as [t |];
    [| intros [= <-]; left; apply Named; unfold named_reasons; cbn; tauto].
  destruct (length (get_lines (unquote t)) <? 2)%nat;
    [intros [= <-]; left; apply Named; unfold named_reasons; cbn; tauto |].
  destruct (re_match pattern (hd [] (get_lines (unquote t)))) as [m |] eqn:M;
    [| intros [= <-]; left; apply Named; unfold named_reasons; cbn; tauto].
  apply pattern_groups in M as [_ P].
  assert (Rest : forall pr,
    match
      match scan_lines (tl (get_lines (unquote t))) None None with
      | inl err => inr (Invalid err)
      | inr (None, _) => inr (Invalid "SL missing")
      | inr (Some _, None) => inr (Invalid "TP missing")
      | inr (Some sl, Some tp) =>
          if String.eqb (to_string (default [] (group 1 m))) "BUY" && ge sl tp
          then inr (Invalid "For BUY, SL must be lower than TP")
          else if String.eqb (to_string (default [] (group 1 m))) "SELL" && le sl tp
          then inr (Invalid "For SELL, SL must be higher than TP")
          else inr (Valid {| action := to_string (default [] (group 1 m));
                             instrument := to_string (default [] (group 2 m));
                             price := pr; stop_loss := sl; take_profit := tp |})
      end
    with
    | inl e => Invalid ("Unexpected error: " ++ exn_str e)%string
    | inr r => r
    end = Invalid error -> In error named_reasons).
  { intros pr.
    destruct (scan_lines _ None None) as [err | [[sl |] [tp |]]] eqn:S.
    - apply scan_lines_reason in S. intros [= <-].
      unfold named_reasons. cbn [In]. destruct S as [-> | ->]; tauto.
    - repeat (match goal with |- context [if ?b then _ else _] => destruct b end);
        try discriminate; intros [= <-]; unfold named_reasons; cbn [In]; tauto.
    - intros [= <-]; unfold named_reasons; cbn [In]; tauto.
    - intros [= <-]; unfold named_reasons; cbn [In]; tauto.
    - intros [= <-]; unfold named_reasons; cbn [In]; tauto. }
  destruct (text_or (group 3 m) (group 4 m)) as [[| c p] |] eqn:T.
  - intros H. left. apply Named. now apply (Rest None).
  - destruct (P _ eq_refl) as [Pn Pd].
    destruct (py_float (c :: p)) as [f |] eqn:F.
    + intros H. left. apply Named. now apply (Rest (Some f)).
    + intros [= <-]. right. exists (c :: p). now repeat split.
  - intros H. left. apply Named. now apply (Rest None).
Qed.

(** X3 at the price 1.0.8. *)
Lemma parse_invalid_reasons_witness :
  exists p : text,
    p <> [] /\ forallb (fun c => isdecimal c || is_char 46 c) p = true
    /\ py_float p = None
    /\ "Unexpected error: could not convert string to float: '1.0.8'"
       = ("Unexpected error: could not convert string to float: "
          ++ repr_plain p)%string.
Proof.
  destruct (parse_invalid_reasons
    (PStr (nl_join ["BUY EURUSD @1.0.8"; "SL 1.0850"; "TP 1.0890"]))
    "Unexpected error: could not convert string to float: '1.0.8'")
    as [[_ N] | H].
  - vm_compute. reflexivity.
  - exfalso. now apply (N "could not convert string to float: '1.0.8'").
  - exact H.
Defined.

(** X4: in every valid result the instrument is a non-empty text of the
    letters A to Z, and the price, when there is one, is the [float] of a
    non-empty text of digits and dots: it has no sign and no exponent, and
    is no NaN written out. *)
Theorem parse_valid_fields (message : PyObj) (d : SignalData) :
  parse_signal message = Valid d ->
  (exists t : text, instrument d = to_string t /\ t <> []
                    /\ forallb is_AZ t = true)
  /\ instrument d <> ""
  /\ (forall f, price d = Some f ->
        exists p : text,
          p <> [] /\ forallb (fun c => isdecimal c || is_char 46 c) p = true
          /\ py_float p = Some f).
Proof.
  unfold parse_signal. intros H.
  destruct (parse_signal_try message) as [e | r] eqn:E; [discriminate |].
  subst r. unfold parse_signal_try in E.
  destruct (as_message message) as [t |]; [| discriminate].
  destruct (length (get_lines (unquote t)) <? 2)%nat; [discriminate |].
  destruct (re_match pattern (hd [] (get_lines (unquote t)))) as [m |] eqn:M;
    [| discriminate].
  apply pattern_groups in M as [(i & Gi & Ni & Ai) P].
  assert (Fin : forall pr r,
    match scan_lines (tl (get_lines (unquote t))) None None with
    | inl err => inr (Invalid err)
    | inr (None, _) => inr (Invalid "SL missing")
    | inr (Some _, None) => inr (Invalid "TP missing")
    | inr (Some sl, Some tp) =>
        if String.eqb (to_string (default [] (group 1 m))) "BUY" && ge sl tp
        then inr (Invalid "For BUY, SL must be lower than TP")
        else if String.eqb (to_string (default [] (group 1 m))) "SELL" && le sl tp
        then inr (Invalid "For SELL, SL must be higher than TP")
        else inr (Valid {| action := to_string (default [] (group 1 m));
                           instrument := to_string (default [] (group 2 m));
                           price := pr; stop_loss := sl; take_profit := tp |})
    end = @inr PyExn ParseResult (Valid r) ->
    instrument r = to_string i /\ price r = pr).
  { intros pr r.
    destruct (scan_lines _ None None) as [err | [[sl |] [tp |]]];
      try discriminate.
    repeat (match goal with |- context [if ?b then _ else _] => destruct b end);
      try discriminate.
    intros [= <-]. cbn [instrument price]. rewrite Gi. now split. }
  assert (Pr : price d = None
               \/ exists p f, text_or (group 3 m) (group 4 m) = Some p
                               /\ py_float p = Some f /\ price d = Some f).
  { destruct (text_or (group 3 m) (group 4 m)) as [[| c p] |] eqn:T.
    - left. now apply (Fin None d).
    - destruct (py_float (c :: p)) as [f |] eqn:F; [| discriminate].
      right. exists (c :: p), f. repeat split; try assumption.
      now apply (Fin (Some f) d).
    - left. now apply (Fin None d). }
  assert (In_ : instrument d = to_string i).
  { destruct (text_or (group 3 m) (group 4 m)) as [[| c p] |].
    - now apply (Fin None d).
    - destruct (py_float (c :: p)) as [f |]; [| discriminate].
      now apply (Fin (Some f) d).
    - now apply (Fin None d). }
  split; [exists i; now repeat split |]. split.
  - rewrite In_. destruct i as [| a i]; [congruence | discriminate].
  - intros f Hf. destruct Pr as [Pr | (p & f' & T & F & Pr)]; [congruence |].
    exists p. destruct (P p T) as [Pn Pd]. repeat split; try assumption.
    congruence.
Qed.

(** X4 at the valid BUY example. *)
Lemma parse_valid_fields_witness :
  exists t : text, "EURUSD" = to_string t /\ t <> [] /\ forallb is_AZ t = true.
Proof.
  refine (proj1 (parse_valid_fields
    (PStr (nl_join ["BUY EURUSD [@1.0860]"; "SL 1.0850"; "TP 1.0890"]))
    {| action := "BUY"; instrument := "EURUSD";
       price := Some (S754_finite false 4890909195324359 (-52));
       stop_loss := S754_finite false 4886405595696988 (-52);
       take_profit := S754_finite false 4904419994206470 (-52) |} _)).
  vm_compute. reflexivity.
Defined.

(** The reason "Empty message" is given to nothing but an argument that
    is not a non-empty text. *)
Lemma parse_empty_message (message : PyObj) :
  parse_signal message = Invalid "Empty message" -> as_message message = None.
Proof.
  unfold parse_signal, parse_signal_try.
  destruct (as_message message) as [t |]; [| reflexivity].
  destruct (length (get_lines (unquote t)) <? 2)%nat; [discriminate |].
  destruct (re_match pattern (hd [] (get_lines (unquote t)))) as [m |];
    [| discriminate].
  assert (Rest : forall pr,
    match
      match scan_lines (tl (get_lines (unquote t))) None None with
      | inl err => inr (Invalid err)
      | inr (None, _) => inr (Invalid "SL missing")
      | inr (Some _, None) => inr (Invalid "TP missing")
      | inr (Some sl, Some tp) =>
          if String.eqb (to_string (default [] (group 1 m))) "BUY" && ge sl tp
          then inr (Invalid "For BUY, SL must be lower than TP")
          else if String.eqb (to_string (default [] (group 1 m))) "SELL" && le sl tp
          then inr (Invalid "For SELL, SL must be higher than TP")
          else inr (Valid {| action := to_string (default [] (group 1 m));
                             instrument := to_string (default [] (group 2 m));
                             price := pr; stop_loss := sl; take_profit := tp |})
      end
    with
    | inl e => Invalid ("Unexpected error: " ++ exn_str e)%string
    | inr r => r
    end = Invalid "Empty message" -> Some t = None).
  { intros pr.
    destruct (scan_lines _ None None) as [err | [[sl |] [tp |]]] eqn:S.
    - apply scan_lines_reason in S. destruct S as [-> | ->]; discriminate.
    - repeat (match goal with |- context [if ?b then _ else _] => destruct b end);
        discriminate.
    - discriminate.
    - discriminate.
    - discriminate. }
  destruct (text_or (group 3 m) (group 4 m)) as [[| c p] |].
  - apply Rest.
  - destruct (py_float (c :: p)) as [f |]; [apply Rest | discriminate].
  - apply Rest.
Qed.

Lemma scan_lines_app (l1 l2 : list text) sl tp :
  scan_lines (l1 ++ l2) sl tp
  = match scan_lines l1 sl tp with
    | inl err => inl err
    | inr (sl', tp') => scan_lines l2 sl' tp'
    end.
Proof.
  revert sl tp. induction l1 as [| line l1 IH]; intros sl tp; [reflexivity |].
  cbn [app scan_lines].
  destruct (startswith (of_string "SL") (upper line)).
  - destruct (second_token_float line); [apply IH | reflexivity].
  - destruct (startswith (of_string "TP") (upper line)); [| apply IH].
    destruct (second_token_float line); [apply IH | reflexivity].
Qed.

(** Lines that do not start with SL leave the stop-loss as it is. *)
Lemma scan_lines_keeps_sl (ls : list text) sl tp r :
  Forall (fun l => startswith (of_string "SL") (upper l) = false) ls ->
  scan_lines ls sl tp = inr r -> r.1 = sl.
Proof.
  intros Hall. revert sl tp. induction Hall as [| line ls Hl Hall IH];
    intros sl tp; cbn [scan_lines].
  - now intros [= <-].
  - rewrite Hl. destruct (startswith (of_string "TP") (upper line)); [| apply IH].
    destruct (second_token_float line); [apply IH | discriminate].
Qed.

Lemma scan_lines_keeps_tp (ls : list text) sl tp r :
  Forall (fun l => startswith (of_string "TP") (upper l) = false) ls ->
  scan_lines ls sl tp = inr r -> r.2 = tp.
Proof.
  intros Hall. revert sl tp. induction Hall as [| line ls Hl Hall IH];
    intros sl tp; cbn [scan_lines].
  - now intros [= <-].
  - rewrite Hl. destruct (startswith (of_string "SL") (upper line)); [| apply IH].
    destruct (second_token_float line); [apply IH | discriminate].
Qed.

(** X5: of several lines that start with SL (in any case, and whatever
    follows the two letters) the last one gives the stop-loss, and of
    several lines that start with TP the last one gives the take-profit:
    when the scan succeeds, the value of a line after which no line of its
    kind follows is the result. *)
Theorem scan_lines_last_wins (before after : list text) (line : text)
    (sl tp : option float) (f : float) (r : option float * option float) :
  second_token_float line = Some f ->
  scan_lines (before ++ line :: after) sl tp = inr r ->
  (startswith (of_string "SL") (upper line) = true ->
   Forall (fun l => startswith (of_string "SL") (upper l) = false) after ->
   r.1 = Some f)
  /\ (startswith (of_string "SL") (upper line) = false ->
      startswith (of_string "TP") (upper line) = true ->
      Forall (fun l => startswith (of_string "TP") (upper l) = false) after ->
      r.2 = Some f).
Proof.
  intros Hf H. rewrite scan_lines_app in H.
  destruct (scan_lines before sl tp) as [err | [sl1 tp1]]; [discriminate |].
  cbn [scan_lines] in H. split.
  - intros Hs Hall. rewrite Hs, Hf in H.
    now apply (scan_lines_keeps_sl after (Some f) tp1).
  - intros Hs Ht Hall. rewrite Hs, Ht, Hf in H.
    now apply (scan_lines_keeps_tp after sl1 (Some f)).
Qed.

(** X5 on three lines: the second one starts with SL and is the last of
    its kind. *)
Lemma scan_lines_last_wins_witness :
  scan_lines [of_string "sl 1.0"; of_string "SLIPPAGE 2.5"; of_string "tp 3"]
    None None
  = inr (Some (S754_finite false 5629499534213120 (-51)),
         Some (S754_finite false 6755399441055744 (-51)))
  /\ (Some (S754_finite false 5629499534213120 (-51)),
      Some (S754_finite false 6755399441055744 (-51))).1
     = Some (S754_finite false 5629499534213120 (-51)).
Proof.
  assert (E : scan_lines
                [of_string "sl 1.0"; of_string "SLIPPAGE 2.5"; of_string "tp 3"]
                None None
              = inr (Some (S754_finite false 5629499534213120 (-51)),
                     Some (S754_finite false 6755399441055744 (-51))))
    by (vm_compute; reflexivity).
  split; [exact E |].
  refine (proj1 (scan_lines_last_wins [of_string "sl 1.0"] [of_string "tp 3"]
    (of_string "SLIPPAGE 2.5") None None
    (S754_finite false 5629499534213120 (-51)) _ _ E) _ _).
  - vm_compute. reflexivity.
  - vm_compute. reflexivity.
  - repeat constructor.
Defined.

End ParserCaptures.

(* ===================================================================== *)
(** * The identifiers of orders *)
(* ===================================================================== *)

Module UniqueIdFacts.
Import PyStr PyFloat UniqueId.

Lemma to_string_app (a b : text) :
  to_string (a ++ b) = (to_string a ++ to_string b)%string.
Proof.
  unfold to_string. induction a as [| c a IH]; [reflexivity |].
  simpl. now rewrite IH.
Qed.

Lemma of_string_app (a b : string) :
  of_string (a ++ b)%string = of_string a ++ of_string b.
Proof.
  unfold of_string. induction a as [| c a IH]; [reflexivity |].
  simpl. now rewrite IH.
Qed.

Lemma length_to_string (t : text) : String.length (to_string t) = length t.
Proof.
  unfold to_string. induction t as [| c t IH]; [reflexivity |].
  simpl. now rewrite IH.
Qed.

Lemma of_to_string (t : text) : of_string (to_string t) = t.
Proof. apply list_ascii_of_string_of_list_ascii. Qed.

Lemma to_of_string (s : string) : to_string (of_string s) = s.
Proof. apply string_of_list_ascii_of_string. Qed.

Lemma digit_in (a : Z) :
  0 <= a < 10 -> In a [0; 1; 2; 3; 4; 5; 6; 7; 8; 9].
Proof.
  intros H.
  assert (E : a = 0 \/ a = 1 \/ a = 2 \/ a = 3 \/ a = 4 \/ a = 5 \/ a = 6
              \/ a = 7 \/ a = 8 \/ a = 9) by lia.
  cbn [In]. intuition (subst; auto).
Qed.

(** A property that holds of the numbers 0 to 9999, checked digit by
    digit. *)
Lemma below_10000 (P : Z -> bool) :
  (let ds := [0; 1; 2; 3; 4; 5; 6; 7; 8; 9] in
   forallb (fun a => forallb (fun b => forallb (fun c => forallb (fun d =>
     P (1000 * a + 100 * b + 10 * c + d)) ds) ds) ds) ds) = true ->
  forall n, 0 <= n < 10000 -> P n = true.
Proof.
  cbv zeta. intros H n Hn.
  rewrite forallb_forall in H.
  specialize (H (n / 1000) ltac:(apply digit_in; split;
    [apply Z.div_pos | apply Z.div_lt_upper_bound]; lia)).
  rewrite forallb_forall in H.
  specialize (H (n / 100 mod 10) ltac:(apply digit_in; apply Z.mod_pos_bound; lia)).
  rewrite forallb_forall in H.
  specialize (H (n / 10 mod 10) ltac:(apply digit_in; apply Z.mod_pos_bound; lia)).
  rewrite forallb_forall in H.
  specialize (H (n mod 10) ltac:(apply digit_in; apply Z.mod_pos_bound; lia)).
  replace (1000 * (n / 1000) + 100 * (n / 100 mod 10) + 10 * (n / 10 mod 10)
           + n mod 10) with n in H; [exact H |].
  pose proof (Z.div_mod n 10 ltac:(lia)) as E1.
  pose proof (Z.div_mod (n / 10) 10 ltac:(lia)) as E2.
  pose proof (Z.div_mod (n / 100) 10 ltac:(lia)) as E3.
  replace (n / 10 / 10) with (n / 100) in E2
    by (rewrite Z.div_div by lia; reflexivity).
  replace (n / 100 / 10) with (n / 1000) in E3
    by (rewrite Z.div_div by lia; reflexivity).
  lia.
Qed.

Lemma text_eqb_eq (a b : text) : text_eqb a b = true -> a = b.
Proof.
  revert b. induction a as [| x a IH]; intros [| y b] H; try discriminate;
    [reflexivity |].
  cbn in H. apply andb_prop in H as [E H]. apply Ascii.eqb_eq in E as ->.
  f_equal. now apply IH.
Qed.

(** The counter is printed in four digits. *)
Lemma zfill_counter (n : Z) :
  0 <= n < 10000 -> zfill 4 (py_str n) = counter4 n.
Proof.
  intros Hn. apply text_eqb_eq.
  apply (below_10000 (fun n => text_eqb (zfill 4 (py_str n)) (counter4 n)));
    [| exact Hn].
  vm_compute. reflexivity.
Qed.

(** Reading the four digits gives the counter back. *)
Lemma py_int_counter (n : Z) :
  0 <= n < 10000 -> py_int (counter4 n) = Some n.
Proof.
  intros Hn.
  assert (H : (match py_int (counter4 n) with
               | Some m => m =? n | None => false end) = true).
  { apply (below_10000 (fun n => match py_int (counter4 n) with
                                 | Some m => m =? n | None => false end));
      [| exact Hn].
    vm_compute. reflexivity. }
  destruct (py_int (counter4 n)) as [m |]; [| discriminate].
  apply Z.eqb_eq in H. now subst.
Qed.

Lemma counter4_lt (n : Z) :
  0 <= n < 9999 -> text_ltb (counter4 n) (counter4 (n + 1)) = true.
Proof.
  intros Hn.
  assert (H : (9999 <=? n) || text_ltb (counter4 n) (counter4 (n + 1)) = true).
  { apply (below_10000 (fun n => (9999 <=? n)
                                 || text_ltb (counter4 n) (counter4 (n + 1))));
      [vm_compute; reflexivity | lia]. }
  apply orb_true_iff in H as [H | H]; [| exact H].
  apply Z.leb_le in H. lia.
Qed.

(** No counter is above 9999. *)
Lemma counter4_le (n : Z) :
  0 <= n < 10000 -> text_ltb (counter4 9999) (counter4 n) = false.
Proof.
  intros Hn. apply negb_true_iff.
  apply (below_10000 (fun n => negb (text_ltb (counter4 9999) (counter4 n))));
    [vm_compute; reflexivity | exact Hn].
Qed.

Lemma length_counter4 n : length (counter4 n) = 4%nat.
Proof. reflexivity. Qed.

Lemma text_ltb_irrefl (a : text) : text_ltb a a = false.
Proof.
  induction a as [| x a IH]; [reflexivity |]. cbn [text_ltb].
  rewrite N.ltb_irrefl, N.eqb_refl, IH. reflexivity.
Qed.

Lemma text_ltb_trans (a b c : text) :
  text_ltb a b = true -> text_ltb b c = true -> text_ltb a c = true.
Proof.
  revert b c. induction a as [| x a IH]; intros [| y b] [| z c];
    cbn [text_ltb]; try discriminate; try reflexivity.
  intros H1 H2.
  apply orb_true_iff in H1 as [H1 | H1]; apply orb_true_iff in H2 as [H2 | H2].
  - apply N.ltb_lt in H1, H2. apply orb_true_iff. left. apply N.ltb_lt. lia.
  - apply andb_prop in H2 as [E2 H2]. apply N.eqb_eq in E2. rewrite <- E2.
    now rewrite H1.
  - apply andb_prop in H1 as [E1 H1]. apply N.eqb_eq in E1. rewrite E1.
    now rewrite H2.
  - apply andb_prop in H1 as [E1 H1]. apply andb_prop in H2 as [E2 H2].
    apply N.eqb_eq in E1, E2. rewrite E1, E2, N.eqb_refl, (IH b c H1 H2).
    apply orb_true_r.
Qed.

Lemma text_ltb_app (b x y : text) :
  text_ltb (b ++ x) (b ++ y) = text_ltb x y.
Proof.
  induction b as [| c b IH]; [reflexivity |].
  cbn [app text_ltb]. now rewrite N.ltb_irrefl, N.eqb_refl, IH.
Qed.

Lemma startswith_app (b x : text) : startswith b (b ++ x) = true.
Proof.
  induction b as [| c b IH]; [reflexivity |].
  cbn [app startswith]. now rewrite Ascii.eqb_refl, IH.
Qed.

Lemma last4_app (b c : text) : length c = 4%nat -> last4 (b ++ c) = c.
Proof.
  intros H. unfold last4. rewrite length_app, H.
  replace (length b + 4 - 4)%nat with (length b) by lia.
  now rewrite skipn_app, skipn_all, Nat.sub_diag.
Qed.

(** The greatest stored value that starts with [base]. *)
Lemma latest_none base values :
  latest base values = None ->
  forall u, In u values -> startswith base u = false.
Proof.
  induction values as [| v values IH]; intros H u Hin; [contradiction |].
  cbn [latest foldr] in H. fold (latest base values) in H.
  destruct (startswith base v) eqn:S.
  - destruct (latest base values); discriminate.
  - destruct Hin as [<- | Hin]; [exact S | now apply IH].
Qed.

Lemma latest_some base values m :
  latest base values = Some m ->
  In m values /\ startswith base m = true
  /\ forall u, In u values -> startswith base u = true -> text_ltb m u = false.
Proof.
  revert m. induction values as [| v values IH]; intros m H; [discriminate |].
  cbn [latest foldr] in H. fold (latest base values) in H.
  destruct (startswith base v) eqn:S.
  - destruct (latest base values) as [m0 |] eqn:L.
    + destruct (IH m0 eq_refl) as (I0 & S0 & M0).
      destruct (text_ltb m0 v) eqn:C; injection H as <-.
      * split; [now left |]. split; [exact S |].
        intros u [<- | Hu] Su; [apply text_ltb_irrefl |].
        destruct (text_ltb v u) eqn:D; [| reflexivity].
        rewrite <- (M0 u Hu Su). symmetry. now apply (text_ltb_trans m0 v u).
      * split; [now right |]. split; [exact S0 |].
        intros u [<- | Hu] Su; [exact C | now apply M0].
    + injection H as <-. split; [now left |]. split; [exact S |].
      intros u [<- | Hu] Su; [apply text_ltb_irrefl |].
      rewrite (latest_none base values L u Hu) in Su. discriminate.
  - destruct (IH m H) as (I0 & S0 & M0).
    split; [now right |]. split; [exact S0 |].
    intros u [<- | Hu] Su; [congruence | now apply M0].
Qed.

Lemma new_counter_range l : 0 <= new_counter l < 10000.
Proof.
  unfold new_counter. destruct l as [v |]; [| lia].
  destruct (py_int (last4 v)); [| lia].
  apply Z.mod_pos_bound. lia.
Qed.

Lemma length_strftime today : length (strftime_dmy today) = 6%nat.
Proof. reflexivity. Qed.

(** The shape of the identifier: the prefix, the date and the counter. *)
Lemma generate_custom_id_eq id_prefix today values :
  generate_custom_id id_prefix today values
  = (id_prefix ++ to_string (strftime_dmy today)
     ++ to_string (counter4 (new_counter
          (latest (of_string id_prefix ++ strftime_dmy today)
                  (map of_string values)))))%string.
Proof.
  unfold generate_custom_id.
  rewrite zfill_counter by apply new_counter_range.
  now rewrite <- app_assoc, !to_string_app, to_of_string.
Qed.

Lemma latest_none_intro base values :
  (forall u, In u values -> startswith base u = false) ->
  latest base values = None.
Proof.
  induction values as [| v values IH]; intros H; [reflexivity |].
  cbn [latest foldr]. fold (latest base values).
  rewrite (H v (or_introl eq_refl)). apply IH. intros u Hu. apply H. now right.
Qed.

Lemma order_id_taken_iff (i : string) (m : gmap Z Order.t) :
  Orm.order_id_taken (Some i) m = true <-> In i (order_ids m).
Proof.
  unfold Orm.order_id_taken, order_ids. rewrite existsb_exists. split.
  - intros ([k o] & Hin & Hb). apply bool_decide_eq_true in Hb.
    apply list_elem_of_In. apply list_elem_of_omap. exists (k, o).
    split; [now apply list_elem_of_In | exact Hb].
  - intros Hin. apply list_elem_of_In, list_elem_of_omap in Hin
      as ([k o] & Hin & Hb).
    exists (k, o). split; [now apply list_elem_of_In |].
    now apply bool_decide_eq_true.
Qed.

Lemma generate_custom_id_length id_prefix today values :
  String.length (generate_custom_id id_prefix today values)
  = (String.length id_prefix + 10)%nat.
Proof.
  unfold generate_custom_id.
  rewrite zfill_counter by apply new_counter_range.
  rewrite length_to_string, !length_app, length_counter4, length_strftime.
  rewrite <- (length_to_string (of_string id_prefix)), to_of_string. lia.
Qed.

Lemma generate_custom_id_nonempty id_prefix today values :
  generate_custom_id id_prefix today values <> ""%string.
Proof.
  intros E. pose proof (generate_custom_id_length id_prefix today values) as H.
  rewrite E in H. cbn in H. lia.
Qed.

(** X16: the identifier is the prefix, the day as ddmmyy and a counter of
    four digits, whatever is stored; so it has ten characters more than
    the prefix and is never empty, and the identifier of an order is
    within the 50 characters of [order_id] and is not blank. *)
Theorem generated_format (id_prefix : string) (today : date)
    (values : list string) :
  let new_id := generate_custom_id id_prefix today values in
  (exists n : Z,
      0 <= n < 10000
      /\ new_id = (id_prefix ++ to_string (strftime_dmy today)
                   ++ to_string (counter4 n))%string)
  /\ String.length new_id = (String.length id_prefix + 10)%nat
  /\ new_id <> ""%string
  /\ (forall (day : date) (m : gmap Z Order.t),
        Orm.order_id_ok (Some (order_custom_id day m)) = true
        /\ Orm.is_blank (Some (order_custom_id day m)) = false).
Proof.
  cbv zeta. split; [| split; [apply generate_custom_id_length
                            | split; [apply generate_custom_id_nonempty |]]].
  - eexists. split; [apply new_counter_range | apply generate_custom_id_eq].
  - intros day m. unfold order_custom_id. split.
    + cbn [Orm.order_id_ok]. rewrite generate_custom_id_length. reflexivity.
    + cbn [Orm.is_blank]. apply String.eqb_neq. apply generate_custom_id_nonempty.
Qed.

(** X17: the counter starts again at 0001 when no stored value starts
    with the prefix and the day, and also when the last four characters
    of the greatest such value are not a number, whatever else is
    stored. *)
Theorem counter_restarts (id_prefix : string) (today : date)
    (values : list string) :
  (forall v, In v values ->
             startswith (base_prefix id_prefix today) (of_string v) = false)
  \/ (exists v, latest (base_prefix id_prefix today) (map of_string values)
                = Some v
                /\ py_int (last4 v) = None) ->
  generate_custom_id id_prefix today values
  = (id_prefix ++ to_string (strftime_dmy today) ++ "0001")%string.
Proof.
  intros H. rewrite generate_custom_id_eq. fold (base_prefix id_prefix today).
  destruct H as [H | (v & -> & Hv)].
  - rewrite latest_none_intro; [reflexivity |].
    intros u Hu. apply in_map_iff in Hu as (v & <- & Hv). now apply H.
  - cbn [new_counter]. now rewrite Hv.
Qed.

(** X17 where a value of the day ends in letters: the identifier given
    is one that is stored already. *)
Lemma counter_restarts_witness :
  generate_custom_id "INV" {| year := 2026; month := 11; day := 3 |}
    ["INV0211260007"; "INV0311260001"; "INV031126ABCD"]
  = "INV0311260001"%string.
Proof.
  apply (counter_restarts "INV" {| year := 2026; month := 11; day := 3 |}).
  right. exists (of_string "INV031126ABCD"). split; vm_compute; reflexivity.
Defined.

(** The successor of the greatest identifier of a well-formed day. *)
Lemma generated_successor id_prefix today values k :
  0 <= k < 10000 ->
  latest (base_prefix id_prefix today) (map of_string values)
  = Some (base_prefix id_prefix today ++ counter4 k) ->
  generate_custom_id id_prefix today values
  = to_string (base_prefix id_prefix today ++ counter4 ((k + 1) mod 10000)).
Proof.
  intros Hk L. unfold generate_custom_id. fold (base_prefix id_prefix today).
  rewrite L. cbv zeta. cbn [new_counter].
  rewrite last4_app by apply length_counter4.
  rewrite py_int_counter by exact Hk.
  rewrite zfill_counter by (apply Z.mod_pos_bound; lia). reflexivity.
Qed.

Lemma generated_not_stored id_prefix today values :
  day_ids (base_prefix id_prefix today) 9999 values ->
  ~ In (generate_custom_id id_prefix today values) values.
Proof.
  intros Hday Hin.
  set (base := base_prefix id_prefix today) in *.
  assert (Sg : startswith base (of_string (generate_custom_id id_prefix today values))
               = true).
  { unfold generate_custom_id. fold (base_prefix id_prefix today). fold base.
    cbv zeta. rewrite of_to_string. apply startswith_app. }
  destruct (latest base (map of_string values)) as [m |] eqn:L.
  - destruct (latest_some _ _ _ L) as (Im & Sm & Mx).
    apply in_map_iff in Im as (v & <- & Iv).
    destruct (Hday v Iv Sm) as (k & Hk & Ek).
    rewrite Ek in L, Mx.
    pose proof (generated_successor id_prefix today values k ltac:(lia) L) as G.
    fold base in G. rewrite Z.mod_small in G by lia.
    specialize (Mx (of_string (generate_custom_id id_prefix today values))
                   (in_map _ _ _ Hin) Sg).
    rewrite G, of_to_string, text_ltb_app, counter4_lt in Mx by lia.
    discriminate.
  - pose proof (latest_none _ _ L _ (in_map of_string _ _ Hin)) as F.
    congruence.
Qed.

(** X18: when every stored value of the day is the prefix and the day
    followed by four digits below 9999, the identifier given is not
    stored, and it is the successor of the greatest one. *)
Theorem generated_fresh (id_prefix : string) (today : date)
    (values : list string) :
  day_ids (base_prefix id_prefix today) 9999 values ->
  ~ In (generate_custom_id id_prefix today values) values
  /\ (forall k, 0 <= k < 9999 ->
        latest (base_prefix id_prefix today) (map of_string values)
        = Some (base_prefix id_prefix today ++ counter4 k) ->
        generate_custom_id id_prefix today values
        = to_string (base_prefix id_prefix today ++ counter4 (k + 1))).
Proof.
  intros Hday. split; [now apply generated_not_stored |].
  intros k Hk L.
  rewrite (generated_successor id_prefix today values k) by (lia || exact L).
  now rewrite Z.mod_small by lia.
Qed.

(** X18 on two identifiers of the day and one of the day before. *)
Lemma generated_fresh_witness :
  ~ In (generate_custom_id "INV" {| year := 2026; month := 11; day := 3 |}
          ["INV0211260007"; "INV0311260001"; "INV0311260002"])
       ["INV0211260007"; "INV0311260001"; "INV0311260002"].
Proof.
  apply (generated_fresh "INV" {| year := 2026; month := 11; day := 3 |}).
  intros v [<- | [<- | [<- | []]]] S.
  - vm_compute in S. discriminate S.
  - exists 1. split; [lia | vm_compute; reflexivity].
  - exists 2. split; [lia | vm_compute; reflexivity].
Defined.

(** The greatest identifier of a well-formed day that holds the counter
    9999 is that one, and the next identifier has the counter 0000. *)
Lemma generated_after_9999 id_prefix today values :
  day_ids (base_prefix id_prefix today) 10000 values ->
  In (id_prefix ++ to_string (strftime_dmy today) ++ "9999")%string values ->
  generate_custom_id id_prefix today values
  = (id_prefix ++ to_string (strftime_dmy today) ++ "0000")%string.
Proof.
  intros Hday H9.
  set (base := base_prefix id_prefix today) in *.
  assert (E9 : (id_prefix ++ to_string (strftime_dmy today) ++ "9999")%string
               = to_string (base ++ counter4 9999)).
  { unfold base, base_prefix. now rewrite <- app_assoc, !to_string_app, to_of_string. }
  assert (E0 : (id_prefix ++ to_string (strftime_dmy today) ++ "0000")%string
               = to_string (base ++ counter4 ((9999 + 1) mod 10000))).
  { unfold base, base_prefix. now rewrite <- app_assoc, !to_string_app, to_of_string. }
  assert (L : latest base (map of_string values) = Some (base ++ counter4 9999)).
  { destruct (latest base (map of_string values)) as [m |] eqn:L.
    - destruct (latest_some _ _ _ L) as (Im & Sm & Mx).
      apply in_map_iff in Im as (v & <- & Iv).
      destruct (Hday v Iv Sm) as (k & Hk & Ek).
      rewrite Ek in Mx |- *.
      specialize (Mx (base ++ counter4 9999)).
      rewrite text_ltb_app in Mx.
      assert (k = 9999 \/ k < 9999) as [-> | Hlt] by lia; [reflexivity |].
      exfalso.
      assert (C : text_ltb (counter4 k) (counter4 9999) = true).
      { clear - Hk Hlt.
        assert (H : (9999 <=? k) || text_ltb (counter4 k) (counter4 9999) = true).
        { apply (below_10000 (fun k => (9999 <=? k)
                   || text_ltb (counter4 k) (counter4 9999)));
            [vm_compute; reflexivity | lia]. }
        apply orb_true_iff in H as [H | H]; [apply Z.leb_le in H; lia | exact H]. }
      rewrite C in Mx. enough (true = false) by discriminate. apply Mx.
      + apply in_map_iff. eexists. split; [| exact H9].
        now rewrite E9, of_to_string.
      + apply startswith_app.
    - exfalso.
      pose proof (latest_none _ _ L _ (in_map of_string _ _ H9)) as F.
      rewrite E9, of_to_string, startswith_app in F. discriminate. }
  rewrite E0. apply generated_successor; [lia | exact L].
Qed.

(** X19: the counter wraps.  When the identifier with the counter 9999
    is stored among well-formed identifiers of the day, the identifier
    given has the counter 0000; it is given again whenever asked, so once
    0000 is stored the identifier given is one that is in use. *)
Theorem counter_wraps (id_prefix : string) (today : date)
    (values : list string) :
  day_ids (base_prefix id_prefix today) 10000 values ->
  In (id_prefix ++ to_string (strftime_dmy today) ++ "9999")%string values ->
  generate_custom_id id_prefix today values
  = (id_prefix ++ to_string (strftime_dmy today) ++ "0000")%string
  /\ (In (id_prefix ++ to_string (strftime_dmy today) ++ "0000")%string values ->
      In (generate_custom_id id_prefix today values) values).
Proof.
  intros Hday H9.
  pose proof (generated_after_9999 id_prefix today values Hday H9) as G.
  split; [exact G | now rewrite G].
Qed.

(** X19 where 0000 and 9999 are stored. *)
Lemma counter_wraps_witness :
  In (generate_custom_id "INV" {| year := 2026; month := 11; day := 3 |}
        ["INV0311260000"; "INV0311260001"; "INV0311269999"])
     ["INV0311260000"; "INV0311260001"; "INV0311269999"].
Proof.
  refine (proj2 (counter_wraps "INV"
    {| year := 2026; month := 11; day := 3 |}
    ["INV0311260000"; "INV0311260001"; "INV0311269999"] _ _) _).
  - intros v [<- | [<- | [<- | []]]] S.
    + exists 0. split; [lia | vm_compute; reflexivity].
    + exists 1. split; [lia | vm_compute; reflexivity].
    + exists 9999. split; [lia | vm_compute; reflexivity].
  - vm_compute. auto.
  - vm_compute. auto.
Defined.

(** X20: the validation of a new order with its generated identifier.
    For an order without identifier whose fields are valid and whose
    signal has no order, [full_clean] returns the order with the generated
    identifier when the identifiers of the day are well formed and below
    9999; and once the identifiers 9999 and 0000 of the day are both
    stored it raises [ValidationError], changing nothing, with the text
    that the identifier exists already: no further order can be created on
    that day. *)
Theorem order_identifier_check (today : date) (w : Runtime.World)
    (o : Order.t) :
  let m := Runtime.orders (Runtime.db w) in
  Order.order_id o = None ->
  Orm.clean_fields o = true ->
  Orm.signal_taken (Order.signal o) m = false ->
  (day_ids (base_prefix "INV" today) 9999 (order_ids m) ->
   Orm.full_clean (order_custom_id today) None o w
   = (inr (Order.set_order_id (Some (order_custom_id today m)) o), w))
  /\ (day_ids (base_prefix "INV" today) 10000 (order_ids m) ->
      In ("INV" ++ to_string (strftime_dmy today) ++ "9999")%string (order_ids m) ->
      In ("INV" ++ to_string (strftime_dmy today) ++ "0000")%string (order_ids m) ->
      Orm.full_clean (order_custom_id today) None o w
      = (inl (Exn "ValidationError"
                "{'order_id': ['Order with this Order id already exists.']}"),
         w)).
Proof.
  intros m Ho Hc Hs.
  assert (E : Orm.clean (order_custom_id today) m o
              = Order.set_order_id (Some (order_custom_id today m)) o)
    by (unfold Orm.clean; now rewrite Ho).
  split.
  - intros Hday. unfold Orm.full_clean. fold m. rewrite E, Hc. cbn [andb].
    unfold Orm.validate_unique.
    cbn [Orm.others Order.set_order_id Order.order_id Order.signal].
    rewrite Hs. cbn [negb]. rewrite andb_true_r.
    assert (T : Orm.order_id_taken (Some (order_custom_id today m)) m = false).
    { apply not_true_is_false. intros H. apply order_id_taken_iff in H.
      now apply (generated_not_stored "INV" today (order_ids m)). }
    now rewrite T.
  - intros Hday H9 H0.
    assert (T : Orm.order_id_taken (Some (order_custom_id today m)) m = true).
    { apply order_id_taken_iff. unfold order_custom_id.
      now rewrite (generated_after_9999 "INV" today (order_ids m) Hday H9). }
    unfold Orm.full_clean. fold m.
    rewrite (OrmFacts.validation_errors_order_id (order_custom_id today)
               None m o Hc).
    + rewrite E, Hc. cbn [andb]. unfold Orm.validate_unique.
      cbn [Orm.others Order.set_order_id Order.order_id Order.signal].
      now rewrite T.
    + rewrite E. exact T.
    + rewrite E. exact Hs.
Qed.

(** X20 on the sample data: a second order on the day of order 1; and
    an order on a day whose identifiers 0000 and 9999 are in use. *)
Lemma order_identifier_check_witness :
  Orm.full_clean (order_custom_id Cases.today) None
    (Order.set_order_id None Cases.order_without_price) Sample.world1
  = (inr (Order.set_order_id (Some "INV0311260002"%string)
            Cases.order_without_price), Sample.world1)
  /\ Orm.full_clean (order_custom_id Cases.today) None
       (Order.set_order_id None Cases.order_without_price) Cases.world6
     = (inl (Exn "ValidationError"
               "{'order_id': ['Order with this Order id already exists.']}"),
        Cases.world6).
Proof.
  split.
  - refine (proj1 (order_identifier_check Cases.today Sample.world1
      (Order.set_order_id None Cases.order_without_price) _ _ _) _).
    + reflexivity.
    + vm_compute. reflexivity.
    + reflexivity.
    + intros v Hin S. vm_compute in Hin. destruct Hin as [<- | []].
      exists 1. split; [lia | vm_compute; reflexivity].
  - refine (proj2 (order_identifier_check Cases.today Cases.world6
      (Order.set_order_id None Cases.order_without_price) _ _ _) _ _ _).
    + reflexivity.
    + vm_compute. reflexivity.
    + reflexivity.
    + intros v Hin S. vm_compute in Hin. destruct Hin as [<- | [<- | []]].
      * exists 9999. split; [lia | vm_compute; reflexivity].
      * exists 0. split; [lia | vm_compute; reflexivity].
    + vm_compute. auto.
    + vm_compute. auto.
Defined.

End UniqueIdFacts.

(* ===================================================================== *)
(** * The parser accepts the signals of its docstring *)
(* ===================================================================== *)

Module ParserAccepts.
Import PyStr PyFloat Regex SignalParser SignalText ParserTheorems ParserCaptures.
Local Open Scope string_scope.
Local Open Scope list_scope.

(** Splitting at a separator that the first piece does not hold. *)
Lemma split_on_whole sep (l : text) :
  forallb (fun c => negb (Ascii.eqb c sep)) l = true -> split_on sep l = [l].
Proof.
  induction l as [| c l IH]; [reflexivity |]. cbn [forallb split_on].
  intros H. apply andb_prop in H as [Hc Hl]. apply negb_true_iff in Hc.
  rewrite Hc, (IH Hl). reflexivity.
Qed.

Lemma split_on_first sep (l rest : text) :
  forallb (fun c => negb (Ascii.eqb c sep)) l = true ->
  split_on sep (l ++ sep :: rest) = l :: split_on sep rest.
Proof.
  induction l as [| c l IH]; cbn [forallb split_on app].
  - intros _. now rewrite Ascii.eqb_refl.
  - intros H. apply andb_prop in H as [Hc Hl]. apply negb_true_iff in Hc.
    rewrite Hc, (IH Hl). reflexivity.
Qed.

(** A word is one piece for [str.split]. *)
Lemma split_ws_go_word (t rest : text) (cur : option text) :
  t <> [] -> forallb (fun c => negb (isspace c)) t = true ->
  split_ws_go cur (t ++ rest)
  = split_ws_go (Some (rev t ++ default [] cur)) rest.
Proof.
  revert cur. induction t as [| c t IH]; intros cur Hne H; [congruence |].
  cbn [forallb] in H. apply andb_prop in H as [Hc Ht]. apply negb_true_iff in Hc.
  cbn [app split_ws_go]. rewrite Hc.
  destruct t as [| d t'].
  - reflexivity.
  - rewrite IH by (congruence || exact Ht). cbn [default rev].
    now rewrite <- !app_assoc.
Qed.

Lemma no_space_no_nl (t : text) :
  forallb (fun c => negb (isspace c)) t = true ->
  forallb (fun c => negb (Ascii.eqb c nl)) t = true.
Proof.
  intros H. rewrite forallb_forall in *. intros c Hc. specialize (H c Hc).
  apply negb_true_iff in H. apply negb_true_iff.
  destruct (Ascii.eqb c nl) eqn:E; [| reflexivity].
  apply Ascii.eqb_eq in E. subst c. discriminate H.
Qed.

(** Greedy repetition of a class takes a whole run of the class, when
    what follows does not go on with it. *)
Lemma star_class_greedy whole p (t rest : text) c k m fuel :
  forallb p t = true ->
  match rest with [] => True | a :: _ => p a = false end ->
  (length t <= fuel)%nat ->
  k rest c = Some m ->
  star (run whole (Class p)) fuel (t ++ rest) c k = Some m.
Proof.
  revert fuel. induction t as [| a t IH]; intros fuel Ht Hrest Hfuel Hk.
  - cbn [app]. destruct fuel as [| f]; [exact Hk |].
    cbn [star]. destruct rest as [| b rest]; cbn [run]; [exact Hk |].
    rewrite Hrest. exact Hk.
  - destruct fuel as [| f]; [cbn in Hfuel; lia |].
    cbn [forallb] in Ht. apply andb_prop in Ht as [Ha Ht].
    cbn [app star].
    assert (R : forall K, run whole (Class p) (a :: t ++ rest) c K
                          = K (t ++ rest) c)
      by (intros K; cbn [run]; now rewrite Ha).
    rewrite R. cbn [length].
    replace (length (t ++ rest) <? S (length (t ++ rest)))%nat with true
      by (symmetry; apply Nat.ltb_lt; lia).
    rewrite (IH f Ht Hrest ltac:(cbn in Hfuel; lia) Hk). reflexivity.
Qed.

(** One or more characters of a class, as a group. *)
Lemma run_group_plus_greedy whole n p (t rest : text) c k m :
  t <> [] -> forallb p t = true ->
  match rest with [] => True | a :: _ => p a = false end ->
  k rest ((n, t) :: c) = Some m ->
  run whole (Group n (Plus (Class p))) (t ++ rest) c k = Some m.
Proof.
  intros Hne Ht Hrest Hk. destruct t as [| a t]; [congruence |].
  cbn [forallb] in Ht. apply andb_prop in Ht as [Ha Ht].
  cbn [run Plus app]. rewrite Ha.
  apply (star_class_greedy whole p t rest);
    [exact Ht | exact Hrest | rewrite length_app; lia |].
  rewrite <- Hk. do 2 f_equal. f_equal.
  change (a :: t ++ rest) with ((a :: t) ++ rest).
  rewrite length_app.
  replace (length (a :: t) + length rest - length rest)%nat
    with (length (a :: t)) by lia.
  now rewrite firstn_app, Nat.sub_diag, firstn_all, app_nil_r.
Qed.

Lemma run_star_greedy whole p (t rest : text) c k m :
  forallb p t = true ->
  match rest with [] => True | a :: _ => p a = false end ->
  k rest c = Some m ->
  run whole (Star (Class p)) (t ++ rest) c k = Some m.
Proof.
  intros Ht Hrest Hk. cbn [run].
  apply (star_class_greedy whole p t rest); try assumption.
  rewrite length_app. lia.
Qed.

Lemma letter_no_space (c : ascii) : is_AZ c = true -> isspace c = false.
Proof.
  destruct c as [[] [] [] [] [] [] [] []]; vm_compute; congruence.
Qed.

Lemma digit_no_space (c : ascii) :
  isdecimal c || is_char 46 c = true -> isspace c = false.
Proof.
  destruct c as [[] [] [] [] [] [] [] []]; vm_compute; congruence.
Qed.

Lemma digit_no_rbracket (c : ascii) :
  isdecimal c || is_char 46 c = true -> negb (is_char 93 c) = true.
Proof.
  destruct c as [[] [] [] [] [] [] [] []]; vm_compute; congruence.
Qed.

Lemma digit_no_letter (c : ascii) :
  isdecimal c || is_char 46 c = true -> is_AZ c = false.
Proof.
  destruct c as [[] [] [] [] [] [] [] []]; vm_compute; congruence.
Qed.

Lemma run_group_plus_all whole n p (t : text) c k m :
  t <> [] -> forallb p t = true ->
  k [] ((n, t) :: c) = Some m ->
  run whole (Group n (Plus (Class p))) t c k = Some m.
Proof.
  intros Hne Ht Hk.
  pose proof (run_group_plus_greedy whole n p t [] c k m Hne Ht I Hk) as H.
  now rewrite app_nil_r in H.
Qed.

Lemma run_Alt_eq whole r1 r2 s c k :
  run whole (Alt r1 r2) s c k
  = match run whole r1 s c k with
    | Some x => Some x
    | None => run whole r2 s c k
    end.
Proof. reflexivity. Qed.

Lemma run_Chr_cons whole a b s c k :
  run whole (Chr a) (b :: s) c k = if Ascii.eqb a b then k s c else None.
Proof. reflexivity. Qed.

Lemma run_Eol_nil whole c k : run whole Eol [] c k = k [] c.
Proof. reflexivity. Qed.

Lemma run_Eps whole s c k : run whole Eps s c k = k s c.
Proof. reflexivity. Qed.

Lemma price_matches whole (p : price_text) (c : captures) :
  match p with
  | NoPrice => True
  | At t | Bracketed t => digits_and_dots t = true
  end ->
  run whole (Seq price_part Eol) (suffix p) c (fun _ c' => Some c')
  = Some (price_captures p ++ c).
Proof.
  destruct p as [| t | t]; cbn [suffix price_captures app].
  - intros _. reflexivity.
  - intros H. unfold digits_and_dots in H. apply andb_prop in H as [Hn Hd].
    assert (Hne : t <> []) by (destruct t; [discriminate | congruence]).
    rewrite run_Seq. unfold price_part, Opt. rewrite run_Alt_eq.
    match goal with
    | |- match ?x with _ => _ end = _ =>
        assert (E : x = Some ((4%nat, t) :: c)); [| now rewrite E]
    end.
    rewrite run_Seq.
    change (of_string " @" ++ t) with ([" "%char] ++ ("@"%char :: t)).
    apply (run_star_greedy whole isspace [" "%char] ("@"%char :: t));
      [reflexivity | reflexivity |].
    rewrite run_Alt_eq, !run_Seq, !run_Chr_cons.
    cbn [Ascii.eqb Bool.eqb].
    unfold digit_or_dot.
    apply run_group_plus_all; [exact Hne | exact Hd |].
    reflexivity.
  - intros H. unfold digits_and_dots in H. apply andb_prop in H as [Hn Hd].
    assert (Hne : t <> []) by (destruct t; [discriminate | congruence]).
    rewrite run_Seq. unfold price_part, Opt. rewrite run_Alt_eq.
    match goal with
    | |- match ?x with _ => _ end = _ =>
        assert (E : x = Some ((3%nat, t) :: c)); [| now rewrite E]
    end.
    rewrite run_Seq.
    change (of_string " [@" ++ t ++ of_string "]")
      with ([" "%char] ++ ("["%char :: "@"%char :: t ++ ["]"%char])).
    apply (run_star_greedy whole isspace [" "%char]
             ("["%char :: "@"%char :: t ++ ["]"%char]));
      [reflexivity | reflexivity |].
    rewrite run_Alt_eq, !run_Seq, run_Chr_cons.
    cbn [Ascii.eqb Bool.eqb].
    match goal with
    | |- match ?x with _ => _ end = _ =>
        assert (E : x = Some ((3%nat, t) :: c)); [| now rewrite E]
    end.
    rewrite run_Seq, run_Alt_eq, run_Chr_cons.
    cbn [Ascii.eqb Bool.eqb].
    match goal with
    | |- match ?x with _ => _ end = _ =>
        assert (E : x = Some ((3%nat, t) :: c)); [| now rewrite E]
    end.
    rewrite run_Seq. unfold digit_or_dot.
    apply (run_group_plus_greedy whole 3 _ t ["]"%char]);
      [exact Hne | exact Hd | reflexivity |].
    rewrite run_Seq. unfold not_rbracket.
    apply (run_star_greedy whole _ [] ["]"%char]); [reflexivity | reflexivity |].
    reflexivity.
Qed.

Lemma suffix_head (p : price_text) :
  match suffix p with [] => True | a :: _ => is_AZ a = false end.
Proof. destruct p; cbn; auto. Qed.

(** The first line of a well-formed signal matches the pattern. *)
Lemma pattern_matches (a : string) (instrument : text) (p : price_text) :
  a = "BUY"%string \/ a = "SELL"%string ->
  instrument <> [] -> forallb is_AZ instrument = true ->
  match p with
  | NoPrice => True
  | At t | Bracketed t => digits_and_dots t = true
  end ->
  re_match pattern (of_string a ++ of_string " " ++ instrument ++ suffix p)
  = Some (price_captures p ++ [(2%nat, instrument); (1%nat, of_string a)]).
Proof.
  intros Ha Hne Haz Hp.
  set (s := of_string a ++ of_string " " ++ instrument ++ suffix p).
  assert (After : forall c,
    run s after_action (of_string " " ++ instrument ++ suffix p) c
      (fun _ c' => Some c')
    = Some (price_captures p ++ (2%nat, instrument) :: c)).
  { intros c. unfold after_action. rewrite run_Seq. unfold Plus at 1.
    rewrite run_Seq. unfold ws at 1.
    change (of_string " " ++ instrument ++ suffix p)
      with (" "%char :: instrument ++ suffix p).
    change (run s (Class isspace) (" "%char :: instrument ++ suffix p) c ?k)
      with (k (instrument ++ suffix p) c).
    cbv beta. unfold ws.
    apply (run_star_greedy s isspace [] (instrument ++ suffix p));
      [reflexivity | |].
    { destruct instrument as [| i0 i]; [congruence |].
      cbn [forallb] in Haz. apply andb_prop in Haz as [H0 _].
      cbn [app]. now apply letter_no_space. }
    rewrite run_Seq. unfold upper_AZ.
    apply (run_group_plus_greedy s 2 _ instrument (suffix p));
      [exact Hne | exact Haz | apply suffix_head |].
    now apply price_matches. }
  unfold re_match, pattern. rewrite run_Seq.
  change (run s Bol s [] ?k)
    with (if (length s =? length s)%nat then k s [] else None).
  rewrite Nat.eqb_refl. rewrite run_Seq.
  change (run s (Group 1 ?r) s [] ?k)
    with (run s r s []
            (fun s' c' => k s' ((1%nat, firstn (length s - length s') s) :: c'))).
  rewrite run_Alt_eq, !run_Lit.
  destruct Ha as [-> | ->].
  - assert (S : startswith (of_string "BUY") s = true) by reflexivity.
    rewrite S, (group_one_length _ _ S).
    change (skipn (length (of_string "BUY")) s)
      with (of_string " " ++ instrument ++ suffix p).
    now rewrite After.
  - assert (B : startswith (of_string "BUY") s = false) by reflexivity.
    assert (S : startswith (of_string "SELL") s = true) by reflexivity.
    rewrite B, S, (group_one_length _ _ S).
    change (skipn (length (of_string "SELL")) s)
      with (of_string " " ++ instrument ++ suffix p).
    now rewrite After.
Qed.

Lemma drop_while_head (p : ascii -> bool) (t : text) :
  match t with [] => True | a :: _ => p a = false end -> drop_while p t = t.
Proof. destruct t as [| a t]; [reflexivity |]. cbn. now intros ->. Qed.

(** Stripping a text that neither starts nor ends with white space. *)
Lemma strip_noop (x y : text) :
  match x ++ y with [] => True | a :: _ => isspace a = false end ->
  y <> [] -> forallb (fun c => negb (isspace c)) y = true ->
  strip (x ++ y) = x ++ y.
Proof.
  intros Hx Hy Hs. unfold strip, lstrip, rstrip.
  rewrite (drop_while_head isspace (x ++ y) Hx).
  rewrite drop_while_head; [apply rev_involutive |].
  rewrite rev_app_distr.
  destruct (exists_last Hy) as (y' & b & ->).
  rewrite rev_app_distr. cbn [rev app].
  rewrite forallb_app in Hs. apply andb_prop in Hs as [_ Hb].
  cbn in Hb. rewrite andb_true_r in Hb. now apply negb_true_iff.
Qed.

Lemma token_parts (t : text) :
  token t = true -> t <> [] /\ forallb (fun c => negb (isspace c)) t = true.
Proof.
  unfold token. intros H. apply andb_prop in H as [Hn Hs]. split; [| exact Hs].
  destruct t; [discriminate | congruence].
Qed.

Lemma forallb_imp {A} (p q : A -> bool) (l : list A) :
  (forall a, p a = true -> q a = true) ->
  forallb p l = true -> forallb q l = true.
Proof.
  intros Hpq H. rewrite forallb_forall in *. intros a Ha. apply Hpq. now apply H.
Qed.

Lemma letters_no_space (t : text) :
  forallb is_AZ t = true -> forallb (fun c => negb (isspace c)) t = true.
Proof.
  apply forallb_imp. intros a Ha. now rewrite letter_no_space.
Qed.

Lemma digits_no_space (t : text) :
  forallb (fun c => isdecimal c || is_char 46 c) t = true ->
  forallb (fun c => negb (isspace c)) t = true.
Proof.
  apply forallb_imp. intros a Ha. now rewrite digit_no_space.
Qed.

(** A line with a keyword and a word: its second word. *)
Lemma split_ws_second (keyword word : text) :
  keyword <> [] -> forallb (fun c => negb (isspace c)) keyword = true ->
  word <> [] -> forallb (fun c => negb (isspace c)) word = true ->
  split_ws (keyword ++ " "%char :: word) = [keyword; word].
Proof.
  intros Hk1 Hk2 Hw1 Hw2. unfold split_ws.
  rewrite split_ws_go_word by assumption.
  cbn [split_ws_go default]. change (isspace " ") with true. cbv iota.
  rewrite app_nil_r, rev_involutive.
  rewrite <- (app_nil_r word), split_ws_go_word by assumption.
  cbn [split_ws_go default app]. now rewrite !app_nil_r, rev_involutive.
Qed.

Lemma suffix_no_nl (p : price_text) :
  match p with
  | NoPrice => True
  | At t | Bracketed t => digits_and_dots t = true
  end ->
  forallb (fun c => negb (Ascii.eqb c nl)) (suffix p) = true.
Proof.
  destruct p as [| t | t]; cbn [suffix]; [reflexivity | |];
    intros H; unfold digits_and_dots in H; apply andb_prop in H as [_ Hd];
    apply digits_no_space, no_space_no_nl in Hd;
    rewrite ?forallb_app, Hd; reflexivity.
Qed.

(** The first line ends with a character that is no white space. *)
Lemma first_line_strip (a : string) (instrument : text) (p : price_text) :
  a = "BUY"%string \/ a = "SELL"%string ->
  instrument <> [] -> forallb is_AZ instrument = true ->
  match p with
  | NoPrice => True
  | At t | Bracketed t => digits_and_dots t = true
  end ->
  strip (of_string a ++ of_string " " ++ instrument ++ suffix p)
  = of_string a ++ of_string " " ++ instrument ++ suffix p.
Proof.
  intros Ha Hne Haz Hp.
  assert (H0 : match of_string a ++ of_string " " ++ instrument ++ suffix p with
               | [] => True | c :: _ => isspace c = false end)
    by (destruct Ha as [-> | ->]; reflexivity).
  destruct p as [| t | t]; cbn [suffix] in *.
  - rewrite app_nil_r in *. rewrite app_assoc in *.
    apply strip_noop; [exact H0 | exact Hne | now apply letters_no_space].
  - unfold digits_and_dots in Hp. apply andb_prop in Hp as [Hn Hd].
    rewrite !app_assoc in *.
    apply strip_noop; [exact H0 | | now apply digits_no_space].
    destruct t; [discriminate | congruence].
  - rewrite !app_assoc in *.
    apply strip_noop; [exact H0 | discriminate | reflexivity].
Qed.

(** X26: the parser accepts every signal written as its docstring
    says.  For the action BUY or SELL, an instrument of the letters A to
    Z, no price or a price of digits and dots written as [ @price] or
    [ [@price]] that [float] reads, and a stop-loss and a take-profit that
    are single words [float] reads, with the stop-loss not above or equal
    to the take-profit for a BUY and not below or equal for a SELL, the
    three lines are parsed to the valid result with exactly these
    values. *)
Theorem parse_accepts (a : string) (instrument_text : text) (p : price_text)
    (entry : option float) (sl_text tp_text : text) (sl tp : float) :
  a = "BUY"%string \/ a = "SELL"%string ->
  instrument_text <> [] -> forallb is_AZ instrument_text = true ->
  price_value p entry ->
  token sl_text = true -> py_float sl_text = Some sl ->
  token tp_text = true -> py_float tp_text = Some tp ->
  (a = "BUY"%string -> ge sl tp = false) ->
  (a = "SELL"%string -> le sl tp = false) ->
  parse_signal (PStr (message a instrument_text p sl_text tp_text))
  = Valid {| action := a; instrument := to_string instrument_text;
             price := entry; stop_loss := sl; take_profit := tp |}.
Proof.
  intros Ha Hne Haz Hp Hsl Fsl Htp Ftp Hbuy Hsell.
  destruct (token_parts _ Hsl) as [Nsl Ssl].
  destruct (token_parts _ Htp) as [Ntp Stp].
  assert (Hd : match p with
               | NoPrice => True
               | At t | Bracketed t => digits_and_dots t = true
               end)
    by (destruct p; [exact I | apply Hp | apply Hp]).
  set (l1 := of_string a ++ of_string " " ++ instrument_text ++ suffix p).
  set (l2 := of_string "SL" ++ " "%char :: sl_text).
  set (l3 := of_string "TP" ++ " "%char :: tp_text).
  assert (M : of_string (message a instrument_text p sl_text tp_text)
              = l1 ++ nl :: l2 ++ nl :: l3).
  { unfold message. change (of_string (to_string ?t))
      with (list_ascii_of_string (string_of_list_ascii t)).
    rewrite list_ascii_of_string_of_list_ascii. unfold l1, l2, l3.
    now rewrite <- !app_assoc. }
  assert (N1 : forallb (fun c => negb (Ascii.eqb c nl)) l1 = true).
  { unfold l1. rewrite !forallb_app, (suffix_no_nl p Hd).
    rewrite (no_space_no_nl _ (letters_no_space _ Haz)).
    destruct Ha as [-> | ->]; reflexivity. }
  assert (N2 : forallb (fun c => negb (Ascii.eqb c nl)) l2 = true).
  { unfold l2. rewrite forallb_app. cbn [forallb].
    rewrite (no_space_no_nl _ Ssl). reflexivity. }
  assert (N3 : forallb (fun c => negb (Ascii.eqb c nl)) l3 = true).
  { unfold l3. rewrite forallb_app. cbn [forallb].
    rewrite (no_space_no_nl _ Stp). reflexivity. }
  assert (S1 : strip l1 = l1) by now apply first_line_strip.
  assert (S2 : strip l2 = l2).
  { unfold l2. change (of_string "SL" ++ " "%char :: sl_text)
      with (of_string "SL " ++ sl_text).
    apply strip_noop; [reflexivity | exact Nsl | exact Ssl]. }
  assert (S3 : strip l3 = l3).
  { unfold l3. change (of_string "TP" ++ " "%char :: tp_text)
      with (of_string "TP " ++ tp_text).
    apply strip_noop; [reflexivity | exact Ntp | exact Stp]. }
  assert (E1 : nonempty l1 = true) by (destruct Ha as [-> | ->]; reflexivity).
  assert (E2 : nonempty l2 = true) by reflexivity.
  assert (E3 : nonempty l3 = true) by reflexivity.
  assert (L : get_lines (l1 ++ nl :: l2 ++ nl :: l3) = [l1; l2; l3]).
  { clear M. clearbody l1 l2 l3. unfold get_lines.
    rewrite (split_on_first nl l1 _ N1), (split_on_first nl l2 _ N2),
      (split_on_whole nl l3 N3).
    cbn [List.filter]. rewrite S1, S2, S3, E1, E2, E3.
    cbn [map]. now rewrite S1, S2, S3. }
  assert (U : unquote (l1 ++ nl :: l2 ++ nl :: l3) = l1 ++ nl :: l2 ++ nl :: l3).
  { unfold unquote.
    assert (D : startswith [dquote] (l1 ++ nl :: l2 ++ nl :: l3) = false)
      by (destruct Ha as [-> | ->]; reflexivity).
    assert (Q : startswith [squote] (l1 ++ nl :: l2 ++ nl :: l3) = false)
      by (destruct Ha as [-> | ->]; reflexivity).
    rewrite D. cbn [andb]. rewrite Q. reflexivity. }
  assert (AM : as_message (PStr (message a instrument_text p sl_text tp_text))
               = Some (l1 ++ nl :: l2 ++ nl :: l3)).
  { unfold as_message. rewrite M.
    assert (NE : exists c r, l1 ++ nl :: l2 ++ nl :: l3 = c :: r)
      by (destruct Ha as [-> | ->]; eexists _, _; reflexivity).
    destruct NE as (c0 & r0 & NE). now rewrite NE. }
  assert (PM : re_match pattern l1
               = Some (price_captures p
                       ++ [(2%nat, instrument_text); (1%nat, of_string a)]))
    by now apply pattern_matches.
  assert (G1 : group 1 (price_captures p
                 ++ [(2%nat, instrument_text); (1%nat, of_string a)])
               = Some (of_string a)) by (destruct p; reflexivity).
  assert (G2 : group 2 (price_captures p
                 ++ [(2%nat, instrument_text); (1%nat, of_string a)])
               = Some instrument_text) by (destruct p; reflexivity).
  assert (PR : match text_or (group 3 (price_captures p
                      ++ [(2%nat, instrument_text); (1%nat, of_string a)]))
                     (group 4 (price_captures p
                      ++ [(2%nat, instrument_text); (1%nat, of_string a)])) with
               | Some (c :: t) =>
                   match py_float (c :: t) with
                   | Some f => inr (Some f)
                   | None => inl (float_error (c :: t))
                   end
               | _ => inr None
               end = @inr PyExn (option float) entry).
  { destruct p as [| t | t]; cbn [price_captures app group Nat.eqb text_or].
    - cbn in Hp. now subst.
    - destruct Hp as (Dd & Pf & Pn). unfold digits_and_dots in Dd.
      apply andb_prop in Dd as [Dn _]. destruct t as [| c t]; [discriminate |].
      rewrite Pf. destruct entry; [reflexivity | congruence].
    - destruct Hp as (Dd & Pf & Pn). unfold digits_and_dots in Dd.
      apply andb_prop in Dd as [Dn _]. destruct t as [| c t]; [discriminate |].
      cbn [text_or]. rewrite Pf. destruct entry; [reflexivity | congruence]. }
  assert (SC : scan_lines [l2; l3] None None = inr (Some sl, Some tp)).
  { cbn [scan_lines].
    assert (A2 : startswith (of_string "SL") (upper l2) = true) by reflexivity.
    assert (A3 : startswith (of_string "SL") (upper l3) = false) by reflexivity.
    assert (B3 : startswith (of_string "TP") (upper l3) = true) by reflexivity.
    assert (T2 : second_token_float l2 = Some sl).
    { unfold second_token_float, l2.
      rewrite split_ws_second by (assumption || discriminate || reflexivity).
      exact Fsl. }
    assert (T3 : second_token_float l3 = Some tp).
    { unfold second_token_float, l3.
      rewrite split_ws_second by (assumption || discriminate || reflexivity).
      exact Ftp. }
    now rewrite A2, T2, A3, B3, T3. }
  unfold parse_signal, parse_signal_try.
  clearbody l1 l2 l3.
  rewrite AM, U, L. cbn [length Nat.ltb Nat.leb hd tl].
  rewrite PM, G1, G2, PR, SC. cbn [default].
  unfold to_string, of_string, id. rewrite string_of_list_ascii_of_string.
  destruct Ha as [-> | ->].
  - rewrite (Hbuy eq_refl). reflexivity.
  - rewrite (Hsell eq_refl). reflexivity.
Qed.

(** X26 at the valid BUY example. *)
Lemma parse_accepts_witness :
  parse_signal (PStr Sample.buy_text)
  = Valid {| action := "BUY"; instrument := "EURUSD";
             price := Some (S754_finite false 4890909195324359 (-52));
             stop_loss := S754_finite false 4886405595696988 (-52);
             take_profit := S754_finite false 4904419994206470 (-52) |}.
Proof.
  apply (parse_accepts "BUY" (of_string "EURUSD")
           (Bracketed (of_string "1.0860"))
           (Some (S754_finite false 4890909195324359 (-52)))
           (of_string "1.0850") (of_string "1.0890")).
  - now left.
  - discriminate.
  - reflexivity.
  - split; [reflexivity | split; [vm_compute; reflexivity | discriminate]].
  - reflexivity.
  - vm_compute. reflexivity.
  - reflexivity.
  - vm_compute. reflexivity.
  - intros _. vm_compute. reflexivity.
  - discriminate.
Defined.

End ParserAccepts.


(* ===================================================================== *)
(** * Runs of the worker and of the lifecycle, case by case *)
(* ===================================================================== *)

Module TaskRuns.
Import Runtime Orm Properties OrmFacts TaskFacts SignalParser Outcomes.

Lemma with_action_order_id a o :
  Order.order_id (Worker.with_action a o) = Order.order_id o.
Proof.
  unfold Worker.with_action.
  now destruct (String.eqb a "BUY"), (String.eqb a "SELL").
Qed.

Lemma with_action_entry_price a o :
  Order.entry_price (Worker.with_action a o) = Order.entry_price o.
Proof.
  unfold Worker.with_action.
  now destruct (String.eqb a "BUY"), (String.eqb a "SELL").
Qed.

(** The order a run of the worker adds, when the generator gives no empty
    identifier: it is stored as validated, pending, with an entry price,
    and with its first history row. *)
Lemma worker_created_valid gen rhu fails sid w r w' pk o :
  Worker.process_signal_task gen rhu fails sid w = (r, w') ->
  (forall m, gen m <> "") ->
  orders (db w) !! pk = None ->
  orders (db w') !! pk = Some o ->
  is_blank (Order.order_id o) = false
  /\ clean_fields o = true
  /\ validate_unique (Some pk) (orders (db w')) o = true
  /\ (exists d, Order.entry_price o = Some d)
  /\ Order.status o = OrderStatus.PENDING
  /\ history (db w') = history (db w) ++ [Worker.pending_history pk].
Proof.
  intros H Hgen Hnone Hsome.
  destruct w as [[sigs ords hist usrs] q sw]. cbn [db orders] in Hnone.
  run_task H.
  all: injection H as <- <-; cbn [db orders history] in Hsome |- *.
  all: cbn [TradingSignal.user TradingSignal.set_status] in *.
  all: try congruence.
  all: destruct (decide (pk = next_pk ords)) as [-> | N];
    [| rewrite !lookup_insert_ne in Hsome by congruence; congruence].
  all: rewrite lookup_insert_eq in Hsome; injection Hsome as <-.
  all: match goal with
       | Hx : context [validate_unique None _ (clean _ _ ?o)] |- _ =>
           set (new := o) in *
       end.
  all: assert (E1 : clean gen ords new = Order.set_order_id (Some (gen ords)) new)
         by reflexivity.
  all: rewrite E1 in *.
  all: match goal with
       | Hx : context [clean _ ?m (Worker.with_action ?a ?o1)] |- _ =>
           assert (E2 : clean gen m (Worker.with_action a o1)
                        = Worker.with_action a o1)
             by (apply clean_not_blank; rewrite with_action_order_id;
                 cbn [Order.set_order_id Order.order_id is_blank];
                 apply String.eqb_neq; apply Hgen)
       end.
  all: rewrite E2 in *.
  all: match goal with
       | Hx : _ && validate_unique (Some _) _ _ = true |- _ =>
           apply andb_prop in Hx as [C2 U2]
       end.
  all: rewrite validate_unique_after_insert.
  all: rewrite with_action_status, with_action_order_id.
  all: cbn [Order.set_order_id Order.order_id Order.status is_blank].
  all: split; [apply String.eqb_neq; apply Hgen |].
  all: split; [exact C2 |]; split; [exact U2 |].
  all: split; [eauto |]; split; [reflexivity |].
  all: rewrite <- ?app_assoc; reflexivity.
Qed.



(** A new order of a signal without order, with valid fields and an
    identifier that is not in use, passes [full_clean] on creation, and
    again when it is saved under its new key. *)
Lemma new_order_validates gen m o :
  Order.order_id o = None ->
  clean_fields o = true ->
  signal_taken (Order.signal o) m = false ->
  order_id_taken (Some (gen m)) m = false ->
  clean gen m o = Order.set_order_id (Some (gen m)) o
  /\ clean_fields o && validate_unique None m (clean gen m o) = true.
Proof.
  intros Hid Hc Hs Ht.
  assert (E : clean gen m o = Order.set_order_id (Some (gen m)) o)
    by (unfold clean; now rewrite Hid).
  split; [exact E |].
  rewrite E, Hc. unfold validate_unique. cbn [others Order.set_order_id
    Order.order_id Order.signal andb]. now rewrite Ht, Hs.
Qed.

Lemma stored_order_validates gen m m' pk o o' :
  m !! pk = None ->
  Order.order_id o = Some (gen m) ->
  gen m <> "" ->
  (String.length (gen m) <= 50)%nat ->
  clean_fields (Order.set_order_id None o) = true ->
  signal_taken (Order.signal o) m = false ->
  order_id_taken (Some (gen m)) m = false ->
  m' = <[pk := o']> m ->
  clean gen m' o = o
  /\ clean_fields o && validate_unique (Some pk) m' (clean gen m' o) = true.
Proof.
  intros Hpk Hid Hne Hlen Hc Hs Ht ->.
  assert (E : clean gen (<[pk := o']> m) o = o).
  { apply clean_not_blank. rewrite Hid. cbn [is_blank].
    now apply String.eqb_neq. }
  split; [exact E |]. rewrite E, validate_unique_after_insert.
  unfold validate_unique. cbn [others]. rewrite delete_id by exact Hpk.
  rewrite Hid, Ht, Hs. cbn [negb andb]. rewrite andb_true_r.
  unfold clean_fields in *. rewrite Hid. cbn [order_id_ok].
  cbn [Order.set_order_id Order.order_id Order.instrument Order.entry_price
       Order.stop_loss Order.take_profit order_id_ok andb] in Hc.
  rewrite <- !andb_assoc. rewrite <- !andb_assoc in Hc. cbn [andb] in Hc.
  rewrite Hc. rewrite andb_true_r. now apply Nat.leb_le.
Qed.


(** The run of the lifecycle for a stored order that passes the
    validation of its model and has an entry price, nothing failing. *)
Lemma lifecycle_run_closes gen pk w o d :
  orders (db w) !! pk = Some o ->
  is_blank (Order.order_id o) = false ->
  clean_fields o = true ->
  validate_unique (Some pk) (orders (db w)) o = true ->
  Order.entry_price o = Some d ->
  Lifecycle.simulate_order_lifecycle gen Lifecycle.no_fault pk w
  = (inr tt, closed pk o (float_of_decimal d) w).
Proof.
  intros Ho Hb Hc Hu Hd.
  destruct (Lifecycle.simulate_order_lifecycle gen Lifecycle.no_fault pk w)
    as [res w'] eqn:H.
  destruct w as [[sigs ords hist usrs] q sw]. cbn [db orders] in Ho, Hu.
  assert (E : forall m s, clean gen m (Order.set_status s o) = Order.set_status s o)
    by (intros m s; now apply clean_not_blank).
  assert (C : forall s, clean_fields (Order.set_status s o) = true)
    by (intros s; exact Hc).
  assert (U : forall s o', validate_unique (Some pk) (<[pk := o']> ords)
                             (Order.set_status s o) = true)
    by (intros s o'; rewrite validate_unique_after_insert; exact Hu).
  assert (U0 : forall s, validate_unique (Some pk) ords (Order.set_status s o) = true)
    by (intros s; exact Hu).
  run_task H.
  all: repeat first
         [ rewrite status_set_status in *
         | rewrite set_status_twice in *
         | rewrite entry_price_set_status in *
         | rewrite E in * | rewrite C in * | rewrite U in * | rewrite U0 in * ].
  all: try discriminate.
  all: try congruence.
  all: injection H as <- <-.
  all: unfold closed, set_history, set_orders;
    cbn [db orders history queue signals users status_writes].
  all: rewrite insert_insert_eq, <- !app_assoc; cbn [app].
  all: repeat match goal with
              | Hx : Some _ = Some _ |- _ => injection Hx as ->
              end.
  all: congruence.
Qed.


(** The run of the worker for a valid signal, nothing failing. *)
Lemma worker_run_valid gen rhu sid w s d name e sl tp a :
  signals (db w) !! sid = Some s ->
  parse_signal (Worker.raw_message_obj s) = Valid d ->
  users (db w) !! TradingSignal.user s = Some name ->
  rhu (price d) 4 = inr (Some e) ->
  rhu (Some (stop_loss d)) 4 = inr sl ->
  rhu (Some (take_profit d)) 4 = inr tp ->
  (action d = "BUY" /\ a = Action.BUY \/ action d = "SELL" /\ a = Action.SELL) ->
  instrument_ok (instrument d) = true ->
  decimal_ok e = true -> price_ok sl = true -> price_ok tp = true ->
  signal_taken (Some sid) (orders (db w)) = false ->
  gen (orders (db w)) <> "" ->
  (String.length (gen (orders (db w))) <= 50)%nat ->
  order_id_taken (Some (gen (orders (db w)))) (orders (db w)) = false ->
  Worker.process_signal_task gen rhu Worker.no_fault sid w
  = (inr tt,
     processed sid s
       (new_order (gen (orders (db w))) (TradingSignal.user s) sid a
          (instrument d) e sl tp)
       (float_of_decimal e) w).
Proof.
  intros Hs Hp Hu He Hsl Htp Ha Hi Hde Hpsl Hptp Hfree Hne Hlen Hid.
  destruct (Worker.process_signal_task gen rhu Worker.no_fault sid w)
    as [res w'] eqn:H.
  destruct w as [[sigs ords hist usrs] q sw].
  cbn [db signals users orders] in *.
  change (parse_signal (Worker.raw_message_obj
            (TradingSignal.set_status SignalStatusChoices.PROCESSING s))
          = Valid d) in Hp.
  change (usrs !! TradingSignal.user
            (TradingSignal.set_status SignalStatusChoices.PROCESSING s)
          = Some name) in Hu.
  pose proof (next_pk_fresh ords) as Hfresh.
  run_task H.
  all: match goal with
       | Hx : context [validate_unique None _ (clean _ _ ?o)] |- _ =>
           set (o0 := o) in *
       end.
  all: assert (C0 : clean_fields o0 = true)
         by (unfold clean_fields, o0; cbn [Order.order_id Order.instrument
               Order.entry_price Order.stop_loss Order.take_profit order_id_ok
               entry_price_ok andb]; now rewrite Hi, Hde, Hpsl, Hptp).
  all: destruct (new_order_validates gen ords o0 eq_refl C0 Hfree Hid) as [E1 V1].
  all: rewrite ?E1 in *.
  all: assert (W : exists o1,
         Worker.with_action (action d) (Order.set_order_id (Some (gen ords)) o0) = o1
         /\ o1 = new_order (gen ords) (TradingSignal.user s) sid a
                   (instrument d) e sl tp)
         by (eexists; split; [reflexivity |];
             destruct Ha as [[-> ->] | [-> ->]]; reflexivity).
  all: destruct W as (o1 & W & Eo1); rewrite ?W in *.
  all: destruct (stored_order_validates gen ords
              (<[next_pk ords := Order.set_order_id (Some (gen ords)) o0]> ords)
              (next_pk ords) o1
              (Order.set_order_id (Some (gen ords)) o0)
              Hfresh ltac:(now rewrite Eo1) Hne Hlen
              ltac:(rewrite Eo1; exact C0)
              ltac:(rewrite Eo1; exact Hfree) Hid eq_refl) as [E2 V2].
  all: rewrite ?E2 in *.
  all: try congruence.
  all: try (rewrite Eo1 in *; discriminate).
  all: injection H as <- <-.
  all: unfold processed; cbn [db signals orders history queue status_writes users].
  all: rewrite ?insert_insert_eq, <- ?app_assoc; cbn [app].
  all: match goal with
       | Hx : Order.entry_price _ = Some ?x |- _ =>
           assert (x = e) as -> by (rewrite Eo1 in Hx; cbn in Hx; congruence)
       end.
  all: rewrite <- Eo1.
  all: reflexivity.
Qed.



(** X6: an invalid signal.  When the stored message is refused by the
    parser and the statements up to the notification do not fail, the run
    returns without exception (so the task is not retried), the signal is
    left failed with the reason of the parser as its error message, no
    order and no history row is added, and exactly one event
    "signal.invalid" with the signal, the user name, the account and the
    reason is sent. *)
Theorem worker_invalid_signal gen rhu fails sid w s error name :
  signals (db w) !! sid = Some s ->
  parse_signal (Worker.raw_message_obj s) = Invalid error ->
  users (db w) !! TradingSignal.user s = Some name ->
  fails Worker.SignalFetch = false ->
  fails Worker.SaveProcessing = false ->
  fails Worker.SaveInvalid = false ->
  fails Worker.UserFetch = false ->
  fails Worker.NotifyDelay = false ->
  let r := Worker.process_signal_task gen rhu fails sid w in
  r.1 = inr tt
  /\ signals (db r.2)
     = <[sid := {| TradingSignal.user := TradingSignal.user s;
                   TradingSignal.account := TradingSignal.account s;
                   TradingSignal.raw_message := TradingSignal.raw_message s;
                   TradingSignal.status := SignalStatusChoices.FAILED;
                   TradingSignal.error_message := Some error |}]> (signals (db w))
  /\ orders (db r.2) = orders (db w)
  /\ history (db r.2) = history (db w)
  /\ queue r.2 = queue w
       ++ [NotifySignalInvalid
             {| ev_event := "signal.invalid"; ev_trading_id := sid;
                ev_user := name;
                ev_account_id := TradingSignal.account s;
                ev_error_message := Some error |}]
  /\ status_writes r.2 = status_writes w
       ++ [(sid, SignalStatusChoices.PROCESSING); (sid, SignalStatusChoices.FAILED)].
Proof.
  intros Hs Hp Hu F1 F2 F3 F4 F5 r.
  destruct (Worker.process_signal_task gen rhu fails sid w) as [res w'] eqn:H.
  subst r. cbn [fst snd].
  destruct w as [[sigs ords hist usrs] q sw]. cbn [db signals users] in Hs, Hu.
  change (parse_signal (Worker.raw_message_obj
            (TradingSignal.set_status SignalStatusChoices.PROCESSING s))
          = Invalid error) in Hp.
  change (usrs !! TradingSignal.user
            (TradingSignal.set_error_message (Some error)
               (TradingSignal.set_status SignalStatusChoices.FAILED
                  (TradingSignal.set_status SignalStatusChoices.PROCESSING s)))
          = Some name) in Hu.
  run_task H.
  all: try discriminate.
  all: try congruence.
  all: injection H as <- <-; cbn [db signals orders history queue status_writes].
  all: rewrite ?insert_insert_eq, <- ?app_assoc; cbn [app].
  all: repeat split; reflexivity.
Qed.


(** X6 on the sample data: signal 2 holds a BUY with the stop-loss above
    the take-profit. *)
Lemma worker_invalid_signal_witness :
  let r := Sample.run_worker Worker.no_fault 2 Cases.world4 in
  r.1 = inr tt
  /\ queue r.2
     = [NotifySignalInvalid
          {| ev_event := "signal.invalid"; ev_trading_id := 2;
             ev_user := "alice"; ev_account_id := Some 3;
             ev_error_message := Some "For BUY, SL must be lower than TP" |}].
Proof.
  pose proof (worker_invalid_signal Sample.custom_id Sample.round_half_up
    Worker.no_fault 2 Cases.world4 (Cases.signal_of Cases.inverted_text)
    "For BUY, SL must be lower than TP" "alice") as T.
  cbv zeta in T. destruct T as (R & _ & _ & _ & Q & _).
  - vm_compute. reflexivity.
  - vm_compute. reflexivity.
  - vm_compute. reflexivity.
  - reflexivity.
  - reflexivity.
  - reflexivity.
  - reflexivity.
  - reflexivity.
  - cbv zeta. split; [exact R | exact Q].
Defined.

(** X7: a valid signal.  The signal and its user are stored; the parser
    accepts the stored message with a price; [round_half_up] returns the
    three rounded prices; the instrument passes the validators of the
    order (not blank, at most 20 characters) and so do the rounded prices
    (at most 19 digits, the stop-loss and the take-profit present and not
    negative); the signal
    has no order yet; and the generated identifier is not empty, not
    longer than 50 and not in use.  Then a run that meets no failure of
    the database or the broker returns, stores one pending order under a
    new key with the action, instrument and rounded prices of the signal,
    appends the pending history row, sends the event and the lifecycle
    task, and leaves the signal in the state success. *)
Theorem worker_valid_signal gen rhu sid w s d name e sl tp a :
  signals (db w) !! sid = Some s ->
  parse_signal (Worker.raw_message_obj s) = Valid d ->
  users (db w) !! TradingSignal.user s = Some name ->
  rhu (price d) 4 = inr (Some e) ->
  rhu (Some (stop_loss d)) 4 = inr sl ->
  rhu (Some (take_profit d)) 4 = inr tp ->
  (action d = "BUY" /\ a = Action.BUY \/ action d = "SELL" /\ a = Action.SELL) ->
  instrument_ok (instrument d) = true ->
  decimal_ok e = true -> price_ok sl = true -> price_ok tp = true ->
  signal_taken (Some sid) (orders (db w)) = false ->
  gen (orders (db w)) <> "" ->
  (String.length (gen (orders (db w))) <= 50)%nat ->
  order_id_taken (Some (gen (orders (db w)))) (orders (db w)) = false ->
  let pk := next_pk (orders (db w)) in
  let order :=
    {| Order.order_id := Some (gen (orders (db w)));
       Order.user := TradingSignal.user s;
       Order.signal := Some sid;
       Order.action := Some a;
       Order.instrument := instrument d;
       Order.entry_price := Some e;
       Order.stop_loss := sl;
       Order.take_profit := tp;
       Order.status := OrderStatus.PENDING |} in
  let r := Worker.process_signal_task gen rhu Worker.no_fault sid w in
  r.1 = inr tt
  /\ signals (db r.2)
     = <[sid := TradingSignal.set_status SignalStatusChoices.SUCCESS s]>
         (signals (db w))
  /\ orders (db w) !! pk = None
  /\ orders (db r.2) = <[pk := order]> (orders (db w))
  /\ history (db r.2) = history (db w) ++ [Worker.pending_history pk]
  /\ queue r.2 = queue w
       ++ [BroadcastOrderEvent (Worker.pending_event order (float_of_decimal e));
           SimulateOrderLifecycle pk]
  /\ status_writes r.2 = status_writes w
       ++ [(sid, SignalStatusChoices.PROCESSING); (sid, SignalStatusChoices.SUCCESS)].
Proof.
  intros Hs Hp Hu He Hsl Htp Ha Hi Hde Hpsl Hptp Hfree Hne Hlen Hid pk order r.
  subst r.
  rewrite (worker_run_valid gen rhu sid w s d name e sl tp a) by assumption.
  cbn [fst snd]. unfold processed.
  cbn [db signals orders history queue status_writes].
  repeat split; try reflexivity. apply next_pk_fresh.
Qed.

(** X7 on the sample data. *)
Lemma worker_valid_signal_witness :
  let r := Sample.run_worker Worker.no_fault 1 Sample.world0 in
  r.1 = inr tt
  /\ orders (db r.2) !! 1
     = Some {| Order.order_id := Some "INV0311260001"; Order.user := 7;
               Order.signal := Some 1; Order.action := Some Action.BUY;
               Order.instrument := "EURUSD"; Order.entry_price := Some 10860;
               Order.stop_loss := Some 10850; Order.take_profit := Some 10890;
               Order.status := OrderStatus.PENDING |}.
Proof.
  pose proof (worker_valid_signal Sample.custom_id Sample.round_half_up 1
    Sample.world0 Sample.signal1
    {| action := "BUY"; instrument := "EURUSD";
       price := Some (S754_finite false 4890909195324359 (-52));
       stop_loss := S754_finite false 4886405595696988 (-52);
       take_profit := S754_finite false 4904419994206470 (-52) |}
    "alice" 10860 (Some 10850) (Some 10890) Action.BUY) as T.
  cbv zeta in T.
  destruct T as (R & _ & _ & O & _).
  - vm_compute. reflexivity.
  - vm_compute. reflexivity.
  - vm_compute. reflexivity.
  - vm_compute. reflexivity.
  - vm_compute. reflexivity.
  - vm_compute. reflexivity.
  - left. split; reflexivity.
  - vm_compute. reflexivity.
  - vm_compute. reflexivity.
  - vm_compute. reflexivity.
  - vm_compute. reflexivity.
  - vm_compute. reflexivity.
  - vm_compute. discriminate.
  - vm_compute. lia.
  - vm_compute. reflexivity.
  - cbv zeta. unfold Sample.run_worker. split; [exact R |].
    rewrite O. vm_compute. reflexivity.
Defined.

(** X8: a signal without usable price.  The parser accepts a first line
    without price, but the worker converts the entry price of the order
    with [float]: unless [round_half_up] returns a price, every run for
    such a signal ends by an exception, and it adds no order and no history
    row and sends nothing. *)
Theorem worker_without_price gen rhu fails sid w s d :
  signals (db w) !! sid = Some s ->
  parse_signal (Worker.raw_message_obj s) = Valid d ->
  (forall e, rhu (price d) 4 <> inr (Some e)) ->
  let r := Worker.process_signal_task gen rhu fails sid w in
  raised r = true
  /\ orders (db r.2) = orders (db w)
  /\ history (db r.2) = history (db w)
  /\ queue r.2 = queue w.
Proof.
  intros Hs Hp Hrhu r.
  destruct (Worker.process_signal_task gen rhu fails sid w) as [res w'] eqn:H.
  subst r. unfold raised. cbn [fst snd].
  destruct w as [[sigs ords hist usrs] q sw]. cbn [db signals] in Hs.
  change (parse_signal (Worker.raw_message_obj
            (TradingSignal.set_status SignalStatusChoices.PROCESSING s))
          = Valid d) in Hp.
  run_task H.
  all: try (exfalso; eapply Hrhu; eassumption).
  all: try match goal with
           | Hx : Order.entry_price (clean _ _ (Worker.with_action _ (clean _ _ _)))
                  = Some _ |- _ =>
               rewrite (proj1 (proj2 (proj2 (proj2 (clean_same_terms _ _ _))))),
                 with_action_entry_price,
                 (proj1 (proj2 (proj2 (proj2 (clean_same_terms _ _ _))))) in Hx;
               cbn [Order.entry_price] in Hx; subst; exfalso;
               eapply Hrhu; reflexivity
           end.
  all: injection H as <- <-; cbn [db orders history queue].
  all: repeat split; reflexivity.
Qed.

(** X8 on the sample data: signal 3 is a SELL without price, and the
    rounding leaves an absent price absent. *)
Lemma worker_without_price_witness :
  let r := Sample.run_worker Worker.no_fault 3 Cases.world4 in
  raised r = true
  /\ orders (db r.2) = orders (db Cases.world4)
  /\ history (db r.2) = history (db Cases.world4)
  /\ queue r.2 = queue Cases.world4.
Proof.
  eapply (worker_without_price Sample.custom_id Sample.round_half_up
            Worker.no_fault 3 Cases.world4).
  - vm_compute. reflexivity.
  - vm_compute. reflexivity.
  - intros e. vm_compute. discriminate.
Defined.

(** X9: when a run of the lifecycle returns without exception, either
    the order is not stored and nothing has changed, or both transitions
    are done: the order had an entry price and is closed, the executed and
    the closed history row are appended, and the events "order.executed"
    and "order.closed" with that price are sent.  So no failure is
    swallowed: the handler for [Order.DoesNotExist] never runs. *)
Theorem lifecycle_returns gen fails pk w :
  let r := Lifecycle.simulate_order_lifecycle gen fails pk w in
  r.1 = inr tt ->
  (orders (db w) !! pk = None /\ r.2 = w)
  \/ (exists o d ev1 ev2,
        orders (db w) !! pk = Some o
        /\ Order.entry_price o = Some d
        /\ orders (db r.2)
           = <[pk := Order.set_status OrderStatus.CLOSED o]> (orders (db w))
        /\ history (db r.2) = history (db w)
             ++ [Lifecycle.status_history OrderStatus.EXECUTED "Order executed" pk;
                 Lifecycle.status_history OrderStatus.CLOSED "Order closed" pk]
        /\ queue r.2 = queue w ++ [BroadcastOrderEvent ev1; BroadcastOrderEvent ev2]
        /\ ev_type ev1 = "order.executed" /\ ev_status ev1 = "executed"
        /\ ev_type ev2 = "order.closed" /\ ev_status ev2 = "closed"
        /\ ev_entry_price ev1 = float_of_decimal d
        /\ ev_entry_price ev2 = float_of_decimal d).
Proof.
  intros r.
  destruct (Lifecycle.simulate_order_lifecycle gen fails pk w) as [res w'] eqn:H.
  subst r. cbn [fst snd]. intros ->.
  destruct w as [[sigs ords hist usrs] q sw].
  run_task H.
  all: try match goal with
           | Hx : String.eqb _ _ = true |- _ => vm_compute in Hx; discriminate Hx
           end.
  all: try discriminate.
  all: injection H as <-; cbn [db queue orders history].
  all: try (left; split; [assumption | reflexivity]).
  all: right.
  all: repeat match goal with
              | Hx : Order.entry_price (clean _ _ _) = _ |- _ =>
                  rewrite (proj1 (proj2 (proj2 (proj2
                    (clean_same_terms _ _ _))))) in Hx;
                  cbn [Order.entry_price Order.set_status] in Hx
              end.
  all: rewrite !clean_status; cbn [Order.status Order.set_status].
  all: do 2 eexists; eexists (Lifecycle.status_event _ _ _);
    eexists (Lifecycle.status_event _ _ _).
  all: split; [eassumption |]; split; [eassumption |].
  all: split; [now rewrite insert_insert_eq |].
  all: rewrite <- !app_assoc; cbn [app].
  all: split; [reflexivity |]; split; [reflexivity |].
  all: cbn [Lifecycle.status_event ev_type ev_status ev_entry_price].
  all: rewrite !clean_status; cbn [Order.status Order.set_status].
  all: repeat split; try reflexivity; congruence.
Qed.



(** X9 on the sample data: the lifecycle of order 1. *)
Lemma lifecycle_returns_witness :
  let r := Sample.run_lifecycle Lifecycle.no_fault 1 Sample.world1 in
  (orders (db Sample.world1) !! 1 = None /\ r.2 = Sample.world1)
  \/ (exists o d ev1 ev2,
        orders (db Sample.world1) !! 1 = Some o
        /\ Order.entry_price o = Some d
        /\ orders (db r.2)
           = <[1 := Order.set_status OrderStatus.CLOSED o]>
               (orders (db Sample.world1))
        /\ history (db r.2) = history (db Sample.world1)
             ++ [Lifecycle.status_history OrderStatus.EXECUTED "Order executed" 1;
                 Lifecycle.status_history OrderStatus.CLOSED "Order closed" 1]
        /\ queue r.2 = queue Sample.world1
             ++ [BroadcastOrderEvent ev1; BroadcastOrderEvent ev2]
        /\ ev_type ev1 = "order.executed" /\ ev_status ev1 = "executed"
        /\ ev_type ev2 = "order.closed" /\ ev_status ev2 = "closed"
        /\ ev_entry_price ev1 = float_of_decimal d
        /\ ev_entry_price ev2 = float_of_decimal d).
Proof.
  apply (lifecycle_returns Sample.custom_id Lifecycle.no_fault 1 Sample.world1).
  vm_compute. reflexivity.
Defined.

(** X10: when a run of the lifecycle ends by an exception, at most two
    events were sent, and the order and the history are as before, or the
    first transition alone is stored: the order is executed with its
    executed row.  The order is never closed by a run that raises. *)
Theorem lifecycle_raises gen fails pk w e :
  let r := Lifecycle.simulate_order_lifecycle gen fails pk w in
  r.1 = inl e ->
  (exists evs, queue r.2 = queue w ++ map BroadcastOrderEvent evs
               /\ (length evs <= 2)%nat)
  /\ ((orders (db r.2) = orders (db w) /\ history (db r.2) = history (db w))
      \/ (exists o,
            orders (db w) !! pk = Some o
            /\ orders (db r.2)
               = <[pk := Order.set_status OrderStatus.EXECUTED o]> (orders (db w))
            /\ history (db r.2) = history (db w)
                 ++ [Lifecycle.status_history OrderStatus.EXECUTED
                       "Order executed" pk])).
Proof.
  intros r.
  destruct (Lifecycle.simulate_order_lifecycle gen fails pk w) as [res w'] eqn:H.
  subst r. cbn [fst snd]. intros ->.
  destruct w as [[sigs ords hist usrs] q sw].
  run_task H.
  all: try match goal with
           | Hx : String.eqb _ _ = true |- _ => vm_compute in Hx; discriminate Hx
           end.
  all: try discriminate.
  all: injection H as _ <-; cbn [db queue orders history].
  all: rewrite ?clean_status; cbn [Order.status Order.set_status].
  all: split;
    [ first [ exists []; cbn [map length]; rewrite ?app_nil_r; split; [reflexivity | lia]
            | eexists [_]; cbn [map length]; rewrite <- ?app_assoc; split; [reflexivity | lia]
            | eexists [_; _]; cbn [map length]; rewrite <- ?app_assoc; split; [reflexivity | lia] ] |].
  all: try (left; split; reflexivity).
  all: right; eexists; split; [eassumption |]; split; reflexivity.
Qed.


(** X10 on the sample data: the second block fails. *)
Lemma lifecycle_raises_witness :
  let r := Sample.run_lifecycle Lifecycle.closing_fails 1 Sample.world1 in
  (exists evs, queue r.2 = queue Sample.world1 ++ map BroadcastOrderEvent evs
               /\ (length evs <= 2)%nat)
  /\ ((orders (db r.2) = orders (db Sample.world1)
       /\ history (db r.2) = history (db Sample.world1))
      \/ (exists o,
            orders (db Sample.world1) !! 1 = Some o
            /\ orders (db r.2)
               = <[1 := Order.set_status OrderStatus.EXECUTED o]>
                   (orders (db Sample.world1))
            /\ history (db r.2) = history (db Sample.world1)
                 ++ [Lifecycle.status_history OrderStatus.EXECUTED
                       "Order executed" 1])).
Proof.
  apply (lifecycle_raises Sample.custom_id Lifecycle.closing_fails 1
           Sample.world1 (Exn "OperationalError" "service unavailable")).
  vm_compute. reflexivity.
Defined.

(** X11: an order without entry price.  Every run of the lifecycle for
    it ends by an exception and leaves the database, the queue and the
    record of writes exactly as they were: the status is never changed
    and no event is sent. *)
Theorem lifecycle_without_price gen fails pk w o :
  orders (db w) !! pk = Some o ->
  Order.entry_price o = None ->
  exists e, Lifecycle.simulate_order_lifecycle gen fails pk w = (inl e, w).
Proof.
  intros Ho Hp.
  destruct (Lifecycle.simulate_order_lifecycle gen fails pk w) as [res w'] eqn:H.
  destruct w as [[sigs ords hist usrs] q sw]. cbn [db orders] in Ho.
  run_task H.
  all: try match goal with
           | Hx : String.eqb _ _ = true |- _ => vm_compute in Hx; discriminate Hx
           end.
  all: repeat match goal with
              | Hx : Order.entry_price (clean _ _ _) = _ |- _ =>
                  rewrite (proj1 (proj2 (proj2 (proj2
                    (clean_same_terms _ _ _))))) in Hx;
                  cbn [Order.entry_price Order.set_status] in Hx
              end.
  all: try congruence.
  all: injection H as <- <-; eauto.
Qed.


(** X11 on the sample data. *)
Lemma lifecycle_without_price_witness :
  exists e, Sample.run_lifecycle Lifecycle.no_fault 1 Cases.world5
            = (inl e, Cases.world5).
Proof.
  apply (lifecycle_without_price Sample.custom_id Lifecycle.no_fault 1
           Cases.world5 Cases.order_without_price).
  - vm_compute. reflexivity.
  - reflexivity.
Defined.

(** X12: the worker and the lifecycle together.  For a generator that
    gives no empty identifier, the order a run of the worker adds,
    whatever fails in that run, is pending and is stored as the lifecycle
    needs it: a run of the lifecycle for it in which nothing fails returns,
    closes the order, and the history of the run and of the worker is
    the pending, the executed and the closed row. *)
Theorem worker_then_lifecycle gen gen' rhu fails sid w pk o :
  (forall m, gen m <> "") ->
  let w1 := (Worker.process_signal_task gen rhu fails sid w).2 in
  orders (db w) !! pk = None ->
  orders (db w1) !! pk = Some o ->
  let r := Lifecycle.simulate_order_lifecycle gen' Lifecycle.no_fault pk w1 in
  r.1 = inr tt
  /\ Order.status o = OrderStatus.PENDING
  /\ orders (db r.2) = <[pk := Order.set_status OrderStatus.CLOSED o]> (orders (db w1))
  /\ history (db r.2) = history (db w)
       ++ [Worker.pending_history pk;
           Lifecycle.status_history OrderStatus.EXECUTED "Order executed" pk;
           Lifecycle.status_history OrderStatus.CLOSED "Order closed" pk].
Proof.
  intros Hgen w1 Hnone Hsome r.
  destruct (Worker.process_signal_task gen rhu fails sid w) as [r1 w'] eqn:H.
  cbn [snd] in w1. subst w1.
  destruct (worker_created_valid _ _ _ _ _ _ _ _ _ H Hgen Hnone Hsome)
    as (Hb & Hc & Hu & (d & Hd) & Hst & Hh).
  subst r. rewrite (lifecycle_run_closes gen' pk w' o d Hsome Hb Hc Hu Hd).
  cbn [fst snd]. unfold closed, set_history, set_orders.
  cbn [db orders history].
  split; [reflexivity |]. split; [exact Hst |]. split; [reflexivity |].
  rewrite Hh, <- app_assoc. reflexivity.
Qed.

(** X12 on the sample data, with the generator of the identifiers of
    orders. *)
Lemma worker_then_lifecycle_witness :
  map OrderHistory.status
    (history (db (Lifecycle.simulate_order_lifecycle
                    (UniqueId.order_custom_id Cases.today) Lifecycle.no_fault 1
                    (Worker.process_signal_task
                       (UniqueId.order_custom_id Cases.today)
                       Sample.round_half_up Worker.no_fault 1 Sample.world0).2).2))
  = [OrderStatus.PENDING; OrderStatus.EXECUTED; OrderStatus.CLOSED].
Proof.
  pose proof (worker_then_lifecycle (UniqueId.order_custom_id Cases.today)
    (UniqueId.order_custom_id Cases.today)
    Sample.round_half_up Worker.no_fault 1 Sample.world0 1
    {| Order.order_id := Some "INV0311260001"; Order.user := 7;
       Order.signal := Some 1; Order.action := Some Action.BUY;
       Order.instrument := "EURUSD"; Order.entry_price := Some 10860;
       Order.stop_loss := Some 10850; Order.take_profit := Some 10890;
       Order.status := OrderStatus.PENDING |}) as T.
  cbv zeta in T. destruct T as (_ & _ & _ & Hh).
  - intros m. apply UniqueIdFacts.generate_custom_id_nonempty.
  - vm_compute. reflexivity.
  - vm_compute. reflexivity.
  - rewrite Hh. reflexivity.
Defined.

(** An instrument of more than 20 characters does not pass. *)
Lemma long_instrument_fails (o : Order.t) :
  (20 < String.length (Order.instrument o))%nat -> clean_fields o = false.
Proof.
  intros H. unfold clean_fields, instrument_ok.
  apply Nat.leb_gt in H. rewrite H.
  now rewrite andb_false_r, !andb_false_r, ?andb_false_l.
Qed.

(** The message of such an instrument is the only one when the other
    fields pass. *)
Lemma long_instrument_errors (o : Order.t) :
  (20 < String.length (Order.instrument o))%nat ->
  order_id_ok (Order.order_id o) = true ->
  entry_price_ok (Order.entry_price o) = true ->
  price_ok (Order.stop_loss o) = true ->
  price_ok (Order.take_profit o) = true ->
  field_errors o
  = [("instrument",
      [max_length_text 20 (String.length (Order.instrument o))])].
Proof.
  intros H Hi He Hs Ht. unfold field_errors.
  rewrite (proj2 (order_id_errors_nil _) Hi),
    (proj2 (entry_price_errors_nil _) He),
    (proj2 (price_errors_nil _) Hs), (proj2 (price_errors_nil _) Ht).
  unfold instrument_errors.
  destruct (String.eqb_spec (Order.instrument o) "") as [E |].
  - rewrite E in H. cbn in H. lia.
  - apply Nat.leb_gt in H. rewrite H. reflexivity.
Qed.

(** X28: an instrument that the parser accepts and the order refuses.
    The parser accepts an instrument of any length, the order one of at
    most 20 characters.  For a stored signal whose message is accepted
    with an instrument of more than 20 characters, every run of the
    worker, whatever fails, ends by an exception, adds no order and no
    history row and sends nothing.  And when moreover the user is stored,
    [round_half_up] returns prices that pass the validators, the signal
    has no order and the generated identifier is not in use, the run that
    meets no failure raises [ValidationError] with the message of the
    instrument alone, stores this text as the error message of the
    signal, and leaves the signal in the state failed (writes:
    processing, failed). *)
Theorem worker_long_instrument gen rhu fails sid w s d :
  signals (db w) !! sid = Some s ->
  parse_signal (Worker.raw_message_obj s) = Valid d ->
  (20 < String.length (instrument d))%nat ->
  (let r := Worker.process_signal_task gen rhu fails sid w in
   raised r = true
   /\ orders (db r.2) = orders (db w)
   /\ history (db r.2) = history (db w)
   /\ queue r.2 = queue w)
  /\ (forall name e sl tp,
        users (db w) !! TradingSignal.user s = Some name ->
        rhu (price d) 4 = inr e ->
        rhu (Some (stop_loss d)) 4 = inr sl ->
        rhu (Some (take_profit d)) 4 = inr tp ->
        entry_price_ok e = true -> price_ok sl = true -> price_ok tp = true ->
        signal_taken (Some sid) (orders (db w)) = false ->
        order_id_taken (Some (gen (orders (db w)))) (orders (db w)) = false ->
        let text :=
          repr_errors
            [("instrument",
              [max_length_text 20 (String.length (instrument d))])] in
        let r := Worker.process_signal_task gen rhu Worker.no_fault sid w in
        r.1 = inl (Exn "ValidationError" text)
        /\ signals (db r.2)
           = <[sid := TradingSignal.set_error_message (Some text)
                        (TradingSignal.set_status SignalStatusChoices.FAILED s)]>
               (signals (db w))
        /\ status_writes r.2 = status_writes w
             ++ [(sid, SignalStatusChoices.PROCESSING);
                 (sid, SignalStatusChoices.FAILED)]).
Proof.
  intros Hs Hp Hlen.
  change (parse_signal (Worker.raw_message_obj
            (TradingSignal.set_status SignalStatusChoices.PROCESSING s))
          = Valid d) in Hp.
  split.
  - intros r.
    destruct (Worker.process_signal_task gen rhu fails sid w) as [res w'] eqn:H.
    subst r. unfold raised. cbn [fst snd].
    destruct w as [[sigs ords hist usrs] q sw]. cbn [db signals] in Hs.
    run_task H.
    all: try match goal with
             | Hx : clean_fields ?o && _ = true |- _ =>
                 rewrite (long_instrument_fails o) in Hx by exact Hlen;
                 discriminate Hx
             end.
    all: injection H as <- <-; cbn [db orders history queue].
    all: repeat split; reflexivity.
  - intros name e sl tp Hu He Hsl Htp Hpe Hpsl Hptp Hfree Hid text r.
    destruct (Worker.process_signal_task gen rhu Worker.no_fault sid w)
      as [res w'] eqn:H.
    subst r. cbn [fst snd].
    destruct w as [[sigs ords hist usrs] q sw].
    cbn [db signals orders users] in Hs, Hu, Hfree, Hid.
    change (usrs !! TradingSignal.user
              (TradingSignal.set_status SignalStatusChoices.PROCESSING s)
            = Some name) in Hu.
    run_task H.
    all: try match goal with
             | Hx : clean_fields ?o && _ = true |- _ =>
                 rewrite (long_instrument_fails o) in Hx by exact Hlen;
                 discriminate Hx
             end.
    all: injection H as <- <-.
    all: cbn [db signals status_writes].
    assert (T : repr_errors
                  (validation_errors gen None ords
                     {| Order.order_id := None;
                        Order.user := TradingSignal.user s;
                        Order.signal := Some sid;
                        Order.action := None;
                        Order.instrument := instrument d;
                        Order.entry_price := e;
                        Order.stop_loss := sl;
                        Order.take_profit := tp;
                        Order.status := OrderStatus.PENDING |}) = text).
    { unfold validation_errors.
      rewrite long_instrument_errors by (assumption || reflexivity).
      unfold unique_errors, clean.
      cbn [map fst is_blank Order.order_id Order.set_order_id Order.signal
           others Order.instrument].
      rewrite Hid, Hfree. reflexivity. }
    rewrite T, insert_insert_eq, <- ?app_assoc.
    repeat split; reflexivity.
Qed.
(** X28 on the sample data: the instrument of signal 1 has 21 letters. *)
Lemma worker_long_instrument_witness :
  let r := Worker.process_signal_task (UniqueId.order_custom_id Cases.today)
             Sample.round_half_up Worker.no_fault 1 Cases.world7 in
  r.1 = inl (Exn "ValidationError"
    "{'instrument': ['Ensure this value has at most 20 characters (it has 21).']}")
  /\ orders (db r.2) = ∅
  /\ signals (db r.2) !! 1
     = Some {| TradingSignal.user := 7;
               TradingSignal.account := Some 3;
               TradingSignal.raw_message := Some Cases.long_text;
               TradingSignal.status := SignalStatusChoices.FAILED;
               TradingSignal.error_message := Some
    "{'instrument': ['Ensure this value has at most 20 characters (it has 21).']}" |}.
Proof.
  destruct (worker_long_instrument (UniqueId.order_custom_id Cases.today)
    Sample.round_half_up Worker.no_fault 1 Cases.world7
    (Cases.signal_of Cases.long_text)
    {| action := "BUY"; instrument := "ABCDEFGHIJKLMNOPQRSTU";
       price := Some (S754_finite false 4890909195324359 (-52));
       stop_loss := S754_finite false 4886405595696988 (-52);
       take_profit := S754_finite false 4904419994206470 (-52) |})
    as [A B].
  - reflexivity.
  - vm_compute. reflexivity.
  - vm_compute. lia.
  - cbv zeta in A, B. destruct A as (_ & O & _).
    destruct (B "alice"%string (Some 10860) (Some 10850) (Some 10890))
      as (R & S & _); try (vm_compute; reflexivity).
    cbv zeta. split; [exact R |]. split; [exact O |].
    rewrite S. vm_compute. reflexivity.
Defined.

End TaskRuns.

(* ===================================================================== *)
(** * What every step of the pipeline keeps *)
(* ===================================================================== *)

Module InvariantFacts.
Import Runtime Orm Properties OrmFacts TaskFacts Invariants.

Lemma same_messages_refl m : same_messages m m.
Proof. intros k. destruct (m !! k); [now repeat split | exact I]. Qed.

(** Writing a row with the same message over a stored one. *)
Lemma same_messages_insert m m' k a b :
  same_messages m m' -> m !! k = Some a -> same_message a b ->
  same_messages m (<[k := b]> m').
Proof.
  intros H Hk Hab j. destruct (decide (j = k)) as [-> | N].
  - now rewrite Hk, lookup_insert_eq.
  - rewrite lookup_insert_ne by congruence. apply H.
Qed.

(** The worker for a signal that is not stored raises and changes
    nothing. *)
Lemma worker_missing_signal gen rhu fails sid w :
  signals (db w) !! sid = None ->
  exists e, Worker.process_signal_task gen rhu fails sid w = (inl e, w).
Proof.
  intros Hs.
  destruct (Worker.process_signal_task gen rhu fails sid w) as [r w'] eqn:H.
  destruct w as [[sigs ords hist usrs] q sw]. cbn [db signals] in Hs.
  run_task H.
  all: injection H as <- <-; eauto.
Qed.

(** The worker writes the status and the error message of signals, and
    nothing else of them. *)
Lemma worker_signals_outcome gen rhu fails sid w r w' :
  Worker.process_signal_task gen rhu fails sid w = (r, w') ->
  same_messages (signals (db w)) (signals (db w')).
Proof.
  intros H. destruct w as [[sigs ords hist usrs] q sw].
  run_task H.
  all: injection H as <- <-; cbn [db signals].
  all: repeat (eapply same_messages_insert;
               [| eassumption | now repeat split]).
  all: apply same_messages_refl.
Qed.

Lemma receive_signals_outcome f1 f2 user account message w r w' :
  Worker.receive_signal f1 f2 user account message w = (r, w') ->
  (forall k, is_Some (signals (db w) !! k) -> is_Some (signals (db w') !! k))
  /\ history (db w') = history (db w)
  /\ users (db w') = users (db w)
  /\ queue w `prefix_of` queue w'
  /\ status_writes w `prefix_of` status_writes w'.
Proof.
  intros H. destruct w as [[sigs ords hist usrs] q sw].
  run_task H.
  all: injection H as <- <-; cbn [db signals history users queue status_writes].
  all: repeat split; try reflexivity; try (now apply prefix_app_r); try done.
  all: intros k Hk; destruct (decide (k = next_pk sigs)) as [-> | N];
    [ rewrite lookup_insert_eq; eauto
    | now rewrite lookup_insert_ne by congruence ].
Qed.

Lemma same_messages_keeps m m' k :
  same_messages m m' -> is_Some (m !! k) -> is_Some (m' !! k).
Proof.
  intros H [a Ha]. specialize (H k). rewrite Ha in H.
  destruct (m' !! k); [eauto | contradiction].
Qed.

Lemma insert_keeps {A} (m : gmap Z A) pk o k :
  is_Some (m !! k) -> is_Some (<[pk := o]> m !! k).
Proof.
  intros Hk. destruct (decide (k = pk)) as [-> | N].
  - rewrite lookup_insert_eq. eauto.
  - now rewrite lookup_insert_ne by congruence.
Qed.

(** A run of the worker takes nothing back. *)
Lemma worker_extends gen rhu fails sid w :
  extends w (Worker.process_signal_task gen rhu fails sid w).2.
Proof.
  destruct (Worker.process_signal_task gen rhu fails sid w) as [r w'] eqn:H.
  cbn [snd].
  pose proof (worker_signals_outcome _ _ _ _ _ _ _ H) as Hm.
  destruct (worker_writes_outcome _ _ _ _ _ _ _ H) as (l & Hw & _).
  destruct (worker_outcome _ _ _ _ _ _ _ H) as [Hu Hcases].
  split; [intros k; now apply same_messages_keeps |].
  assert (Hsw : status_writes w `prefix_of` status_writes w')
    by (rewrite Hw; now apply prefix_app_r).
  destruct Hcases as [(Ho & Hh & Hq) | (pk & o & d & _ & _ & Ho & _ & _ & _ & Hh & Hq)].
  - rewrite Ho, Hh. repeat split; try done.
    destruct Hq as [-> | [(ev & ->) | [(ev & ->) | (ev & pk & ->)]]];
      try done; now apply prefix_app_r.
  - rewrite Ho, Hh, Hq. repeat split; try done.
    + intros k. apply insert_keeps.
    + now apply prefix_app_r.
    + now apply prefix_app_r.
Qed.

(** A run of the lifecycle takes nothing back. *)
Lemma lifecycle_extends (a : Advance) (w : World) : extends w (advance a w).
Proof.
  unfold advance.
  destruct (Lifecycle.simulate_order_lifecycle _ _ _ w) as [r w'] eqn:H.
  cbn [snd].
  destruct (lifecycle_outcome _ _ _ _ _ _ H)
    as (Hs & Hu & Hw & (evs & Hq) & Hcases).
  split; [now rewrite Hs |].
  assert (Q : queue w `prefix_of` queue w') by (rewrite Hq; now apply prefix_app_r).
  destruct Hcases as [[Ho Hh] | [(o & _ & Ho & Hh) | (o & _ & Ho & Hh)]];
    rewrite Ho, Hh, Hw; repeat split; try done;
    try (intros k; apply insert_keeps); now apply prefix_app_r.
Qed.

(** X13: no step of the pipeline takes anything back.  After a signal is
    received, or the worker or the lifecycle has run, with whatever
    failures, every signal and every order is still stored, the history,
    the queue and the record of status values have only grown at their
    end, and the users are the same. *)
Theorem step_extends rhu (w w' : World) :
  step rhu w w' -> extends w w'.
Proof.
  intros [w0 f1 f2 user account message | w0 gen fails sid | w0 a].
  - destruct (Worker.receive_signal f1 f2 user account message w0)
      as [r w1] eqn:H.
    cbn [snd].
    destruct (receive_signals_outcome _ _ _ _ _ _ _ _ H)
      as (Hs & Hh & Hu & Hq & Hw).
    unfold extends. rewrite (receive_outcome _ _ _ _ _ _ _ _ H), Hh.
    repeat split; done.
  - apply worker_extends.
  - apply lifecycle_extends.
Qed.

(** X13 on the sample data: the worker run for signal 1. *)
Lemma step_extends_witness :
  extends Sample.world0 Sample.world1.
Proof.
  apply (step_extends Sample.round_half_up).
  exact (step_process Sample.round_half_up Sample.world0 Sample.custom_id
           Worker.no_fault 1).
Defined.

(** X14: the references between the tables are kept by every step of the
    pipeline: when every history row belongs to a stored order and the
    signal of every order is stored, the same holds after the step. *)
Theorem step_keeps_references rhu (w w' : World) :
  step rhu w w' ->
  history_refers (db w) -> orders_refer (db w) ->
  history_refers (db w') /\ orders_refer (db w').
Proof.
  intros Hstep Hh Ho.
  destruct Hstep as [w0 f1 f2 user account message | w0 gen fails sid | w0 a].
  - destruct (Worker.receive_signal f1 f2 user account message w0)
      as [r w1] eqn:H.
    cbn [snd].
    destruct (receive_signals_outcome _ _ _ _ _ _ _ _ H)
      as (Hs & Hhist & _).
    pose proof (receive_outcome _ _ _ _ _ _ _ _ H) as Hord.
    split.
    + intros h Hin. rewrite Hord. apply Hh. now rewrite <- Hhist.
    + intros k o s Hk Hsig. rewrite Hord in Hk. apply Hs. now apply (Ho k o s).
  - destruct (Worker.process_signal_task gen rhu fails sid w0) as [r w1] eqn:H.
    cbn [snd].
    pose proof (worker_signals_outcome _ _ _ _ _ _ _ H) as Hm.
    destruct (worker_outcome _ _ _ _ _ _ _ H)
      as [_ [(Hord & Hhist & _)
            | (pk & o & d & Hfresh & _ & Hord & _ & Hsig & _ & Hhist & _)]].
    + split.
      * intros h Hin. rewrite Hord. apply Hh. now rewrite <- Hhist.
      * intros k o s Hk Hsig. rewrite Hord in Hk.
        apply (same_messages_keeps _ _ _ Hm). now apply (Ho k o s).
    + split.
      * intros h Hin. rewrite Hord. rewrite Hhist in Hin.
        apply elem_of_app in Hin as [Hin | Hin].
        -- apply insert_keeps. now apply Hh.
        -- apply list_elem_of_singleton in Hin as ->.
           cbn [Worker.pending_history OrderHistory.order].
           rewrite lookup_insert_eq. eauto.
      * intros k o' s Hk Hs. rewrite Hord in Hk.
        apply (same_messages_keeps _ _ _ Hm).
        destruct (decide (k = pk)) as [-> | N].
        -- rewrite lookup_insert_eq in Hk. injection Hk as <-.
           assert (s = sid) as -> by congruence.
           destruct (signals (db w0) !! sid) as [x |] eqn:E; [eauto |].
           destruct (worker_missing_signal gen rhu fails sid w0 E) as [e He].
           rewrite He in H. injection H as _ <-.
           rewrite Hord, lookup_insert_eq in Hfresh.
           discriminate.
        -- rewrite lookup_insert_ne in Hk by congruence. now apply (Ho k o' s).
  - unfold advance.
    destruct (Lifecycle.simulate_order_lifecycle _ _ _ w0) as [r w1] eqn:H.
    cbn [snd].
    destruct (lifecycle_outcome _ _ _ _ _ _ H)
      as (Hs & _ & _ & _ & Hcases).
    assert (G : forall o0 st rows,
      orders (db w0) !! adv_order a = Some o0 ->
      orders (db w1) = <[adv_order a := Order.set_status st o0]> (orders (db w0)) ->
      history (db w1) = history (db w0) ++ rows ->
      (forall h, h ∈ rows -> OrderHistory.order h = adv_order a) ->
      history_refers (db w1) /\ orders_refer (db w1)).
    { intros o0 st rows H0 Hord Hhist Hrows. split.
      - intros h Hin. rewrite Hord. rewrite Hhist in Hin.
        apply elem_of_app in Hin as [Hin | Hin].
        + apply insert_keeps. now apply Hh.
        + rewrite (Hrows h Hin), lookup_insert_eq. eauto.
      - intros k o' s Hk Hsig. rewrite Hord in Hk. rewrite Hs.
        destruct (decide (k = adv_order a)) as [-> | N].
        + rewrite lookup_insert_eq in Hk. injection Hk as <-.
          now apply (Ho (adv_order a) o0 s).
        + rewrite lookup_insert_ne in Hk by congruence. now apply (Ho k o' s). }
    destruct Hcases as [[Hord Hhist] | [(o0 & H0 & Hord & Hhist) | (o0 & H0 & Hord & Hhist)]].
    + split.
      * intros h Hin. rewrite Hord. apply Hh. now rewrite <- Hhist.
      * intros k o s Hk Hsig. rewrite Hord in Hk. rewrite Hs. now apply (Ho k o s).
    + apply (G o0 _ _ H0 Hord Hhist).
      intros h Hin. apply list_elem_of_singleton in Hin as ->. reflexivity.
    + apply (G o0 _ _ H0 Hord Hhist).
      intros h Hin. apply elem_of_cons in Hin as [-> | Hin]; [reflexivity |].
      apply list_elem_of_singleton in Hin as ->. reflexivity.
Qed.

(** X14 on the sample data: the worker run for signal 1. *)
Lemma step_keeps_references_witness :
  history_refers (db Sample.world1) /\ orders_refer (db Sample.world1).
Proof.
  apply (step_keeps_references Sample.round_half_up Sample.world0).
  - exact (step_process Sample.round_half_up Sample.world0 Sample.custom_id
             Worker.no_fault 1).
  - intros h Hin. cbn in Hin. now apply elem_of_nil in Hin.
  - intros k o s Hk. cbn in Hk. now rewrite lookup_empty in Hk.
Defined.

Lemma receive_keeps_rows f1 f2 user account message w r w' k a :
  Worker.receive_signal f1 f2 user account message w = (r, w') ->
  signals (db w) !! k = Some a -> signals (db w') !! k = Some a.
Proof.
  intros H Hk. destruct w as [[sigs ords hist usrs] q sw]. cbn [db signals] in Hk.
  run_task H.
  all: injection H as <- <-; cbn [db signals]; try exact Hk.
  all: rewrite lookup_insert_ne; [exact Hk |].
  all: intros <-; rewrite next_pk_fresh in Hk; discriminate.
Qed.

(** X15: the message of a signal is never rewritten.  After any step of
    the pipeline a stored signal is still stored with its user, its account
    and its raw message; the steps write its status and its error message
    only. *)
Theorem step_keeps_messages rhu (w w' : World) (k : Z) (a : TradingSignal.t) :
  step rhu w w' ->
  signals (db w) !! k = Some a ->
  exists b, signals (db w') !! k = Some b /\ same_message a b.
Proof.
  intros [w0 f1 f2 user account message | w0 gen fails sid | w0 adv] Hk.
  - destruct (Worker.receive_signal f1 f2 user account message w0)
      as [r w1] eqn:H.
    cbn [snd]. exists a. split; [| now repeat split].
    now apply (receive_keeps_rows _ _ _ _ _ _ _ _ _ _ H).
  - destruct (Worker.process_signal_task gen rhu fails sid w0) as [r w1] eqn:H.
    cbn [snd].
    pose proof (worker_signals_outcome _ _ _ _ _ _ _ H k) as Hm.
    rewrite Hk in Hm.
    destruct (signals (db w1) !! k) as [b |]; [eauto | contradiction].
  - unfold advance.
    destruct (Lifecycle.simulate_order_lifecycle _ _ _ w0) as [r w1] eqn:H.
    cbn [snd].
    destruct (lifecycle_outcome _ _ _ _ _ _ H) as (Hs & _).
    rewrite Hs. exists a. split; [exact Hk | now repeat split].
Qed.

(** X15 on the sample data: signal 1 after its run of the worker. *)
Lemma step_keeps_messages_witness :
  exists b, signals (db Sample.world1) !! 1 = Some b
            /\ same_message Sample.signal1 b.
Proof.
  apply (step_keeps_messages Sample.round_half_up Sample.world0).
  - exact (step_process Sample.round_half_up Sample.world0 Sample.custom_id
             Worker.no_fault 1).
  - reflexivity.
Defined.

End InvariantFacts.

(* ===================================================================== *)
(** * The responses *)
(* ===================================================================== *)

Module FormatterFacts.
Import Formatters.
Local Open Scope string_scope.

Local Open Scope string_scope.

Lemma get_set_eq key value d : get key (set key value d) = Some value.
Proof.
  induction d as [| [k v] d IH]; cbn [set get].
  - now rewrite String.eqb_refl.
  - destruct (String.eqb k key) eqn:E; cbn [get]; rewrite E; [reflexivity | exact IH].
Qed.

Lemma get_set_ne key key' value d :
  key <> key' -> get key' (set key value d) = get key' d.
Proof.
  intros Hne. induction d as [| [k v] d IH]; cbn [set get].
  - apply String.eqb_neq in Hne. now rewrite Hne.
  - destruct (String.eqb k key) eqn:E; cbn [get].
    + apply String.eqb_eq in E as ->.
      apply String.eqb_neq in Hne. now rewrite Hne.
    + now rewrite IH.
Qed.

Lemma remove_absent key d : get key d = None -> remove key d = d.
Proof.
  induction d as [| [k v] d IH]; [reflexivity |]. cbn [get remove].
  destruct (String.eqb k key); [discriminate |]. intros H. now rewrite IH.
Qed.

(** X21: the response of [response_formatter] for a template that has a
    status.  The status of the response is the status of the template,
    whatever the payload holds; every key of the template other than
    "message" and "data" keeps its value; a payload that is absent or
    empty leaves the template as the body; otherwise the payload without
    its message is under "data", and the message is that of the payload if
    it has one and that of the template if not. *)
Theorem response_formatter_spec (code_object : Dict) (data : option Dict)
    (s : Value) :
  get "status" code_object = Some s ->
  exists response,
    response_formatter code_object data = inr response
    /\ status response = s
    /\ (forall key, key <> "message" -> key <> "data" ->
                    get key (body response) = get key code_object)
    /\ match data with
       | Some (entry :: rest) =>
           get "data" (body response)
           = Some (VDict (remove "message" (entry :: rest)))
           /\ get "message" (body response)
              = match get "message" (entry :: rest) with
                | Some message => Some message
                | None => get "message" code_object
                end
       | _ => body response = code_object
       end.
Proof.
  intros Hs. unfold response_formatter.
  assert (K : forall key, key <> "message" -> key <> "data" ->
                get key (inject_data_to_code_object code_object data)
                = get key code_object).
  { intros key Hm Hd. unfold inject_data_to_code_object.
    destruct data as [[| entry rest] |]; try reflexivity.
    destruct (get "message" (entry :: rest)).
    - rewrite !get_set_ne by congruence. reflexivity.
    - rewrite get_set_ne by congruence. reflexivity. }
  rewrite (K "status") by discriminate. rewrite Hs.
  eexists. split; [reflexivity |]. cbn [status body].
  split; [reflexivity |]. split; [exact K |].
  unfold inject_data_to_code_object.
  destruct data as [[| entry rest] |]; try reflexivity.
  destruct (get "message" (entry :: rest)) as [message |] eqn:M.
  - split; [apply get_set_eq |].
    rewrite get_set_ne by discriminate. apply get_set_eq.
  - rewrite (remove_absent _ _ M). split; [apply get_set_eq |].
    now rewrite get_set_ne by discriminate.
Qed.

(** X21 at the response for a request without message. *)
Lemma response_formatter_spec_witness :
  exists response,
    response_formatter BAD_REQUEST_USER_ERROR
      (Some [("message", VStr "Signal message is required")]) = inr response
    /\ status response = VInt 400
    /\ get "data" (body response) = Some (VDict [])
    /\ get "message" (body response) = Some (VStr "Signal message is required").
Proof.
  destruct (response_formatter_spec BAD_REQUEST_USER_ERROR
              (Some [("message", VStr "Signal message is required")])
              (VInt 400) eq_refl) as (response & E & S & _ & D & M).
  exists response. repeat split; assumption.
Defined.

End FormatterFacts.

(* ===================================================================== *)
(** * The webhook *)
(* ===================================================================== *)

Module ViewFacts.
Import Runtime Orm Properties OrmFacts TaskFacts Formatters View ParserCaptures
  Outcomes.

Lemma filter_single {A} (P : Z * A -> bool) (m : gmap Z A) (x : Z * A) :
  List.filter P (map_to_list m) = [x] -> m !! x.1 = Some x.2 /\ P x = true.
Proof.
  intros H.
  assert (Hin : In x (List.filter P (map_to_list m))) by (rewrite H; now left).
  apply filter_In in Hin as [Hin HP]. split; [| exact HP].
  apply elem_of_map_to_list. destruct x. now apply list_elem_of_In.
Qed.

(** X22: what a request to the webhook does, by its response.  The view
    never raises; its response is 400, 500 or 200.  With 400 nothing has
    changed.  With 500 no order, no history row and no task is added, and
    the signals are as before or one signal is added that no task was sent
    for.  With 200 the request had a key whose hash is that of a stored
    account and a message that is not empty, one pending signal of that
    account and its user with that message is added under a new key, and
    the worker is enqueued for it, once. *)
Theorem post_outcome hash accounts fails request w :
  let r := View.post hash accounts fails request w in
  exists response,
    r.1 = inr response
    /\ ((status response = VInt 400 /\ r.2 = w)
        \/ (status response = VInt 500
            /\ orders (db r.2) = orders (db w)
            /\ history (db r.2) = history (db w)
            /\ queue r.2 = queue w
            /\ (signals (db r.2) = signals (db w)
                \/ exists pk row, signals (db w) !! pk = None
                     /\ signals (db r.2) = <[pk := row]> (signals (db w))))
        \/ (status response = VInt 200
            /\ exists key pk account_pk account message,
                 x_api_key request = Some key /\ key <> ""%string
                 /\ accounts !! account_pk = Some account
                 /\ BrokerAccount.api_key_hash account = Some (hash key)
                 /\ message_of request = Some message /\ message <> ""%string
                 /\ signals (db w) !! pk = None
                 /\ signals (db r.2)
                    = <[pk := new_signal account_pk account message]>
                        (signals (db w))
                 /\ orders (db r.2) = orders (db w)
                 /\ history (db r.2) = history (db w)
                 /\ queue r.2 = queue w ++ [ProcessSignal pk])).
Proof.
  intros r.
  destruct (View.post hash accounts fails request w) as [res w'] eqn:H.
  subst r. cbn [fst snd].
  destruct w as [[sigs ords hist usrs] q sw].
  unfold_view H.
  run_task H.
  all: injection H as <- <-; eexists; (split; [reflexivity |]).
  all: cbn [status db orders history queue signals].
  all: try (left; split; reflexivity).
  all: try (right; left; repeat split; try reflexivity; now left).
  all: try (right; left; repeat split; try reflexivity; right;
            eexists _, _; split; [apply next_pk_fresh | reflexivity]).
  all: right; right; split; [reflexivity |].
  all: match goal with
       | Hf : List.filter _ _ = [(?k, ?a)] |- _ =>
           destruct (filter_single _ _ _ Hf) as [Ha Hh];
           apply bool_decide_eq_true in Hh; cbn [fst snd] in Ha, Hh;
           eexists _, (next_pk sigs), k, a, _
       end.
  all: repeat split; try reflexivity; try eassumption;
    try (now apply String.eqb_neq); apply next_pk_fresh.
Qed.

Lemma filter_unique {A} (P : Z * A -> bool) (m : gmap Z A) (k : Z) (a : A) :
  m !! k = Some a -> P (k, a) = true ->
  (forall k' a', m !! k' = Some a' -> P (k', a') = true -> k' = k) ->
  List.filter P (map_to_list m) = [(k, a)].
Proof.
  intros Hk HP Huniq.
  assert (Hin : In (k, a) (List.filter P (map_to_list m))).
  { apply filter_In. split; [| exact HP].
    apply list_elem_of_In. now apply elem_of_map_to_list. }
  assert (Hlen : (length (List.filter P (map_to_list m)) <= 1)%nat).
  { apply filter_at_most_one; [apply NoDup_fst_map_to_list |].
    intros [k1 a1] [k2 a2] H1 H2 P1 P2. cbn [fst].
    apply elem_of_map_to_list in H1, H2.
    rewrite (Huniq k1 a1 H1 P1). symmetry. now apply (Huniq k2 a2 H2 P2). }
  destruct (List.filter P (map_to_list m)) as [| y [| z l]];
    [contradiction | | cbn in Hlen; lia].
  destruct Hin as [-> | []]. reflexivity.
Qed.

Lemma filter_two {A} (P : A -> bool) (l : list A) (x y : A) :
  In x l -> In y l -> x <> y -> P x = true -> P y = true ->
  exists a b rest, List.filter P l = a :: b :: rest.
Proof.
  intros Hx Hy Hne Px Py.
  assert (Ix : In x (List.filter P l)) by (apply filter_In; now split).
  assert (Iy : In y (List.filter P l)) by (apply filter_In; now split).
  destruct (List.filter P l) as [| a [| b rest]].
  - contradiction.
  - destruct Ix as [<- | []], Iy as [<- | []]. congruence.
  - eauto.
Qed.

(** The webhook for a request it accepts, nothing failing. *)
Lemma post_run_accepts hash accounts request w key account_pk account message name :
  x_api_key request = Some key -> key <> ""%string ->
  accounts !! account_pk = Some account ->
  BrokerAccount.api_key_hash account = Some (hash key) ->
  (forall k a, accounts !! k = Some a ->
               BrokerAccount.api_key_hash a = Some (hash key) -> k = account_pk) ->
  PyStr.startswith (PyStr.of_string "text/plain")
    (PyStr.of_string (content_type request)) = true ->
  message_of request = Some message -> message <> ""%string ->
  users (db w) !! BrokerAccount.user account = Some name ->
  View.post hash accounts View.no_fault request w
  = (inr accepted_response, received account_pk account message w).
Proof.
  intros Hkey Hne Hacc Hhash Huniq Hct Hmsg Hmne Huser.
  destruct (View.post hash accounts View.no_fault request w) as [res w'] eqn:H.
  destruct w as [[sigs ords hist usrs] q sw]. cbn [db users signals] in *.
  pose proof (filter_unique
    (fun kv => bool_decide (BrokerAccount.api_key_hash kv.2 = Some (hash key)))
    accounts account_pk account Hacc
    ltac:(now apply bool_decide_eq_true)
    ltac:(intros k a Hk Hb; apply bool_decide_eq_true in Hb;
          now apply (Huniq k a))) as Hf.
  apply String.eqb_neq in Hne, Hmne.
  unfold_view H. rewrite Hkey in H. cbn [falsy] in H. rewrite Hne in H.
  cbn [negb] in H.
  run_task H.
  all: try congruence.
  all: try match goal with
           | Hx : negb _ = true |- _ => rewrite Hct in Hx; discriminate Hx
           end.
  all: match goal with
       | Hx : _ :: _ = [_] |- _ => injection Hx as Hx1 Hx2; subst
       | _ => idtac
       end.
  all: try match goal with
         | Hx : (?z, ?t) = (_, _) |- _ => injection Hx as -> ->
         end.
  all: try congruence.
  all: injection H as <- <-.
  all: unfold received, View.new_signal, set_signals;
    cbn [db signals queue status_writes orders history users].
  all: repeat f_equal; congruence.
Qed.


(** X23: when the request has a key whose hash belongs to one account
    and to no other, a content type that starts with text/plain and a
    message that is not empty, and the user of the account is stored, the
    view, nothing failing, answers 200 with the message "Signal received",
    stores the pending signal under the next key and enqueues the worker
    for it. *)
Theorem post_accepts hash accounts request w key account_pk account message name :
  x_api_key request = Some key -> key <> ""%string ->
  accounts !! account_pk = Some account ->
  BrokerAccount.api_key_hash account = Some (hash key) ->
  (forall k a, accounts !! k = Some a ->
               BrokerAccount.api_key_hash a = Some (hash key) -> k = account_pk) ->
  PyStr.startswith (PyStr.of_string "text/plain")
    (PyStr.of_string (content_type request)) = true ->
  message_of request = Some message -> message <> ""%string ->
  users (db w) !! BrokerAccount.user account = Some name ->
  let r := View.post hash accounts View.no_fault request w in
  let pk := next_pk (signals (db w)) in
  r.1 = inr {| body := [("status", VInt 200); ("message", VStr "Signal received");
                        ("client", VStr "user");
                        ("data", VDict [("info", VStr "Signal Received and processing")]);
                        ("links", VNone)];
               status := VInt 200 |}
  /\ signals (db r.2)
     = <[pk := new_signal account_pk account message]> (signals (db w))
  /\ queue r.2 = queue w ++ [ProcessSignal pk]
  /\ status_writes r.2 = status_writes w ++ [(pk, SignalStatusChoices.PENDING)].
Proof.
  intros Hkey Hne Hacc Hhash Huniq Hct Hmsg Hmne Huser r pk.
  subst r pk.
  rewrite (post_run_accepts hash accounts request w key account_pk account
             message name) by assumption.
  cbn [fst snd]. unfold received, set_signals.
  cbn [db signals queue status_writes].
  repeat split; reflexivity.
Qed.

(** X24: two accounts with the hash of the key.  [objects.get] then
    raises, which is no [DoesNotExist]: whatever the request holds
    otherwise, the view answers 500 and nothing is stored or sent, so the
    key is of no use to either account. *)
Theorem post_ambiguous_key hash accounts fails request w key k1 k2 a1 a2 :
  x_api_key request = Some key -> key <> ""%string ->
  k1 <> k2 ->
  accounts !! k1 = Some a1 -> accounts !! k2 = Some a2 ->
  BrokerAccount.api_key_hash a1 = Some (hash key) ->
  BrokerAccount.api_key_hash a2 = Some (hash key) ->
  View.post hash accounts fails request w
  = (inr {| body := INTERNAL_SERVER_ERROR; status := VInt 500 |}, w).
Proof.
  intros Hkey Hne Hk H1 H2 G1 G2.
  destruct (filter_two
    (fun kv : Z * BrokerAccount.t =>
       bool_decide (BrokerAccount.api_key_hash kv.2 = Some (hash key)))
    (map_to_list accounts) (k1, a1) (k2, a2))
    as (x & y & rest & Hf).
  { apply list_elem_of_In. now apply elem_of_map_to_list. }
  { apply list_elem_of_In. now apply elem_of_map_to_list. }
  { congruence. }
  { now apply bool_decide_eq_true. }
  { now apply bool_decide_eq_true. }
  destruct (View.post hash accounts fails request w) as [res w'] eqn:H.
  destruct w as [[sigs ords hist usrs] q sw].
  apply String.eqb_neq in Hne.
  unfold_view H. rewrite Hkey in H. cbn [falsy] in H. rewrite Hne in H.
  cbn [negb] in H.
  run_task H.
  all: try congruence.
  all: injection H as <- <-; reflexivity.
Qed.

(** X25: the message stored for a text body.  When the view answers 200
    to a request whose body is a text, the new signal holds the body
    without the white space around it, which is not empty; it is pending;
    the parser does not refuse it as "Empty message"; and the last task of
    the queue is the worker for it. *)
Theorem post_stores_stripped hash accounts fails request w s response :
  data request = Text s ->
  let r := View.post hash accounts fails request w in
  r.1 = inr response -> status response = VInt 200 ->
  exists pk row,
    signals (db w) !! pk = None
    /\ signals (db r.2) !! pk = Some row
    /\ TradingSignal.raw_message row
       = Some (PyStr.to_string (PyStr.strip (PyStr.of_string s)))
    /\ PyStr.strip (PyStr.of_string s) <> []
    /\ TradingSignal.status row = SignalStatusChoices.PENDING
    /\ SignalParser.parse_signal (Worker.raw_message_obj row)
       <> SignalParser.Invalid "Empty message"
    /\ last (queue r.2) = Some (ProcessSignal pk).
Proof.
  intros Hd r.
  destruct (View.post hash accounts fails request w) as [res w'] eqn:H.
  subst r. cbn [fst snd]. intros -> Hst.
  destruct w as [[sigs ords hist usrs] q sw].
  unfold_view H. unfold message_of in H. rewrite Hd in H.
  run_task H.
  all: injection H as <- <-; cbn [status] in Hst; try discriminate.
  all: cbn [db signals queue].
  all: exists (next_pk sigs); eexists.
  all: split; [apply next_pk_fresh |].
  all: split; [apply lookup_insert_eq |].
  all: cbn [TradingSignal.raw_message TradingSignal.status Worker.raw_message_obj].
  all: match goal with
       | Hx : String.eqb ?m "" = false |- _ =>
           apply String.eqb_neq in Hx;
           assert (Hn : PyStr.strip (PyStr.of_string s) <> [])
             by (intros E; apply Hx; now rewrite E)
       end.
  all: split; [reflexivity |]; split; [exact Hn |]; split; [reflexivity |].
  all: split; [| now rewrite last_snoc].
  all: intros E; apply parse_empty_message in E.
  all: unfold SignalParser.as_message in E.
  all: change (PyStr.of_string (PyStr.to_string ?t))
         with (list_ascii_of_string (string_of_list_ascii t)) in E.
  all: rewrite list_ascii_of_string_of_list_ascii in E.
  all: destruct (PyStr.strip (PyStr.of_string s)); [congruence | discriminate].
Qed.

(** X23 on the sample data. *)
Lemma post_accepts_witness :
  let r := View.post Cases.digest Cases.accounts View.no_fault Cases.request1
             Sample.world0 in
  signals (db r.2) !! 2 = Some (new_signal 3 Cases.account_alice Sample.buy_text)
  /\ queue r.2 = [ProcessSignal 2].
Proof.
  pose proof (post_accepts Cases.digest Cases.accounts Cases.request1
    Sample.world0 "key-of-alice" 3 Cases.account_alice Sample.buy_text "alice")
    as T.
  cbv zeta in T. destruct T as (_ & S & Q & _).
  - reflexivity.
  - discriminate.
  - reflexivity.
  - reflexivity.
  - intros k a Hk _. unfold Cases.accounts in Hk.
    apply lookup_singleton_Some in Hk as [<- _]. reflexivity.
  - vm_compute. reflexivity.
  - vm_compute. reflexivity.
  - vm_compute. discriminate.
  - reflexivity.
  - cbv zeta. rewrite S, Q. split; [| reflexivity].
    vm_compute. reflexivity.
Defined.

(** X24 on the sample data. *)
Lemma post_ambiguous_key_witness :
  View.post Cases.digest Cases.twin_accounts View.no_fault Cases.request1
    Sample.world0
  = (inr {| body := INTERNAL_SERVER_ERROR; status := VInt 500 |}, Sample.world0).
Proof.
  apply (post_ambiguous_key Cases.digest Cases.twin_accounts View.no_fault
           Cases.request1 Sample.world0 "key-of-alice" 3 4 Cases.account_alice
           {| BrokerAccount.user := 8;
              BrokerAccount.api_key_hash := Some (Cases.digest "key-of-alice") |}).
  - reflexivity.
  - discriminate.
  - lia.
  - vm_compute. reflexivity.
  - vm_compute. reflexivity.
  - reflexivity.
  - reflexivity.
Defined.

(** X25 on the sample data. *)
Lemma post_stores_stripped_witness :
  exists pk row,
    signals (db Sample.world0) !! pk = None
    /\ signals (db (View.post Cases.digest Cases.accounts View.no_fault
                      Cases.request1 Sample.world0).2) !! pk = Some row
    /\ TradingSignal.raw_message row = Some Sample.buy_text.
Proof.
  destruct (post_stores_stripped Cases.digest Cases.accounts View.no_fault
    Cases.request1 Sample.world0
    (String.append "  " (String.append Sample.buy_text (String PyStr.nl "")))
    {| body := [("status", VInt 200); ("message", VStr "Signal received");
                ("client", VStr "user");
                ("data", VDict [("info", VStr "Signal Received and processing")]);
                ("links", VNone)];
       status := VInt 200 |})
    as (pk & row & H1 & H2 & H3 & _).
  - reflexivity.
  - vm_compute. reflexivity.
  - reflexivity.
  - exists pk, row. split; [exact H1 |]. split; [exact H2 |].
    rewrite H3. vm_compute. reflexivity.
Defined.

End ViewFacts.
(* ===================================================================== *)
(** * From the webhook to the closed order *)
(* ===================================================================== *)

Module EndToEnd.
Import Runtime Orm Properties OrmFacts TaskFacts SignalParser TaskRuns Outcomes
  Invariants ViewFacts.

(** The signal of no order is a signal that is not stored, when the
    signals of the orders are stored. *)
Lemma fresh_signal_free (d : DB) (sid : Z) :
  orders_refer d -> signals d !! sid = None ->
  signal_taken (Some sid) (orders d) = false.
Proof.
  intros Href Hnone. apply not_true_is_false. intros H.
  unfold signal_taken in H. apply existsb_exists in H as ([k o] & Hin & Hb).
  apply bool_decide_eq_true in Hb. cbn [snd] in Hb.
  apply list_elem_of_In, elem_of_map_to_list in Hin.
  destruct (Href k o sid Hin Hb) as [x Hx]. congruence.
Qed.



(** X27: the pipeline from end to end.  A request that the webhook
    accepts (one account for the key, text/plain, a message that is not
    empty, the user of the account stored); the parser accepts the message
    with a price; [round_half_up] returns the three rounded prices; the
    instrument passes the validators of the order (not blank, at most 20
    characters) and so do the rounded prices (at most 19 digits, the
    stop-loss and the take-profit present and not negative); the signal of
    every stored order is stored;
    and the generated identifier is not empty, not longer than 50 and not
    in use.  Then the webhook, the worker for the new signal and the
    lifecycle for the new order, meeting no failure of the database or the
    broker, all return; the signal is stored in the state success; the
    order is stored closed with the action, the instrument and the rounded
    prices of the message; its history is pending, executed, closed; the
    five messages were sent in this order; and the status values written
    to the signal are pending, processing, success. *)
Theorem pipeline_end_to_end hash accounts request w key account_pk account
    message name gen rhu d e sl tp a :
  View.x_api_key request = Some key -> key <> ""%string ->
  accounts !! account_pk = Some account ->
  BrokerAccount.api_key_hash account = Some (hash key) ->
  (forall k a, accounts !! k = Some a ->
               BrokerAccount.api_key_hash a = Some (hash key) -> k = account_pk) ->
  PyStr.startswith (PyStr.of_string "text/plain")
    (PyStr.of_string (View.content_type request)) = true ->
  View.message_of request = Some message -> message <> ""%string ->
  users (db w) !! BrokerAccount.user account = Some name ->
  parse_signal (PStr message) = Valid d ->
  rhu (price d) 4 = inr (Some e) ->
  rhu (Some (stop_loss d)) 4 = inr sl ->
  rhu (Some (take_profit d)) 4 = inr tp ->
  (action d = "BUY" /\ a = Action.BUY \/ action d = "SELL" /\ a = Action.SELL) ->
  instrument_ok (instrument d) = true ->
  decimal_ok e = true -> price_ok sl = true -> price_ok tp = true ->
  orders_refer (db w) ->
  gen (orders (db w)) <> "" ->
  (String.length (gen (orders (db w))) <= 50)%nat ->
  order_id_taken (Some (gen (orders (db w)))) (orders (db w)) = false ->
  let sid := next_pk (signals (db w)) in
  let pk := next_pk (orders (db w)) in
  let order := new_order (gen (orders (db w))) (BrokerAccount.user account)
                 sid a (instrument d) e sl tp in
  let r1 := View.post hash accounts View.no_fault request w in
  let r2 := Worker.process_signal_task gen rhu Worker.no_fault sid r1.2 in
  let r3 := Lifecycle.simulate_order_lifecycle gen Lifecycle.no_fault pk r2.2 in
  r1.1 = inr accepted_response /\ r2.1 = inr tt /\ r3.1 = inr tt
  /\ signals (db r3.2)
     = <[sid := TradingSignal.set_status SignalStatusChoices.SUCCESS
                  (View.new_signal account_pk account message)]>
         (signals (db w))
  /\ orders (db r3.2)
     = <[pk := Order.set_status OrderStatus.CLOSED order]> (orders (db w))
  /\ history (db r3.2) = history (db w)
       ++ [Worker.pending_history pk;
           Lifecycle.status_history OrderStatus.EXECUTED "Order executed" pk;
           Lifecycle.status_history OrderStatus.CLOSED "Order closed" pk]
  /\ queue r3.2 = queue w
       ++ [ProcessSignal sid;
           BroadcastOrderEvent (Worker.pending_event order (float_of_decimal e));
           SimulateOrderLifecycle pk;
           BroadcastOrderEvent
             (Lifecycle.status_event OrderStatus.EXECUTED
                (Order.set_status OrderStatus.EXECUTED order) (float_of_decimal e));
           BroadcastOrderEvent
             (Lifecycle.status_event OrderStatus.CLOSED
                (Order.set_status OrderStatus.CLOSED order) (float_of_decimal e))]
  /\ status_writes r3.2 = status_writes w
       ++ [(sid, SignalStatusChoices.PENDING);
           (sid, SignalStatusChoices.PROCESSING);
           (sid, SignalStatusChoices.SUCCESS)].
Proof.
  intros Hkey Hne Hacc Hhash Huniq Hct Hmsg Hmne Huser Hp He Hsl Htp Ha Hi Hde
    Hpsl Hptp Href Hgne Hglen Hgid sid pk order r1 r2 r3.
  pose proof (post_run_accepts hash accounts request w key account_pk account
                message name Hkey Hne Hacc Hhash Huniq Hct Hmsg Hmne Huser) as P1.
  set (w1 := received account_pk account message w) in *.
  assert (Hfree : signal_taken (Some sid) (orders (db w)) = false)
    by (apply fresh_signal_free; [exact Href | apply next_pk_fresh]).
  pose proof (worker_run_valid gen rhu sid w1
                (View.new_signal account_pk account message) d name e sl tp a
                ltac:(apply lookup_insert_eq) Hp Huser He Hsl Htp Ha Hi Hde
                Hpsl Hptp Hfree Hgne Hglen Hgid) as P2.
  change (orders (db w1)) with (orders (db w)) in P2.
  change (TradingSignal.user (View.new_signal account_pk account message))
    with (BrokerAccount.user account) in P2.
  fold order in P2.
  set (w2 := processed sid (View.new_signal account_pk account message) order
               (float_of_decimal e) w1) in *.
  pose proof (next_pk_fresh (orders (db w))) as Hfresh. fold pk in Hfresh.
  assert (C : clean_fields order = true).
  { unfold clean_fields, order, new_order.
    cbn [Order.order_id Order.instrument Order.entry_price Order.stop_loss
         Order.take_profit order_id_ok entry_price_ok].
    rewrite Hi, Hde, Hpsl, Hptp. rewrite !andb_true_r. now apply Nat.leb_le. }
  assert (V : validate_unique (Some pk) (orders (db w2)) order = true).
  { change (orders (db w2)) with (<[pk := order]> (orders (db w))).
    rewrite validate_unique_after_insert. unfold validate_unique.
    cbn [others]. rewrite delete_id by exact Hfresh.
    change (Order.order_id order) with (Some (gen (orders (db w)))).
    change (Order.signal order) with (Some sid).
    now rewrite Hgid, Hfree. }
  pose proof (lifecycle_run_closes gen pk w2 order e
                ltac:(apply lookup_insert_eq)
                ltac:(cbn [is_blank order new_order Order.order_id];
                      now apply String.eqb_neq)
                C V eq_refl) as P3.
  subst r3 r2 r1. rewrite P1. cbn [fst snd]. fold w1. rewrite P2.
  cbn [fst snd]. fold w2. rewrite P3. cbn [fst snd].
  split; [reflexivity |]. split; [reflexivity |]. split; [reflexivity |].
  unfold closed, w2, processed, w1, received, set_history, set_orders, set_signals.
  cbn [db signals orders history queue status_writes users].
  fold sid pk.
  rewrite !insert_insert_eq, <- !app_assoc. cbn [app].
  repeat split; reflexivity.
Qed.

(** X27 on the sample data: the BUY signal posted for the account of
    alice, with the generator of the identifiers of orders. *)
Lemma pipeline_end_to_end_witness :
  let gen := UniqueId.order_custom_id Cases.today in
  let r1 := View.post Cases.digest Cases.accounts View.no_fault Cases.request1
              Sample.world0 in
  let r2 := Worker.process_signal_task gen Sample.round_half_up Worker.no_fault
              2 r1.2 in
  let r3 := Lifecycle.simulate_order_lifecycle gen Lifecycle.no_fault 1 r2.2 in
  orders (db r3.2)
  = {[ 1 := {| Order.order_id := Some "INV0311260001"; Order.user := 7;
               Order.signal := Some 2; Order.action := Some Action.BUY;
               Order.instrument := "EURUSD"; Order.entry_price := Some 10860;
               Order.stop_loss := Some 10850; Order.take_profit := Some 10890;
               Order.status := OrderStatus.CLOSED |} ]}.
Proof.
  pose proof (pipeline_end_to_end Cases.digest Cases.accounts Cases.request1
    Sample.world0 "key-of-alice" 3 Cases.account_alice Sample.buy_text "alice"
    (UniqueId.order_custom_id Cases.today) Sample.round_half_up
    {| action := "BUY"; instrument := "EURUSD";
       price := Some (S754_finite false 4890909195324359 (-52));
       stop_loss := S754_finite false 4886405595696988 (-52);
       take_profit := S754_finite false 4904419994206470 (-52) |}
    10860 (Some 10850) (Some 10890) Action.BUY) as T.
  cbv zeta in T. destruct T as (_ & _ & _ & _ & O & _).
  - reflexivity.
  - discriminate.
  - reflexivity.
  - reflexivity.
  - intros k a Hk _. unfold Cases.accounts in Hk.
    apply lookup_singleton_Some in Hk as [<- _]. reflexivity.
  - vm_compute. reflexivity.
  - vm_compute. reflexivity.
  - vm_compute. discriminate.
  - reflexivity.
  - vm_compute. reflexivity.
  - vm_compute. reflexivity.
  - vm_compute. reflexivity.
  - vm_compute. reflexivity.
  - left. split; reflexivity.
  - vm_compute. reflexivity.
  - vm_compute. reflexivity.
  - vm_compute. reflexivity.
  - vm_compute. reflexivity.
  - intros k o s Hk. cbn in Hk. now rewrite lookup_empty in Hk.
  - apply UniqueIdFacts.generate_custom_id_nonempty.
  - vm_compute. lia.
  - vm_compute. reflexivity.
  - change (next_pk (signals (db Sample.world0))) with 2 in O.
    change (next_pk (orders (db Sample.world0))) with 1 in O.
    cbv zeta. rewrite O. vm_compute. reflexivity.
Defined.

End EndToEnd.
